(** * The gateway control service (control/grpc.py) as a state-and-exception
      program, and the properties of its resource transactions.

    The service methods of [GatewayService] are written as computations over
    an explicit world: the SPDK engine behind the JSON-RPC client, the local
    copy of the persisted record (the OMAP state), the cluster-context pool
    and a trace of the engine calls, lock operations and log records that a
    run produces.  A Python exception is an outcome of its own, so that
    [try]/[except] blocks and the errors that escape them are both visible.

    What lives outside control/grpc.py is a parameter of the development:
    the engine (any transition function on any state type), [json.loads],
    [json_format.MessageToJson], the enum tables of the protocol and the
    static configuration. The keys of the persisted record and the lock
    object come from state.py and are modelled after the specification. *)

From Stdlib Require Import ZArith String List Bool Lia Ascii.
From Stdlib Require Import DecimalString DecimalNat DecimalZ FinFun.
Import ListNotations.
Open Scope string_scope.
Open Scope Z_scope.

Set Warnings "-register-all".

(** ** Python values *)

(** The values that [json.loads] produces and that the engine replies with.
    Numbers are the integers: every number the service inspects (error
    codes, namespace ids) is one. [JNull] also stands for Python's [None]. *)
Inductive json : Type :=
| JNull
| JBool (b : bool)
| JNum (n : Z)
| JStr (s : string)
| JArr (l : list json)
| JObj (l : list (string * json)).

(** A Python dict with string keys: insertion ordered, one entry per key. *)
Definition dict (V : Type) : Type := list (string * V).

Fixpoint dict_get {V} (k : string) (d : dict V) : option V :=
  match d with
  | [] => None
  | (k', v) :: d' => if String.eqb k k' then Some v else dict_get k d'
  end.

(** [d[k] = v]: an existing key keeps its place, a new one goes last. *)
Fixpoint dict_set {V} (k : string) (v : V) (d : dict V) : dict V :=
  match d with
  | [] => [(k, v)]
  | (k', v') :: d' =>
      if String.eqb k k' then (k', v) :: d' else (k', v') :: dict_set k v d'
  end.

Fixpoint dict_del {V} (k : string) (d : dict V) : dict V :=
  match d with
  | [] => []
  | (k', v') :: d' =>
      if String.eqb k k' then dict_del k d' else (k', v') :: dict_del k d'
  end.

(** Truth value of a Python object, as [if x:] and [not x] take it. *)
Definition truthy (v : json) : bool :=
  match v with
  | JNull => false
  | JBool b => b
  | JNum n => negb (n =? 0)
  | JStr s => negb (String.eqb s "")
  | JArr l => match l with [] => false | _ => true end
  | JObj l => match l with [] => false | _ => true end
  end.

Definition str_truthy (s : string) : bool := negb (String.eqb s "").

(** [str(n)] for an integer. *)
Definition str_of_Z (n : Z) : string := NilZero.string_of_int (Z.to_int n).
Definition str_of_nat (n : nat) : string :=
  NilEmpty.string_of_uint (Nat.to_uint n).

(** [s.find(sub)]: [None] is Python's -1. *)
Definition find (sub s : string) : option nat := String.index 0 sub s.

(** [s[i:]] *)
Definition slice_from (i : nat) (s : string) : string :=
  substring i (String.length s - i) s.

(** ** Exceptions *)

Inductive exn : Type :=
| JSONRPCException (message : string)
| UnboundLocalError (name : string)
| KeyError (key : string)
| TypeError
| ValueError
| AttributeError
| NameError (name : string)
| AssertionError
| Exception (message : string).

(** [v[k]] for a string key [k]. *)
Definition getitem (v : json) (k : string) : exn + json :=
  match v with
  | JObj l => match dict_get k l with
              | Some x => inr x
              | None => inl (KeyError k)
              end
  | _ => inl TypeError
  end.

(** [v.get(k)], [None] when the key is absent. *)
Definition dict_method_get (v : json) (k : string) : exn + json :=
  match v with
  | JObj l => match dict_get k l with
              | Some x => inr x
              | None => inr JNull
              end
  | _ => inl AttributeError
  end.

(** [int(s)] for a string, in base 10: white space around the number, an
    optional sign, and decimal digits that single underscores may
    separate. *)
Definition is_space (c : ascii) : bool :=
  let n := nat_of_ascii c in
  ((9 <=? n) && (n <=? 13) || (28 <=? n) && (n <=? 32))%nat.

Fixpoint lstrip (l : list ascii) : list ascii :=
  match l with
  | c :: l' => if is_space c then lstrip l' else l
  | [] => []
  end.

Definition strip (l : list ascii) : list ascii :=
  rev (lstrip (rev (lstrip l))).

Definition digit_of (c : ascii) : option Z :=
  let n := nat_of_ascii c in
  if ((48 <=? n) && (n <=? 57))%nat then Some (Z.of_nat (n - 48)) else None.

(** [after_digit] tells whether the character before was a digit: a number
    starts and ends with a digit, and an underscore follows one. *)
Fixpoint int_of_digits (l : list ascii) (acc : Z) (after_digit : bool)
  : option Z :=
  match l with
  | [] => if after_digit then Some acc else None
  | c :: l' =>
      match digit_of c with
      | Some d => int_of_digits l' (10 * acc + d) true
      | None =>
          if Ascii.eqb c "_" && after_digit then int_of_digits l' acc false
          else None
      end
  end.

Definition int_of_str (s : string) : option Z :=
  match strip (list_ascii_of_string s) with
  | c :: l =>
      if Ascii.eqb c "-" then option_map Z.opp (int_of_digits l 0 false)
      else if Ascii.eqb c "+" then int_of_digits l 0 false
      else int_of_digits (c :: l) 0 false
  | [] => None
  end.

(** [int(v)] *)
Definition py_int (v : json) : exn + Z :=
  match v with
  | JNum n => inr n
  | JBool b => inr (if b then 1 else 0)
  | JStr s => match int_of_str s with
              | Some n => inr n
              | None => inl ValueError
              end
  | _ => inl TypeError
  end.

(** An integer-valued object read as an integer ([bool] is an [int]). *)
Definition as_int (v : json) : exn + Z :=
  match v with
  | JNum n => inr n
  | JBool b => inr (if b then 1 else 0)
  | _ => inl TypeError
  end.

(** Python's [==] on the values above. *)
Fixpoint json_eqb (a b : json) {struct a} : bool :=
  match a, b with
  | JNull, JNull => true
  | JBool x, JBool y => Bool.eqb x y
  | JNum x, JNum y => x =? y
  | JBool x, JNum y => (if x then 1 else 0) =? y
  | JNum x, JBool y => x =? (if y then 1 else 0)
  | JStr x, JStr y => String.eqb x y
  | JArr x, JArr y =>
      (fix go (l1 l2 : list json) {struct l1} : bool :=
         match l1, l2 with
         | [], [] => true
         | u :: l1', w :: l2' => json_eqb u w && go l1' l2'
         | _, _ => false
         end) x y
  | JObj x, JObj y =>
      (Nat.eqb (List.length x) (List.length y)) &&
      (fix go (l1 : list (string * json)) {struct l1} : bool :=
         match l1 with
         | [] => true
         | (k, u) :: l1' =>
             match dict_get k y with
             | Some w => json_eqb u w && go l1'
             | None => false
             end
         end) x
  | _, _ => false
  end.

(** What a [for] loop iterates over. *)
Definition iter_json (v : json) : exn + list json :=
  match v with
  | JArr l => inr l
  | JObj l => inr (map (fun kv => JStr (fst kv)) l)
  | JStr s => inr (map (fun c => JStr (String c EmptyString)) (list_ascii_of_string s))
  | _ => inl TypeError
  end.

(** A value for an unsigned 32-bit field of a protocol message. *)
Definition as_uint32 (v : json) : exn + Z :=
  match as_int v with
  | inl e => inl e
  | inr n => if (n <? 0) || (4294967295 <? n) then inl ValueError else inr n
  end.

(** A value given for an unsigned 32-bit field to the constructor of a
    protocol message: [None] leaves the field unset, and it reads as 0. *)
Definition message_uint32 (v : json) : exn + Z :=
  match v with
  | JNull => inr 0
  | _ => as_uint32 v
  end.

(** errno *)
Definition ENOENT : Z := 2.
Definition EBUSY : Z := 16.
Definition EEXIST : Z := 17.
Definition ENODEV : Z := 19.
Definition EINVAL : Z := 22.
Definition ENOKEY : Z := 126.

Definition MAX_ANA_GROUPS : Z := 4.

(** ** Protocol messages

    One module per request message of the gateway protocol, with the fields
    the service reads.  An [optional] scalar of the protocol whose presence
    the code tests with [HasField] is an [option]. *)

Module create_subsystem_req.
Record t := mk {
  subsystem_nqn : string; serial_number : string; max_namespaces : Z;
  ana_reporting : bool; enable_ha : bool }.
End create_subsystem_req.

Module delete_subsystem_req.
Record t := mk { subsystem_nqn : string; force : bool }.
End delete_subsystem_req.

Module namespace_add_req.
Record t := mk {
  rbd_pool_name : string; rbd_image_name : string; subsystem_nqn : string;
  nsid : Z; block_size : Z; uuid : string; anagrpid : Z }.
End namespace_add_req.

Module namespace_change_load_balancing_group_req.
Record t := mk {
  subsystem_nqn : string; nsid : Z; uuid : string; anagrpid : Z }.
End namespace_change_load_balancing_group_req.

Module namespace_delete_req.
Record t := mk { subsystem_nqn : string; nsid : Z; uuid : string }.
End namespace_delete_req.

Module namespace_resize_req.
Record t := mk {
  subsystem_nqn : string; nsid : Z; uuid : string; new_size : Z }.
End namespace_resize_req.

Module namespace_get_io_stats_req.
Record t := mk { subsystem_nqn : string; nsid : Z; uuid : string }.
End namespace_get_io_stats_req.

Module namespace_set_qos_req.
Record t := mk {
  subsystem_nqn : string; nsid : Z; uuid : string;
  rw_ios_per_second : option Z; rw_mbytes_per_second : option Z;
  r_mbytes_per_second : option Z; w_mbytes_per_second : option Z }.
End namespace_set_qos_req.

Module remove_host_req.
Record t := mk { subsystem_nqn : string; host_nqn : string }.
End remove_host_req.

Module create_listener_req.
Record t := mk {
  nqn : string; gateway_name : string; traddr : string; trtype : Z;
  adrfam : Z; trsvcid : Z; auto_ha_state : Z }.
End create_listener_req.

Module delete_listener_req.
Record t := mk {
  nqn : string; gateway_name : string; traddr : string; trtype : Z;
  adrfam : Z; trsvcid : Z }.
End delete_listener_req.

(** What [json_format.MessageToJson] is applied to. *)
Inductive message : Type :=
| MsgSubsystem (r : create_subsystem_req.t)
| MsgNamespace (r : namespace_add_req.t)
| MsgQos (r : namespace_set_qos_req.t)
| MsgListener (r : create_listener_req.t).

(** The status envelopes [req_status], [nsid_status] and [bdev_status]: the
    status code and the payload. The text of [error_message] is not kept;
    every expression evaluated to build it that can raise is. *)
Record reply : Type := mkReply {
  status : Z;
  nsid : Z;
  bdev_name : string }.

Definition req_status (st : Z) : reply := mkReply st 0 "".
Definition nsid_status (st : Z) (n : Z) : reply := mkReply st n "".
Definition bdev_status (st : Z) (name : string) : reply := mkReply st 0 name.

(** ** The engine's JSON-RPC calls (spdk.rpc.bdev, spdk.rpc.nvmf) *)

Inductive rpc : Type :=
| bdev_rbd_register_cluster (name : string) (user core_mask : option string)
| bdev_rbd_create (name cluster_name pool_name rbd_name : string)
                  (block_size : Z) (uuid : string)
| bdev_rbd_resize (name : json) (new_size : Z)
| bdev_rbd_delete (name : json)
| bdev_set_qos_limit (name : json)
    (rw_ios_per_sec rw_mbytes_per_sec r_mbytes_per_sec w_mbytes_per_sec : option Z)
| bdev_get_iostat (name : json)
| nvmf_create_subsystem (nqn serial_number : string)
    (max_namespaces min_cntlid max_cntlid : Z) (ana_reporting : bool)
| nvmf_delete_subsystem (nqn : string)
| nvmf_subsystem_add_ns (nqn : string) (bdev_name nsid : json) (anagrpid : Z)
                        (uuid : json)
| nvmf_subsystem_remove_ns (nqn : string) (nsid : json)
| nvmf_get_subsystems (nqn : string)
| nvmf_subsystem_allow_any_host (nqn : string) (disable : bool)
| nvmf_subsystem_remove_host (nqn host : string)
| nvmf_subsystem_add_listener (nqn trtype traddr trsvcid adrfam : string)
| nvmf_subsystem_remove_listener (nqn trtype traddr trsvcid adrfam : string)
| nvmf_subsystem_listener_set_ana_state
    (nqn ana_state trtype traddr trsvcid adrfam : string) (anagrpid : Z).

(** A call returns a value or raises. *)
Inductive result : Type :=
| Returns (v : json)
| Raises (e : exn).

(** The calls that only read the engine's state. *)
Definition is_query (c : rpc) : bool :=
  match c with
  | nvmf_get_subsystems _ | bdev_get_iostat _ => true
  | _ => false
  end.

Inductive lock : Type := omap_lock | rpc_lock.

Definition lock_eqb (a b : lock) : bool :=
  match a, b with
  | omap_lock, omap_lock | rpc_lock, rpc_lock => true
  | _, _ => false
  end.

Inductive level : Type := INFO | WARNING | ERROR.

(** What a run leaves behind, oldest first. Log records are kept at the
    places where the properties below speak of logging. *)
Inductive event : Type :=
| Call (c : rpc)
| Acquire (l : lock)
| Release (l : lock)
| Log (lv : level) (what : string).

Definition engine_calls (t : list event) : list rpc :=
  flat_map (fun e => match e with Call c => [c] | _ => [] end) t.

Definition mutations (t : list event) : list rpc :=
  filter (fun c => negb (is_query c)) (engine_calls t).

(** ** The persisted record (state.py) *)

Module GatewayState.

(** Modelled from the spec: the key prefixes and the key builders of
    state.py are not part of control/grpc.py. The spec gives each kind of
    resource a key made of a kind-specific prefix and the identity of the
    resource; the fields of the identity are joined here with an
    underscore. *)
Definition SUBSYSTEM_PREFIX : string := "subsystem_".
Definition NAMESPACE_PREFIX : string := "namespace_".
Definition NAMESPACE_QOS_PREFIX : string := "qos_".
Definition HOST_PREFIX : string := "host_".
Definition LISTENER_PREFIX : string := "listener_".

Definition build_subsystem_key (nqn : string) : string :=
  SUBSYSTEM_PREFIX ++ nqn.
Definition build_namespace_key (nqn nsid : string) : string :=
  NAMESPACE_PREFIX ++ nqn ++ "_" ++ nsid.
Definition build_namespace_qos_key (nqn nsid : string) : string :=
  NAMESPACE_QOS_PREFIX ++ nqn ++ "_" ++ nsid.
Definition build_host_key (nqn host : string) : string :=
  HOST_PREFIX ++ nqn ++ "_" ++ host.
Definition build_listener_key (nqn gw trtype traddr trsvcid : string)
  : string :=
  LISTENER_PREFIX ++ nqn ++ "_" ++ gw ++ "_" ++ trtype ++ "_" ++ traddr
    ++ "_" ++ trsvcid.

(** The writes the service asks of the record. *)
Inductive op : Type :=
| add_subsystem (nqn val : string)
| remove_subsystem (nqn : string)
| add_namespace (nqn nsid val : string)
| remove_namespace (nqn nsid : string)
| add_namespace_qos (nqn nsid val : string)
| remove_namespace_qos (nqn nsid : string)
| add_host (nqn host val : string)
| remove_host (nqn host : string)
| add_listener (nqn gw trtype traddr trsvcid val : string)
| remove_listener (nqn gw trtype traddr trsvcid : string).

(** Modelled from the spec: add and remove of state.py, on the local
    state, a mapping from keys to the JSON text of the request that made
    the resource. *)
Definition apply (o : op) (st : dict string) : dict string :=
  match o with
  | add_subsystem nqn v => dict_set (build_subsystem_key nqn) v st
  | remove_subsystem nqn => dict_del (build_subsystem_key nqn) st
  | add_namespace nqn n v => dict_set (build_namespace_key nqn n) v st
  | remove_namespace nqn n => dict_del (build_namespace_key nqn n) st
  | add_namespace_qos nqn n v =>
      dict_set (build_namespace_qos_key nqn n) v st
  | remove_namespace_qos nqn n =>
      dict_del (build_namespace_qos_key nqn n) st
  | add_host nqn h v => dict_set (build_host_key nqn h) v st
  | remove_host nqn h => dict_del (build_host_key nqn h) st
  | add_listener nqn gw ty ta ts v =>
      dict_set (build_listener_key nqn gw ty ta ts) v st
  | remove_listener nqn gw ty ta ts =>
      dict_del (build_listener_key nqn gw ty ta ts) st
  end.

End GatewayState.

(** ** The world of a run *)

Inductive enum : Type := TransportType | AddressFamily | AutoHAState.

(** Everything the service is given from outside control/grpc.py. [E] is
    the engine's state. *)
Class Environment (E : Type) : Type := {
  (** the engine behind [spdk_rpc_client] *)
  spdk : rpc -> E -> result * E;
  (** [json.loads]; [None] when it raises *)
  json_loads : string -> option json;
  (** [json_format.MessageToJson] *)
  MessageToJson : message -> string;
  (** [str] of a value inside an f-string *)
  py_str : json -> string;
  (** whether a write of the persisted record raises in a given state *)
  omap_raises : GatewayState.op -> dict string -> bool;
  (** whether the values read for the statistics of a namespace (from the
      listed namespace, the reply of the engine and its first device) fit
      the fields of [pb2.namespace_io_stats_info] *)
  io_stats_fit : json -> json -> json -> bool;
  (** [GatewayEnumUtils] *)
  get_key_from_value : enum -> Z -> option string;
  get_value_from_key : enum -> string -> Z;
  (** [GatewayConfig] *)
  DISCOVERY_NQN : string;
  gateway_name : string;
  config_bdevs_per_cluster : Z;
  config_librbd_core_mask : option string;
  config_ceph_id : string;
  min_controller_id : Z;
  max_controller_id : Z;
  (** the draw of [random.randint] and of [uuid.uuid4] *)
  randint : Z -> Z -> Z;
  uuid4 : string
}.

Record World (E : Type) : Type := mkWorld {
  engine : E;
  (** [gateway_state.local.get_state()] *)
  omap : dict string;
  (** [self.clusters], [self.current_cluster] *)
  clusters : dict Z;
  current_cluster : option string;
  (** the locks now held *)
  held : list lock;
  trace : list event }.

Arguments mkWorld {E}.
Arguments engine {E}.
Arguments omap {E}.
Arguments clusters {E}.
Arguments current_cluster {E}.
Arguments held {E}.
Arguments trace {E}.

(** ** Computations: state and exceptions *)

Inductive outcome (A : Type) : Type :=
| Ok (a : A)
| Raised (e : exn).

Arguments Ok {A}.
Arguments Raised {A}.

Definition M (E A : Type) : Type := World E -> outcome A * World E.

Definition ret {E A} (a : A) : M E A := fun w => (Ok a, w).

Definition raise {E A} (e : exn) : M E A := fun w => (Raised e, w).

Definition bind {E A B} (m : M E A) (k : A -> M E B) : M E B :=
  fun w => match m w with
           | (Ok a, w') => k a w'
           | (Raised e, w') => (Raised e, w')
           end.

(** [try: m except Exception as ex: h ex] *)
Definition try_except {E A} (m : M E A) (h : exn -> M E A) : M E A :=
  fun w => match m w with
           | (Ok a, w') => (Ok a, w')
           | (Raised e, w') => h e w'
           end.

(** [try: m finally: f] *)
Definition finally {E A} (m : M E A) (f : World E -> World E) : M E A :=
  fun w => let (o, w') := m w in (o, f w').

Definition lift {E A} (r : exn + A) : M E A :=
  match r with
  | inl e => raise e
  | inr a => ret a
  end.

Declare Scope py_scope.
Delimit Scope py_scope with py.
Notation "x <- m ;; k" := (bind m (fun x => k))
  (at level 61, m at next level, right associativity) : py_scope.
Notation "m ;;; k" := (bind m (fun _ => k))
  (at level 61, right associativity) : py_scope.
Open Scope py_scope.

Definition emit {E} (e : event) : M E unit :=
  fun w => (Ok tt, mkWorld (engine w) (omap w) (clusters w)
                     (current_cluster w) (held w) (trace w ++ [e])).

Definition log {E} (lv : level) (what : string) : M E unit :=
  emit (Log lv what).

Definition get_state {E} : M E (dict string) := fun w => (Ok (omap w), w).

Definition skip {E} : M E unit := ret tt.

(** ** The service *)

Section GatewayService.

Context {E : Type} `{Env : Environment E}.

Local Abbreviation M := (M E).

(** One JSON-RPC call on the engine; the call is recorded. *)
Definition call (c : rpc) : M json :=
  fun w =>
    let (r, e') := spdk c (engine w) in
    let w' := mkWorld e' (omap w) (clusters w) (current_cluster w)
                (held w) (trace w ++ [Call c]) in
    match r with
    | Returns v => (Ok v, w')
    | Raises ex => (Raised ex, w')
    end.

(** One write of the persisted record through [self.gateway_state]. *)
Definition gateway_state (o : GatewayState.op) : M unit :=
  fun w =>
    if omap_raises o (omap w) then (Raised (Exception "omap"), w)
    else (Ok tt, mkWorld (engine w) (GatewayState.apply o (omap w))
                   (clusters w) (current_cluster w) (held w) (trace w)).

Definition is_held (l : lock) (w : World E) : bool :=
  existsb (lock_eqb l) (held w).

Fixpoint drop_lock (l : lock) (ls : list lock) : list lock :=
  match ls with
  | [] => []
  | l' :: ls' => if lock_eqb l l' then ls' else l' :: drop_lock l ls'
  end.

Definition acquire (l : lock) : M unit :=
  fun w => (Ok tt, mkWorld (engine w) (omap w) (clusters w)
                     (current_cluster w) (l :: held w)
                     (trace w ++ [Acquire l])).

Definition release (l : lock) (w : World E) : World E :=
  mkWorld (engine w) (omap w) (clusters w) (current_cluster w)
    (drop_lock l (held w)) (trace w ++ [Release l]).

(** [with lock: m] *)
Definition with_lock {A} (l : lock) (m : M A) : M A :=
  acquire l ;;; finally m (release l).

(** Modelled from the spec: the lock object of state.py is not part of
    control/grpc.py. [with self.omap_lock(context=context): m] inside a
    call that already owns the distributed lock acquires nothing; outside
    one it takes the lock for the time of [m]. *)
Definition with_omap_lock {A} (context : bool) (m : M A) : M A :=
  fun w => if is_held omap_lock w then m w else with_lock omap_lock m w.

(** Modelled from the spec: [omap_lock.execute_omap_locking_function] of
    state.py takes the distributed lock, runs the function it is given and
    releases the lock on every exit path. *)
Definition execute_omap_locking_function {A} (f : M A) : M A :=
  with_lock omap_lock f.

(** [assert self.omap_lock.locked()] *)
Definition assert_omap_locked : M unit :=
  fun w => if is_held omap_lock w then (Ok tt, w)
           else (Raised AssertionError, w).

Definition _grpc_function_with_lock {R A}
    (func : R -> bool -> M A) (request : R) (context : bool) : M A :=
  with_lock rpc_lock (func request context).

Definition execute_grpc_function {R A}
    (func : R -> bool -> M A) (request : R) (context : bool) : M A :=
  execute_omap_locking_function
    (_grpc_function_with_lock func request context).

(** [try: body except Exception as ex: return on_error ex], followed by
    the rest [k] of the function. *)
Definition try_or_return {A B} (body : M A) (on_error : exn -> M B)
    (k : A -> M B) : M B :=
  fun w => match body w with
           | (Ok a, w') => k a w'
           | (Raised e, w') => on_error e w'
           end.

(** *** Error translator *)

Definition json_error_text : string := "Got JSON-RPC error response".

(** The [try] block of [parse_json_exeption]: the value bound to [resp],
    or [None] when the block ends without binding it (a marker is missing,
    or [json.loads] raised and the handler swallowed the error). *)
Definition parse_json_exeption_try (message : string) : option json :=
  match find json_error_text message with
  | Some resp_index =>
      let resp_str :=
        slice_from (resp_index + String.length json_error_text) message in
      match find "response:" resp_str with
      | Some resp_index =>
          let resp_str :=
            slice_from (resp_index + String.length "response:") resp_str in
          json_loads resp_str
      | None => None
      end
  | None => None
  end.

(** [resp["code"] = -resp["code"]] when the code is negative. *)
Definition normalize_code (resp : json) : exn + json :=
  match getitem resp "code" with
  | inl e => inl e
  | inr code =>
      match as_int code with
      | inl e => inl e
      | inr n =>
          if n <? 0 then
            match resp with
            | JObj l => inr (JObj (dict_set "code" (JNum (- n)) l))
            | _ => inl TypeError
            end
          else inr resp
      end
  end.

(** The function initialises [rsp] and reads [resp]: where the [try]
    block bound nothing, reading [resp] raises [UnboundLocalError]. *)
Definition parse_json_exeption (ex : exn) : exn + json :=
  match ex with
  | JSONRPCException message =>
      match parse_json_exeption_try message with
      | None => inl (UnboundLocalError "resp")
      | Some resp => if truthy resp then normalize_code resp else inr resp
      end
  | _ => inr JNull
  end.

(** The handler every engine call is wrapped in:
    [resp = self.parse_json_exeption(ex); status = errno.EINVAL;
     if resp: status = resp["code"]; errmsg = f"...{resp['message']}"]. *)
Definition failure_status (ex : exn) : exn + Z :=
  match parse_json_exeption ex with
  | inl e => inl e
  | inr resp =>
      if truthy resp then
        match getitem resp "code" with
        | inl e => inl e
        | inr code =>
            match getitem resp "message" with
            | inl e => inl e
            | inr _ => as_int code
            end
        end
      else inr EINVAL
  end.

(** *** Cluster context pool *)

Definition set_pool (cl : dict Z) (cur : option string) : M unit :=
  fun w => (Ok tt, mkWorld (engine w) (omap w) cl cur (held w) (trace w)).

Definition get_clusters : M (dict Z) := fun w => (Ok (clusters w), w).
Definition get_current_cluster : M (option string) :=
  fun w => (Ok (current_cluster w), w).

Definition bdevs_per_cluster : Z := config_bdevs_per_cluster.

Definition rados_id : option string :=
  if String.eqb config_ceph_id "" then None else Some config_ceph_id.

Definition _init_cluster_context : M unit :=
  set_pool [] None ;;;
  if bdevs_per_cluster <? 1 then raise (Exception "invalid configuration")
  else ret tt.

Definition _alloc_cluster : M string :=
  cl <- get_clusters ;;
  let name := "cluster_context_" ++ str_of_nat (List.length cl) in
  _ <- call (bdev_rbd_register_cluster name rados_id
               config_librbd_core_mask) ;;
  ret name.

(** [_get_cluster] calls itself once, after it has dropped a full
    context; [depth] bounds the nesting of calls. *)
Fixpoint _get_cluster_at (depth : nat) : M string :=
  cur <- get_current_cluster ;;
  match cur with
  | None =>
      cluster_name <- _alloc_cluster ;;
      cl <- get_clusters ;;
      set_pool (dict_set cluster_name 1 cl) (Some cluster_name) ;;;
      ret cluster_name
  | Some current =>
      cl <- get_clusters ;;
      match dict_get current cl with
      | None => raise (KeyError current)
      | Some n =>
          if bdevs_per_cluster <=? n then
            set_pool cl None ;;;
            match depth with
            | O => raise (Exception "RecursionError")
            | S depth' => _get_cluster_at depth'
            end
          else
            set_pool (dict_set current (n + 1) cl) (Some current) ;;;
            ret current
      end
  end.

Definition _get_cluster : M string := _get_cluster_at 1.

(** *** Block devices *)

Definition create_bdev (name uuid rbd_pool_name rbd_image_name : string)
    (block_size : Z) : M reply :=
  try_or_return
    (cluster_name <- _get_cluster ;;
     call (bdev_rbd_create name cluster_name rbd_pool_name rbd_image_name
             block_size uuid))
    (fun ex =>
       status <- lift (failure_status ex) ;;
       ret (bdev_status status ""))
    (fun bdev_name =>
       (* Just in case SPDK failed with no exception *)
       if negb (truthy bdev_name) then ret (bdev_status EINVAL "")
       else ret (bdev_status 0 name)).

Definition resize_bdev (bdev_name : json) (new_size : Z) : M reply :=
  with_lock rpc_lock
    (try_or_return
       (call (bdev_rbd_resize bdev_name new_size))
       (fun ex =>
          status <- lift (failure_status ex) ;;
          ret (req_status status))
       (fun r =>
          if negb (truthy r) then ret (req_status EINVAL)
          else ret (req_status 0))).

Definition delete_bdev (bdev_name : json) : M reply :=
  try_or_return
    (call (bdev_rbd_delete bdev_name))
    (fun ex =>
       status <- lift (failure_status ex) ;;
       ret (req_status status))
    (fun r =>
       (* Just in case SPDK failed with no exception *)
       if negb (truthy r) then ret (req_status EINVAL)
       else ret (req_status 0)).

(** *** Subsystems *)

Definition is_discovery_nqn (nqn : string) : bool :=
  String.eqb nqn DISCOVERY_NQN.

(** The loop of [subsystem_already_exists] over [state.items()]. *)
Fixpoint subsystem_already_exists_in (nqn : string) (state : dict string)
  : bool :=
  match state with
  | [] => false
  | (key, val) :: rest =>
      if negb (prefix GatewayState.SUBSYSTEM_PREFIX key) then
        subsystem_already_exists_in nqn rest
      else
        match json_loads val with
        | None => subsystem_already_exists_in nqn rest
        | Some subsys =>
            match getitem subsys "subsystem_nqn" with
            | inl _ => subsystem_already_exists_in nqn rest
            | inr subnqn =>
                if json_eqb subnqn (JStr nqn) then true
                else subsystem_already_exists_in nqn rest
            end
        end
  end.

Definition subsystem_already_exists (context : bool) (nqn : string)
  : M bool :=
  if negb context then ret false
  else state <- get_state ;; ret (subsystem_already_exists_in nqn state).

(** The loop of [serial_number_already_used]; [JNull] is [None]. *)
Fixpoint serial_number_already_used_in (serial : string)
    (state : dict string) : json :=
  match state with
  | [] => JNull
  | (key, val) :: rest =>
      if negb (prefix GatewayState.SUBSYSTEM_PREFIX key) then
        serial_number_already_used_in serial rest
      else
        match json_loads val with
        | None => serial_number_already_used_in serial rest
        | Some subsys =>
            match getitem subsys "serial_number" with
            | inl _ => serial_number_already_used_in serial rest
            | inr sn =>
                if json_eqb (JStr serial) sn then
                  match getitem subsys "subsystem_nqn" with
                  | inl _ => serial_number_already_used_in serial rest
                  | inr subnqn => subnqn
                  end
                else serial_number_already_used_in serial rest
            end
        end
  end.

Definition serial_number_already_used (context : bool) (serial : string)
  : M json :=
  if negb context then ret JNull
  else state <- get_state ;;
       ret (serial_number_already_used_in serial state).

(** [request.serial_number = f"SPDK{randser}"] when none was given. *)
Definition with_serial_number (request : create_subsystem_req.t)
  : create_subsystem_req.t :=
  if negb (str_truthy (create_subsystem_req.serial_number request)) then
    create_subsystem_req.mk
      (create_subsystem_req.subsystem_nqn request)
      ("SPDK" ++ str_of_Z (randint 2 99999999999999))
      (create_subsystem_req.max_namespaces request)
      (create_subsystem_req.ana_reporting request)
      (create_subsystem_req.enable_ha request)
  else request.

Definition create_subsystem_safe (request : create_subsystem_req.t)
    (context : bool) : M reply :=
  if is_discovery_nqn (create_subsystem_req.subsystem_nqn request) then
    ret (req_status EINVAL)
  else if create_subsystem_req.enable_ha request
          && negb (create_subsystem_req.ana_reporting request) then
    ret (req_status EINVAL)
  else
    let min_cntlid := min_controller_id in
    let max_cntlid := max_controller_id in
    if max_cntlid <? min_cntlid then ret (req_status EINVAL)
    else
      let request := with_serial_number request in
      let nqn := create_subsystem_req.subsystem_nqn request in
      with_omap_lock context
        (try_or_return
           (subsys_already_exists <- subsystem_already_exists context nqn ;;
            subsys_using_serial <-
              (if subsys_already_exists then ret JNull
               else serial_number_already_used context
                      (create_subsystem_req.serial_number request)) ;;
            if subsys_already_exists || truthy subsys_using_serial then
              ret (inl (req_status EEXIST))
            else
              r <- call (nvmf_create_subsystem nqn
                           (create_subsystem_req.serial_number request)
                           (create_subsystem_req.max_namespaces request)
                           min_cntlid max_cntlid
                           (create_subsystem_req.ana_reporting request)) ;;
              ret (inr r))
           (fun ex =>
              status <- lift (failure_status ex) ;;
              ret (req_status status))
           (fun r =>
              match r with
              | inl early => ret early
              | inr r =>
                  (* Just in case SPDK failed with no exception *)
                  if negb (truthy r) then ret (req_status EINVAL)
                  else if context then
                    (* Update gateway state *)
                    try_except
                      (gateway_state
                         (GatewayState.add_subsystem nqn
                            (MessageToJson (MsgSubsystem request))) ;;;
                       ret (req_status 0))
                      (fun _ => ret (req_status EINVAL))
                  else ret (req_status 0)
              end)).

Definition create_subsystem (request : create_subsystem_req.t)
    (context : bool) : M reply :=
  execute_grpc_function create_subsystem_safe request context.

(** *** Namespaces *)

(** A value as an f-string shows it. *)
Definition fstr (v : json) : string :=
  match v with
  | JStr s => s
  | JNum n => str_of_Z n
  | _ => py_str v
  end.

Definition create_namespace (subsystem_nqn : string) (bdev_name nsid : json)
    (anagrpid : Z) (uuid : json) (context : bool) : M reply :=
  (if context then assert_omap_locked else skip) ;;;
  if MAX_ANA_GROUPS <? anagrpid then ret (nsid_status EINVAL 0)
  else if is_discovery_nqn subsystem_nqn then ret (nsid_status EINVAL 0)
  else
    try_or_return
      (call (nvmf_subsystem_add_ns subsystem_nqn bdev_name nsid anagrpid
               uuid))
      (fun ex =>
         status <- lift (failure_status ex) ;;
         ret (nsid_status status 0))
      (fun nsid =>
         (* Just in case SPDK failed with no exception *)
         if negb (truthy nsid) then ret (nsid_status EINVAL 0)
         else n <- lift (as_uint32 nsid) ;; ret (nsid_status 0 n)).

(** The parameter [uuid] hides the module [uuid]: with nothing given,
    [uuid.uuid4()] is an attribute error. *)
Definition find_unique_bdev_name (uuid : json) : exn + string :=
  if negb (truthy uuid) then inl AttributeError
  else inr ("bdev_" ++ fstr uuid).

Definition remove_namespace_from_state (nqn : string) (nsid : json)
    (context : bool) : M reply :=
  if negb context then ret (req_status 0)
  else
    (* If we got here context is not None, so we must hold the OMAP lock *)
    assert_omap_locked ;;;
    try_except
      (gateway_state (GatewayState.remove_namespace_qos nqn (fstr nsid)))
      (fun _ => skip) ;;;
    try_except
      (gateway_state (GatewayState.remove_namespace nqn (fstr nsid)) ;;;
       ret (req_status 0))
      (fun _ => ret (req_status EINVAL)).

Definition remove_namespace (subsystem_nqn : string) (nsid : json)
    (context : bool) : M reply :=
  (if context then assert_omap_locked else skip) ;;;
  if is_discovery_nqn subsystem_nqn then ret (req_status EINVAL)
  else
    try_or_return
      (call (nvmf_subsystem_remove_ns subsystem_nqn nsid))
      (fun ex =>
         status <- lift (failure_status ex) ;;
         ret (req_status status))
      (fun r =>
         (* Just in case SPDK failed with no exception *)
         if negb (truthy r) then ret (req_status EINVAL)
         else ret (req_status 0)).

(** The inner loop of [find_namespace_and_bdev_name] over the namespaces
    of a subsystem. The pair is ([found_ns], [bdev_name]); the flag tells
    whether the loop ran to its end ([true]) or an item raised. *)
Fixpoint scan_namespaces (nsid : Z) (uuid : string) (ns_list : list json)
    (acc : json * json) : (json * json) * bool :=
  match ns_list with
  | [] => (acc, true)
  | n :: rest =>
      (* [nsid > 0 and nsid != n["nsid"]]; [None] when the item raises *)
      let check_nsid :=
        if 0 <? nsid then
          match getitem n "nsid" with
          | inl _ => None
          | inr i => Some (negb (json_eqb (JNum nsid) i))
          end
        else Some false in
      (* [uuid and uuid != n["uuid"]] *)
      let check_uuid :=
        if str_truthy uuid then
          match getitem n "uuid" with
          | inl _ => None
          | inr u => Some (negb (json_eqb (JStr uuid) u))
          end
        else Some false in
      match check_nsid with
      | None => (acc, false)
      | Some true => scan_namespaces nsid uuid rest acc
      | Some false =>
          match check_uuid with
          | None => (acc, false)
          | Some true => scan_namespaces nsid uuid rest acc
          | Some false =>
              match getitem n "bdev_name" with
              | inl _ => ((n, snd acc), false)
              | inr b => scan_namespaces nsid uuid rest (n, b)
              end
          end
      end
  end.

(** The outer loop, over the subsystems the engine listed. *)
Fixpoint scan_subsystems (nqn : string) (nsid : Z) (uuid : string)
    (subsystems : list json) (acc : json * json) : json * json :=
  match subsystems with
  | [] => acc
  | s :: rest =>
      match getitem s "nqn" with
      | inl _ => scan_subsystems nqn nsid uuid rest acc
      | inr q =>
          if negb (json_eqb q (JStr nqn)) then
            scan_subsystems nqn nsid uuid rest acc
          else
            let ns_list := match getitem s "namespaces" with
                           | inl _ => JArr []
                           | inr l => l
                           end in
            match iter_json ns_list with
            | inl _ => scan_subsystems nqn nsid uuid rest acc
            | inr l =>
                match scan_namespaces nsid uuid l acc with
                | (acc', true) => acc'
                | (acc', false) => scan_subsystems nqn nsid uuid rest acc'
                end
            end
      end
  end.

Definition find_namespace_and_bdev_name (nqn : string) (nsid : Z)
    (uuid : string) (needs_lock : bool) : M (json * json) :=
  if (nsid <=? 0) && negb (str_truthy uuid) then ret (JNull, JNull)
  else
    let lock_to_use (m : M (option json)) : M (option json) :=
      if needs_lock then with_lock rpc_lock m else m in
    r <- lock_to_use
           (try_except
              (r <- call (nvmf_get_subsystems nqn) ;; ret (Some r))
              (fun _ => ret None)) ;;
    match r with
    | None => ret (JNull, JNull)
    | Some r =>
        if negb (truthy r) then ret (JNull, JNull)
        else
          l <- lift (iter_json r) ;;
          ret (scan_subsystems nqn nsid uuid l (JNull, JNull))
    end.

Definition namespace_delete_safe (request : namespace_delete_req.t)
    (context : bool) : M reply :=
  let nqn := namespace_delete_req.subsystem_nqn request in
  with_omap_lock context
    (find_ret <- find_namespace_and_bdev_name nqn
                   (namespace_delete_req.nsid request)
                   (namespace_delete_req.uuid request) false ;;
     if negb (truthy (fst find_ret)) then ret (req_status ENODEV)
     else
       let bdev_name := snd find_ret in
       let ns := fst find_ret in
       nsid <- lift (getitem ns "nsid") ;;
       r <- remove_namespace nqn nsid context ;;
       if negb (status r =? 0) then ret r
       else
         _ <- remove_namespace_from_state nqn nsid context ;;
         if truthy bdev_name then
           ret_del <- delete_bdev bdev_name ;;
           if negb (status ret_del =? 0) then
             ret (nsid_status (status ret_del) 0)
           else ret (req_status 0)
         else ret (req_status 0)).

Definition namespace_delete (request : namespace_delete_req.t)
    (context : bool) : M reply :=
  execute_grpc_function namespace_delete_safe request context.

(** The loop of [get_subsystem_namespaces]. *)
Fixpoint get_subsystem_namespaces_in (nqn : string) (state : dict string)
  : list json :=
  match state with
  | [] => []
  | (key, val) :: rest =>
      if negb (prefix GatewayState.NAMESPACE_PREFIX key) then
        get_subsystem_namespaces_in nqn rest
      else
        match json_loads val with
        | None => get_subsystem_namespaces_in nqn rest
        | Some ns =>
            match getitem ns "subsystem_nqn" with
            | inl _ => get_subsystem_namespaces_in nqn rest
            | inr q =>
                if json_eqb q (JStr nqn) then
                  match getitem ns "nsid" with
                  | inl _ => get_subsystem_namespaces_in nqn rest
                  | inr nsid => nsid :: get_subsystem_namespaces_in nqn rest
                  end
                else get_subsystem_namespaces_in nqn rest
            end
        end
  end.

Definition get_subsystem_namespaces (nqn : string) : M (list json) :=
  state <- get_state ;; ret (get_subsystem_namespaces_in nqn state).

Fixpoint subsystem_has_listeners_in (nqn : string) (state : dict string)
  : bool :=
  match state with
  | [] => false
  | (key, val) :: rest =>
      if negb (prefix GatewayState.LISTENER_PREFIX key) then
        subsystem_has_listeners_in nqn rest
      else
        match json_loads val with
        | None => subsystem_has_listeners_in nqn rest
        | Some lsnr =>
            match getitem lsnr "nqn" with
            | inl _ => subsystem_has_listeners_in nqn rest
            | inr q =>
                if json_eqb q (JStr nqn) then true
                else subsystem_has_listeners_in nqn rest
            end
        end
  end.

Definition subsystem_has_listeners (nqn : string) : M bool :=
  state <- get_state ;; ret (subsystem_has_listeners_in nqn state).

Definition remove_subsystem_from_state (nqn : string) (context : bool)
  : M reply :=
  if negb context then ret (req_status 0)
  else
    (* Update gateway state *)
    try_except
      (gateway_state (GatewayState.remove_subsystem nqn) ;;;
       ret (req_status 0))
      (fun _ => ret (req_status EINVAL)).

Definition delete_subsystem_safe (request : delete_subsystem_req.t)
    (context : bool) : M reply :=
  let nqn := delete_subsystem_req.subsystem_nqn request in
  with_omap_lock context
    (try_or_return
       (call (nvmf_delete_subsystem nqn))
       (fun ex =>
          _ <- remove_subsystem_from_state nqn context ;;
          status <- lift (failure_status ex) ;;
          ret (req_status status))
       (fun r =>
          (* Just in case SPDK failed with no exception *)
          if negb (truthy r) then
            _ <- remove_subsystem_from_state nqn context ;;
            ret (req_status EINVAL)
          else remove_subsystem_from_state nqn context)).

(** The [for nsid in ns_list] loop of [delete_subsystem]. *)
Fixpoint delete_subsystem_namespaces (nqn : string) (ns_list : list json)
    (context : bool) : M unit :=
  match ns_list with
  | [] => ret tt
  | nsid :: rest =>
      log WARNING "Will remove namespace" ;;;
      n <- lift (message_uint32 nsid) ;;
      r <- namespace_delete (namespace_delete_req.mk nqn n "") context ;;
      (if status r =? 0 then log INFO "Automatically removed namespace"
       else
         log ERROR "Failure removing namespace" ;;;
         log WARNING "Will continue deleting anyway") ;;;
      delete_subsystem_namespaces nqn rest context
  end.

Definition delete_subsystem (request : delete_subsystem_req.t)
    (context : bool) : M reply :=
  let nqn := delete_subsystem_req.subsystem_nqn request in
  if is_discovery_nqn nqn then ret (req_status EINVAL)
  else
    ns_list <-
      (if context then
         has <- subsystem_has_listeners nqn ;;
         (if has then
            log WARNING "About to delete subsystem which has a listener"
          else skip) ;;;
         get_subsystem_namespaces nqn
       else ret []) ;;
    (* We found a namespace still using this subsystem and --force wasn't
       used fail with EBUSY *)
    if negb (delete_subsystem_req.force request)
       && (0 <? Z.of_nat (List.length ns_list)) then
      ret (req_status EBUSY)
    else
      delete_subsystem_namespaces nqn ns_list context ;;;
      execute_grpc_function delete_subsystem_safe request context.

Definition with_uuid (request : namespace_add_req.t) : namespace_add_req.t :=
  if negb (str_truthy (namespace_add_req.uuid request)) then
    namespace_add_req.mk
      (namespace_add_req.rbd_pool_name request)
      (namespace_add_req.rbd_image_name request)
      (namespace_add_req.subsystem_nqn request)
      (namespace_add_req.nsid request)
      (namespace_add_req.block_size request)
      uuid4
      (namespace_add_req.anagrpid request)
  else request.

Definition namespace_add_safe (request : namespace_add_req.t)
    (context : bool) : M reply :=
  let request := with_uuid request in
  let nqn := namespace_add_req.subsystem_nqn request in
  let uuid := namespace_add_req.uuid request in
  with_omap_lock context
    (bdev_name <- lift (find_unique_bdev_name (JStr uuid)) ;;
     ret_bdev <- create_bdev bdev_name uuid
                   (namespace_add_req.rbd_pool_name request)
                   (namespace_add_req.rbd_image_name request)
                   (namespace_add_req.block_size request) ;;
     if negb (status ret_bdev =? 0) then
       (* Delete the bdev just to be on the safe side *)
       try_except
         (_ <- delete_bdev (JStr bdev_name) ;; skip)
         (fun _ => log WARNING "Got exception while trying to delete bdev") ;;;
       ret (nsid_status (status ret_bdev) 0)
     else
       ret_ns <- create_namespace nqn (JStr bdev_name)
                   (JNum (namespace_add_req.nsid request))
                   (namespace_add_req.anagrpid request) (JStr uuid)
                   context ;;
       if negb (status ret_ns =? 0) then
         try_except
           (ret_del <- delete_bdev (JStr bdev_name) ;;
            if negb (status ret_del =? 0) then
              log WARNING "Failure deleting bdev"
            else skip)
           (fun _ =>
              log WARNING "Got exception while trying to delete bdev") ;;;
         ret (nsid_status (status ret_ns) 0)
       else if context then
         (* Update gateway state *)
         try_except
           (gateway_state
              (GatewayState.add_namespace nqn (str_of_Z (nsid ret_ns))
                 (MessageToJson (MsgNamespace request))) ;;;
            ret (nsid_status 0 (nsid ret_ns)))
           (fun _ => ret (req_status EINVAL))
       else ret (nsid_status 0 (nsid ret_ns))).

Definition namespace_add (request : namespace_add_req.t) (context : bool)
  : M reply :=
  execute_grpc_function namespace_add_safe request context.

(** [try: x = d[key] except KeyError: x = default] *)
Definition getitem_or {A} (d : json) (key : string)
    (conv : json -> exn + A) (default : A) : exn + A :=
  match getitem d key with
  | inl (KeyError _) => inr default
  | inl e => inl e
  | inr v => conv v
  end.

(** A value for a string field of a protocol message. *)
Definition as_str (v : json) : exn + string :=
  match v with
  | JStr s => inr s
  | _ => inl TypeError
  end.

(** The [namespace_add_req] that [namespace_change_load_balancing_group]
    rebuilds from the stored entry. *)
Definition rebuild_namespace_add_req (ns_entry : json) (anagrpid : Z)
  : exn + namespace_add_req.t :=
  match getitem_or ns_entry "rbd_pool_name" as_str "" with
  | inl e => inl e
  | inr pool =>
  match getitem_or ns_entry "rbd_image_name" as_str "" with
  | inl e => inl e
  | inr image =>
  match getitem_or ns_entry "subsystem_nqn" as_str "" with
  | inl e => inl e
  | inr nqn =>
  match getitem_or ns_entry "nsid" as_uint32 0 with
  | inl e => inl e
  | inr nsid =>
  match getitem_or ns_entry "block_size" as_uint32 0 with
  | inl e => inl e
  | inr block_size =>
  match getitem_or ns_entry "uuid" as_str "" with
  | inl e => inl e
  | inr uuid =>
      inr (namespace_add_req.mk pool image nqn nsid block_size uuid anagrpid)
  end end end end end end.

Definition namespace_change_load_balancing_group_safe
    (request : namespace_change_load_balancing_group_req.t)
    (context : bool) : M reply :=
  let nqn := namespace_change_load_balancing_group_req.subsystem_nqn request in
  let req_nsid := namespace_change_load_balancing_group_req.nsid request in
  let req_uuid := namespace_change_load_balancing_group_req.uuid request in
  let anagrpid := namespace_change_load_balancing_group_req.anagrpid request in
  with_omap_lock context
    (find_ret <- find_namespace_and_bdev_name nqn req_nsid req_uuid false ;;
     if negb (truthy (fst find_ret)) then ret (req_status ENODEV)
     else
       uuid <- lift (getitem_or (fst find_ret) "uuid" inr JNull) ;;
       nsid <- lift (getitem_or (fst find_ret) "nsid" inr (JNum 0)) ;;
       if negb (req_nsid =? 0) && negb (json_eqb (JNum req_nsid) nsid) then
         ret (req_status ENODEV)
       else if str_truthy req_uuid && negb (json_eqb (JStr req_uuid) uuid)
       then ret (req_status ENODEV)
       else
         bdev_name <-
           (if negb (truthy (snd find_ret)) then
              b <- lift (find_unique_bdev_name uuid) ;; ret (JStr b)
            else ret (snd find_ret)) ;;
         state <- get_state ;;
         let ns_key := GatewayState.build_namespace_key nqn (fstr nsid) in
         let ns_entry :=
           match dict_get ns_key state with
           | None => None
           | Some state_ns => json_loads state_ns
           end in
         match ns_entry with
         | None => ret (req_status ENOENT)
         | Some ns_entry =>
             if negb (truthy ns_entry) then ret (req_status ENOENT)
             else
               ret_del <- remove_namespace nqn nsid context ;;
               if negb (status ret_del =? 0) then
                 ret (req_status (status ret_del))
               else
                 (if truthy nsid then
                    _ <- remove_namespace_from_state nqn nsid context ;; skip
                  else skip) ;;;
                 ret_ns <- create_namespace nqn bdev_name nsid anagrpid uuid
                             context ;;
                 if negb (status ret_ns =? 0) then
                   ret (req_status (status ret_ns))
                 else if context then
                   (* Update gateway state *)
                   try_except
                     (namespace_add_req <-
                        lift (rebuild_namespace_add_req ns_entry anagrpid) ;;
                      gateway_state
                        (GatewayState.add_namespace nqn (fstr nsid)
                           (MessageToJson (MsgNamespace namespace_add_req))) ;;;
                      ret (req_status 0))
                     (fun _ => ret (req_status EINVAL))
                 else ret (req_status 0)
         end).

Definition namespace_change_load_balancing_group
    (request : namespace_change_load_balancing_group_req.t)
    (context : bool) : M reply :=
  execute_grpc_function namespace_change_load_balancing_group_safe request
    context.

(** [bdevs[0]] *)
Definition first_item (v : json) : exn + json :=
  match v with
  | JArr (x :: _) => inr x
  | _ => inl TypeError
  end.

Fixpoint has_keys (d : json) (keys : list string) : bool :=
  match keys with
  | [] => true
  | k :: keys' =>
      match getitem d k with
      | inl _ => false
      | inr _ => has_keys d keys'
      end
  end.

Definition iostat_bdev_keys : list string :=
  [ "bytes_read"; "num_read_ops"; "bytes_written"; "num_write_ops";
    "bytes_unmapped"; "num_unmap_ops"; "read_latency_ticks";
    "max_read_latency_ticks"; "min_read_latency_ticks";
    "write_latency_ticks"; "max_write_latency_ticks";
    "min_write_latency_ticks"; "unmap_latency_ticks";
    "max_unmap_latency_ticks"; "min_unmap_latency_ticks";
    "copy_latency_ticks"; "max_copy_latency_ticks";
    "min_copy_latency_ticks"; "io_error" ].

(** The payload of the statistics is not kept; which fields are read and
    whether their values fit the reply, and so whether building it
    raises, is. The handler of that [try] formats a variable [s] that the
    function does not have. *)
Definition namespace_get_io_stats (request : namespace_get_io_stats_req.t)
    (context : bool) : M reply :=
  let nqn := namespace_get_io_stats_req.subsystem_nqn request in
  r <- with_lock rpc_lock
         (find_ret <- find_namespace_and_bdev_name nqn
                        (namespace_get_io_stats_req.nsid request)
                        (namespace_get_io_stats_req.uuid request) false ;;
          let ns := fst find_ret in
          if negb (truthy ns) then ret (inl (req_status ENODEV))
          else
            let bdev_name := snd find_ret in
            if negb (truthy bdev_name) then ret (inl (req_status ENODEV))
            else
              try_or_return
                (call (bdev_get_iostat bdev_name))
                (fun ex =>
                   status <- lift (failure_status ex) ;;
                   ret (inl (req_status status)))
                (fun r => ret (inr (ns, r)))) ;;
  match r with
  | inl early => ret early
  | inr (ns, r) =>
      (* Just in case SPDK failed with no exception *)
      if negb (truthy r) then ret (req_status EINVAL)
      else
        match getitem r "bdevs" with
        | inl _ => raise (NameError "s")
        | inr bdevs =>
            if negb (truthy bdevs) then ret (req_status ENODEV)
            else
              match first_item bdevs with
              | inl _ => raise (NameError "s")
              | inr bdev =>
                  if has_keys ns ["nsid"; "uuid"]
                     && has_keys r ["tick_rate"; "ticks"]
                     && has_keys bdev iostat_bdev_keys
                     && io_stats_fit ns r bdev
                  then ret (req_status 0)
                  else raise (NameError "s")
              end
        end
  end.

(** One line of the merge of [namespace_set_qos_limits_safe]:
    [if not request.HasField(f) and ns_qos_entry.get(f) != None:
       request.f = int(ns_qos_entry[f])] for an unsigned 64-bit field. *)
Definition merge_qos_field (requested : option Z) (ns_qos_entry : json)
    (f : string) : exn + option Z :=
  match requested with
  | Some v => inr (Some v)
  | None =>
      match dict_method_get ns_qos_entry f with
      | inl e => inl e
      | inr JNull => inr None
      | inr v =>
          match py_int v with
          | inl e => inl e
          | inr n =>
              if (n <? 0) || (18446744073709551615 <? n) then inl ValueError
              else inr (Some n)
          end
      end
  end.

(** Merge current limits with previous ones. *)
Definition merge_qos (request : namespace_set_qos_req.t)
    (ns_qos_entry : json) : exn + namespace_set_qos_req.t :=
  match merge_qos_field (namespace_set_qos_req.rw_ios_per_second request)
          ns_qos_entry "rw_ios_per_second" with
  | inl e => inl e
  | inr a =>
  match merge_qos_field (namespace_set_qos_req.rw_mbytes_per_second request)
          ns_qos_entry "rw_mbytes_per_second" with
  | inl e => inl e
  | inr b =>
  match merge_qos_field (namespace_set_qos_req.r_mbytes_per_second request)
          ns_qos_entry "r_mbytes_per_second" with
  | inl e => inl e
  | inr c =>
  match merge_qos_field (namespace_set_qos_req.w_mbytes_per_second request)
          ns_qos_entry "w_mbytes_per_second" with
  | inl e => inl e
  | inr d =>
      inr (namespace_set_qos_req.mk
             (namespace_set_qos_req.subsystem_nqn request)
             (namespace_set_qos_req.nsid request)
             (namespace_set_qos_req.uuid request) a b c d)
  end end end end.

(** The stored limits of a namespace, if the record has a text for them
    that [json.loads] accepts; [JNull] otherwise. *)
Definition stored_qos (nqn : string) (nsid : json) (state : dict string)
  : json :=
  match dict_get (GatewayState.build_namespace_qos_key nqn (fstr nsid))
          state with
  | None => JNull
  | Some state_ns_qos =>
      match json_loads state_ns_qos with
      | None => JNull
      | Some ns_qos_entry => ns_qos_entry
      end
  end.

Definition namespace_set_qos_limits_safe (request : namespace_set_qos_req.t)
    (context : bool) : M reply :=
  let nqn := namespace_set_qos_req.subsystem_nqn request in
  find_ret <- find_namespace_and_bdev_name nqn
                (namespace_set_qos_req.nsid request)
                (namespace_set_qos_req.uuid request) false ;;
  if negb (truthy (fst find_ret)) then ret (req_status ENODEV)
  else
    let bdev_name := snd find_ret in
    if negb (truthy bdev_name) then ret (req_status ENODEV)
    else
      nsid <- lift (getitem (fst find_ret) "nsid") ;;
      let set_qos_limits_args :=
        bdev_set_qos_limit bdev_name
          (namespace_set_qos_req.rw_ios_per_second request)
          (namespace_set_qos_req.rw_mbytes_per_second request)
          (namespace_set_qos_req.r_mbytes_per_second request)
          (namespace_set_qos_req.w_mbytes_per_second request) in
      ns_qos_entry <-
        (if context then
           state <- get_state ;; ret (stored_qos nqn nsid state)
         else ret JNull) ;;
      (* Merge current limits with previous ones, if exist *)
      request <-
        (if truthy ns_qos_entry then lift (merge_qos request ns_qos_entry)
         else ret request) ;;
      with_omap_lock context
        (try_or_return
           (call set_qos_limits_args)
           (fun ex =>
              status <- lift (failure_status ex) ;;
              ret (req_status status))
           (fun r =>
              (* Just in case SPDK failed with no exception *)
              if negb (truthy r) then ret (req_status EINVAL)
              else if context then
                (* Update gateway state *)
                try_except
                  (gateway_state
                     (GatewayState.add_namespace_qos nqn (fstr nsid)
                        (MessageToJson (MsgQos request))) ;;;
                   ret (req_status 0))
                  (fun _ => ret (req_status EINVAL))
              else ret (req_status 0))).

Definition namespace_set_qos_limits (request : namespace_set_qos_req.t)
    (context : bool) : M reply :=
  execute_grpc_function namespace_set_qos_limits_safe request context.

Definition namespace_resize (request : namespace_resize_req.t)
    (context : bool) : M reply :=
  find_ret <- find_namespace_and_bdev_name
                (namespace_resize_req.subsystem_nqn request)
                (namespace_resize_req.nsid request)
                (namespace_resize_req.uuid request) true ;;
  if negb (truthy (fst find_ret)) then ret (req_status ENODEV)
  else
    let bdev_name := snd find_ret in
    if negb (truthy bdev_name) then ret (req_status ENODEV)
    else
      r <- resize_bdev bdev_name (namespace_resize_req.new_size request) ;;
      ret (req_status (status r)).

(** *** Hosts *)

Definition remove_host_from_state (subsystem_nqn host_nqn : string)
    (context : bool) : M reply :=
  if negb context then ret (req_status 0)
  else
    assert_omap_locked ;;;
    (* Update gateway state *)
    try_except
      (gateway_state (GatewayState.remove_host subsystem_nqn host_nqn) ;;;
       ret (req_status 0))
      (fun _ => ret (req_status EINVAL)).

Definition remove_host_safe (request : remove_host_req.t) (context : bool)
  : M reply :=
  let nqn := remove_host_req.subsystem_nqn request in
  let host_nqn := remove_host_req.host_nqn request in
  if is_discovery_nqn nqn then ret (req_status EINVAL)
  else if is_discovery_nqn host_nqn then ret (req_status EINVAL)
  else
    with_omap_lock context
      (try_or_return
         (if String.eqb host_nqn "*" then
            (* Disable allow any host access *)
            call (nvmf_subsystem_allow_any_host nqn true)
          else
            (* Remove single host access to subsystem *)
            call (nvmf_subsystem_remove_host nqn host_nqn))
         (fun ex =>
            _ <- remove_host_from_state nqn host_nqn context ;;
            status <- lift (failure_status ex) ;;
            ret (req_status status))
         (fun r =>
            (* Just in case SPDK failed with no exception *)
            if negb (truthy r) then
              _ <- remove_host_from_state nqn host_nqn context ;;
              ret (req_status EINVAL)
            else remove_host_from_state nqn host_nqn context)).

Definition remove_host (request : remove_host_req.t) (context : bool)
  : M reply :=
  execute_grpc_function remove_host_safe request context.

(** *** Listeners *)

Definition matching_listener_exists (context : bool)
    (nqn gw_name trtype traddr : string) (trsvcid : Z) : M bool :=
  if negb context then ret false
  else
    let listener_key :=
      GatewayState.build_listener_key nqn gw_name trtype traddr
        (str_of_Z trsvcid) in
    state <- get_state ;;
    match dict_get listener_key state with
    | Some v => ret (str_truthy v)
    | None => ret false
    end.

Definition set_auto_ha_state (request : create_listener_req.t) (v : Z)
  : create_listener_req.t :=
  create_listener_req.mk
    (create_listener_req.nqn request)
    (create_listener_req.gateway_name request)
    (create_listener_req.traddr request)
    (create_listener_req.trtype request)
    (create_listener_req.adrfam request)
    (create_listener_req.trsvcid request) v.

(** How [create_listener_safe] settles [enable_ha], and the request it
    goes on with (its [auto_ha_state] is filled in from the subsystem). *)
Definition listener_enable_ha (auto_ha_state : string)
    (request : create_listener_req.t) (state : dict string)
  : bool * create_listener_req.t :=
  if String.eqb auto_ha_state "AUTO_HA_UNSET" then
    match dict_get
            (GatewayState.build_subsystem_key (create_listener_req.nqn request))
            state with
    | None => (false, request)
    | Some subsys_str =>
        if str_truthy subsys_str then
          match json_loads subsys_str with
          | None => (false, request)
          | Some subsys_dict =>
              match getitem subsys_dict "enable_ha" with
              | inl _ => (false, request)
              | inr enable_ha =>
                  let auto_ha_state_key :=
                    if truthy enable_ha then "AUTO_HA_ON"
                    else "AUTO_HA_OFF" in
                  (truthy enable_ha,
                   set_auto_ha_state request
                     (get_value_from_key AutoHAState auto_ha_state_key))
              end
          end
        else (false, request)
    end
  else if String.eqb auto_ha_state "AUTO_HA_OFF" then (false, request)
  else if String.eqb auto_ha_state "AUTO_HA_ON" then (true, request)
  else (false, request).

(** The [for x in range(MAX_ANA_GROUPS)] loop, from group [x + 1] on,
    with [todo] groups to go. [None] is the end of the loop,
    [Some r] the reply the handler returns with. *)
Fixpoint set_ana_states (nqn trtype traddr trsvcid adrfam : string)
    (x : Z) (todo : nat) : M (option reply) :=
  match todo with
  | O => ret None
  | S todo' =>
      try_or_return
        (call (nvmf_subsystem_listener_set_ana_state nqn "inaccessible"
                 trtype traddr trsvcid adrfam (x + 1)))
        (fun ex =>
           status <- lift (failure_status ex) ;;
           ret (Some (req_status status)))
        (fun _ =>
           set_ana_states nqn trtype traddr trsvcid adrfam (x + 1) todo')
  end.

Definition create_listener_safe (request : create_listener_req.t)
    (context : bool) : M reply :=
  let nqn := create_listener_req.nqn request in
  let traddr := create_listener_req.traddr request in
  let trsvcid := create_listener_req.trsvcid request in
  match get_key_from_value TransportType (create_listener_req.trtype request)
  with
  | None => ret (req_status ENOKEY)
  | Some trtype =>
  match get_key_from_value AddressFamily (create_listener_req.adrfam request)
  with
  | None => ret (req_status ENOKEY)
  | Some adrfam =>
  match get_key_from_value AutoHAState
          (create_listener_req.auto_ha_state request) with
  | None => ret (req_status ENOKEY)
  | Some auto_ha_state =>
      if is_discovery_nqn nqn then ret (req_status EINVAL)
      else
        with_omap_lock context
          (try_or_return
             (if String.eqb (create_listener_req.gateway_name request)
                   gateway_name then
                listener_already_exist <-
                  matching_listener_exists context nqn
                    (create_listener_req.gateway_name request) trtype traddr
                    trsvcid ;;
                if listener_already_exist then ret (inl (req_status EEXIST))
                else
                  r <- call (nvmf_subsystem_add_listener nqn trtype traddr
                               (str_of_Z trsvcid) adrfam) ;;
                  ret (inr r)
              else ret (inl (req_status ENOENT)))
             (fun ex =>
                status <- lift (failure_status ex) ;;
                ret (req_status status))
             (fun r =>
                match r with
                | inl early => ret early
                | inr r =>
                    (* Just in case SPDK failed with no exception *)
                    if negb (truthy r) then ret (req_status EINVAL)
                    else
                      state <- get_state ;;
                      let (enable_ha, request) :=
                        listener_enable_ha auto_ha_state request state in
                      aborted <-
                        (if enable_ha then
                           set_ana_states nqn trtype traddr
                             (str_of_Z trsvcid) adrfam 0
                             (Z.to_nat MAX_ANA_GROUPS)
                         else ret None) ;;
                      match aborted with
                      | Some early => ret early
                      | None =>
                          if context then
                            (* Update gateway state *)
                            try_except
                              (gateway_state
                                 (GatewayState.add_listener nqn
                                    (create_listener_req.gateway_name request)
                                    trtype traddr (str_of_Z trsvcid)
                                    (MessageToJson (MsgListener request))) ;;;
                               ret (req_status 0))
                              (fun _ => ret (req_status EINVAL))
                          else ret (req_status 0)
                      end
                end))
  end end end.

Definition create_listener (request : create_listener_req.t)
    (context : bool) : M reply :=
  execute_grpc_function create_listener_safe request context.

Definition remove_listener_from_state (nqn gw_name trtype traddr : string)
    (port : Z) (context : bool) : M reply :=
  if negb context then ret (req_status 0)
  else
    assert_omap_locked ;;;
    (* Update gateway state *)
    try_except
      (gateway_state
         (GatewayState.remove_listener nqn gw_name trtype traddr
            (str_of_Z port)) ;;;
       ret (req_status 0))
      (fun _ => ret (req_status EINVAL)).

Definition delete_listener_safe (request : delete_listener_req.t)
    (context : bool) : M reply :=
  let nqn := delete_listener_req.nqn request in
  let gw := delete_listener_req.gateway_name request in
  let traddr := delete_listener_req.traddr request in
  let trsvcid := delete_listener_req.trsvcid request in
  match get_key_from_value TransportType (delete_listener_req.trtype request)
  with
  | None => ret (req_status ENOKEY)
  | Some trtype =>
  match get_key_from_value AddressFamily (delete_listener_req.adrfam request)
  with
  | None => ret (req_status ENOKEY)
  | Some adrfam =>
      if is_discovery_nqn nqn then ret (req_status EINVAL)
      else
        with_omap_lock context
          (try_or_return
             (if String.eqb gw gateway_name then
                r <- call (nvmf_subsystem_remove_listener nqn trtype traddr
                             (str_of_Z trsvcid) adrfam) ;;
                ret (inr r)
              else ret (inl (req_status ENOENT)))
             (fun ex =>
                _ <- remove_listener_from_state nqn gw trtype traddr trsvcid
                       context ;;
                status <- lift (failure_status ex) ;;
                ret (req_status status))
             (fun r =>
                match r with
                | inl early => ret early
                | inr r =>
                    (* Just in case SPDK failed with no exception *)
                    if negb (truthy r) then
                      _ <- remove_listener_from_state nqn gw trtype traddr
                             trsvcid context ;;
                      ret (req_status EINVAL)
                    else
                      remove_listener_from_state nqn gw trtype traddr
                        trsvcid context
                end))
  end end.

Definition delete_listener (request : delete_listener_req.t)
    (context : bool) : M reply :=
  execute_grpc_function delete_listener_safe request context.

End GatewayService.

(** ** A test bench

    A concrete environment to run the service in: a scripted engine, JSON
    texts written by a small printer and read back among a given list of
    documents, and the enum tables of the protocol. *)

Module Bench.

Definition quote : string := String (ascii_of_nat 34) EmptyString.

Definition join (sep : string) (l : list string) : string :=
  match l with
  | [] => ""
  | x :: l' => fold_left (fun acc y => acc ++ sep ++ y) l' x
  end.

(** JSON text of a value (strings without characters to escape). *)
Fixpoint json_dumps (j : json) : string :=
  match j with
  | JNull => "null"
  | JBool b => if b then "true" else "false"
  | JNum n => str_of_Z n
  | JStr s => quote ++ s ++ quote
  | JArr l => "[" ++ join ", " (map json_dumps l) ++ "]"
  | JObj l =>
      "{" ++ join ", "
               (map (fun kv => quote ++ fst kv ++ quote ++ ": "
                                 ++ json_dumps (snd kv)) l) ++ "}"
  end.

(** [json.loads], for the texts of the documents [docs]. *)
Definition loads_among (docs : list json) (s : string) : option json :=
  List.find (fun j => String.eqb (json_dumps j) s) docs.

Definition opt_field (k : string) (v : option Z) : list (string * json) :=
  match v with
  | Some n => [(k, JStr (str_of_Z n))]
  | None => []
  end.

(** The JSON object of a message, with the field names of the protocol;
    64-bit integers are written as strings, and an optional field that
    is not set is left out (the NSID of a request to add a namespace is
    not set when it is 0). *)
Definition message_json (m : message) : json :=
  match m with
  | MsgSubsystem r =>
      JObj [ ("subsystem_nqn", JStr (create_subsystem_req.subsystem_nqn r));
             ("serial_number", JStr (create_subsystem_req.serial_number r));
             ("max_namespaces", JNum (create_subsystem_req.max_namespaces r));
             ("ana_reporting", JBool (create_subsystem_req.ana_reporting r));
             ("enable_ha", JBool (create_subsystem_req.enable_ha r)) ]
  | MsgNamespace r =>
      JObj ([ ("rbd_pool_name", JStr (namespace_add_req.rbd_pool_name r));
              ("rbd_image_name", JStr (namespace_add_req.rbd_image_name r));
              ("subsystem_nqn", JStr (namespace_add_req.subsystem_nqn r)) ]
            ++ (if namespace_add_req.nsid r =? 0 then []
                else [ ("nsid", JNum (namespace_add_req.nsid r)) ])
            ++ [ ("block_size", JNum (namespace_add_req.block_size r));
                 ("uuid", JStr (namespace_add_req.uuid r));
                 ("anagrpid", JNum (namespace_add_req.anagrpid r)) ])
  | MsgQos r =>
      JObj ([ ("subsystem_nqn", JStr (namespace_set_qos_req.subsystem_nqn r));
              ("nsid", JNum (namespace_set_qos_req.nsid r));
              ("uuid", JStr (namespace_set_qos_req.uuid r)) ]
            ++ opt_field "rw_ios_per_second"
                 (namespace_set_qos_req.rw_ios_per_second r)
            ++ opt_field "rw_mbytes_per_second"
                 (namespace_set_qos_req.rw_mbytes_per_second r)
            ++ opt_field "r_mbytes_per_second"
                 (namespace_set_qos_req.r_mbytes_per_second r)
            ++ opt_field "w_mbytes_per_second"
                 (namespace_set_qos_req.w_mbytes_per_second r))
  | MsgListener r =>
      JObj [ ("nqn", JStr (create_listener_req.nqn r));
             ("gateway_name", JStr (create_listener_req.gateway_name r));
             ("traddr", JStr (create_listener_req.traddr r));
             ("trsvcid", JNum (create_listener_req.trsvcid r));
             ("auto_ha_state", JNum (create_listener_req.auto_ha_state r)) ]
  end.

Definition key_of (e : enum) (v : Z) : option string :=
  match e, v with
  | TransportType, 0 => Some "TCP"
  | AddressFamily, 0 => Some "ipv4"
  | AddressFamily, 1 => Some "ipv6"
  | AutoHAState, 0 => Some "AUTO_HA_UNSET"
  | AutoHAState, 1 => Some "AUTO_HA_OFF"
  | AutoHAState, 2 => Some "AUTO_HA_ON"
  | _, _ => None
  end.

Definition value_of (e : enum) (k : string) : Z :=
  match e with
  | AutoHAState =>
      if String.eqb k "AUTO_HA_ON" then 2
      else if String.eqb k "AUTO_HA_OFF" then 1 else 0
  | AddressFamily => if String.eqb k "ipv6" then 1 else 0
  | TransportType => 0
  end.

(** The engine: its state is the number of calls it has answered, and a
    script tells what it replies to a call after that many. *)
Definition Engine : Type := nat.

Definition env (script : nat -> rpc -> result) (docs : list json)
    (bdevs : Z) : Environment Engine :=
  {| spdk := fun c n => (script n c, S n);
     json_loads := loads_among docs;
     MessageToJson := fun m => json_dumps (message_json m);
     py_str := json_dumps;
     omap_raises := fun _ _ => false;
     io_stats_fit := fun _ _ _ => true;
     get_key_from_value := key_of;
     get_value_from_key := value_of;
     DISCOVERY_NQN := "nqn.2014-08.org.nvmexpress.discovery";
     gateway_name := "gw1";
     config_bdevs_per_cluster := bdevs;
     config_librbd_core_mask := None;
     config_ceph_id := "";
     min_controller_id := 1;
     max_controller_id := 65519;
     randint := fun lo _ => lo;
     uuid4 := "00000000-0000-4000-8000-000000000000" |}.

(** A world at rest, and a world inside a call that owns both locks. *)
Definition start (record : dict string) : World Engine :=
  mkWorld O record [] None [] [].

Definition locked (record : dict string) : World Engine :=
  mkWorld O record [] None [rpc_lock; omap_lock] [].

(** An engine that accepts everything. *)
Definition agreeable : nat -> rpc -> result :=
  fun _ _ => Returns (JBool true).

End Bench.

(** ** Scenarios on the test bench *)

Module Scenario.

Definition nqn : string := "nqn.test.1".

(** The persisted entries of a subsystem with HA and of its namespace 1,
    and the stored QoS limits of that namespace. *)
Definition subsystem_doc : json :=
  Bench.message_json
    (MsgSubsystem (create_subsystem_req.mk nqn "SPDK1" 32 true true)).

Definition namespace_doc : json :=
  Bench.message_json
    (MsgNamespace (namespace_add_req.mk "pool1" "img1" nqn 1 512 "u1" 1)).

Definition qos_doc : json :=
  Bench.message_json
    (MsgQos (namespace_set_qos_req.mk nqn 1 "u1" (Some 100) None None
               (Some 7))).

Definition docs : list json := [subsystem_doc; namespace_doc; qos_doc].

Definition record : dict string :=
  [ (GatewayState.build_subsystem_key nqn, Bench.json_dumps subsystem_doc);
    (GatewayState.build_namespace_key nqn "1",
     Bench.json_dumps namespace_doc);
    (GatewayState.build_namespace_qos_key nqn "1",
     Bench.json_dumps qos_doc) ].

(** What the engine lists for the subsystem. *)
Definition listing : json :=
  JArr [ JObj [ ("nqn", JStr nqn);
                ("namespaces",
                 JArr [ JObj [ ("nsid", JNum 1); ("uuid", JStr "u1");
                               ("bdev_name", JStr "bdev_u1") ] ]) ] ].

(** An engine that lists the subsystem and accepts everything else. *)
Definition healthy : nat -> rpc -> result :=
  fun _ c =>
    match c with
    | nvmf_get_subsystems _ => Returns listing
    | bdev_rbd_create name _ _ _ _ _ => Returns (JStr name)
    | nvmf_subsystem_add_ns _ _ _ _ _ => Returns (JNum 1)
    | _ => Returns (JBool true)
    end.

(** The same engine, with one kind of call failing. *)
Definition timeout : exn := JSONRPCException "Timeout waiting for response".

Definition detach_returns_false : nat -> rpc -> result :=
  fun n c =>
    match c with
    | nvmf_subsystem_remove_ns _ _ => Returns (JBool false)
    | _ => healthy n c
    end.

Definition detach_times_out : nat -> rpc -> result :=
  fun n c =>
    match c with
    | nvmf_subsystem_remove_ns _ _ => Raises timeout
    | _ => healthy n c
    end.

Definition attach_times_out : nat -> rpc -> result :=
  fun n c =>
    match c with
    | nvmf_subsystem_add_ns _ _ _ _ _ => Raises timeout
    | _ => healthy n c
    end.

Definition groups_return_false : nat -> rpc -> result :=
  fun n c =>
    match c with
    | nvmf_subsystem_listener_set_ana_state _ _ _ _ _ _ _ =>
        Returns (JBool false)
    | _ => healthy n c
    end.

Definition env (script : nat -> rpc -> result) : Environment Bench.Engine :=
  Bench.env script docs 2.

(** Requests *)
Definition delete_namespace_1 : namespace_delete_req.t :=
  namespace_delete_req.mk nqn 1 "".

Definition force_delete_subsystem : delete_subsystem_req.t :=
  delete_subsystem_req.mk nqn true.

Definition add_namespace : namespace_add_req.t :=
  namespace_add_req.mk "pool1" "img2" nqn 0 512 "u2" 1.

Definition change_group (anagrpid : Z)
  : namespace_change_load_balancing_group_req.t :=
  namespace_change_load_balancing_group_req.mk nqn 1 "" anagrpid.

Definition create_again (enable_ha ana_reporting : bool)
  : create_subsystem_req.t :=
  create_subsystem_req.mk nqn "SPDK2" 32 ana_reporting enable_ha.


Definition listen : create_listener_req.t :=
  create_listener_req.mk nqn "gw1" "10.0.0.1" 0 0 4420 0.

Definition set_qos : namespace_set_qos_req.t :=
  namespace_set_qos_req.mk nqn 1 "" None (Some 50) None None.

(** Three acquisitions of a cluster context, two volumes per context. *)
Definition pool_0 : World Bench.Engine := Bench.start [].
Definition pool_1 : World Bench.Engine :=
  snd (@_get_cluster _ (env healthy) pool_0).
Definition pool_2 : World Bench.Engine :=
  snd (@_get_cluster _ (env healthy) pool_1).
Definition pool_3 : World Bench.Engine :=
  snd (@_get_cluster _ (env healthy) pool_2).

End Scenario.

(** ** More scenarios *)

Module Cases.

Import Scenario.

Definition host : string := "nqn.host.1".

(** The record of [Scenario], with a host and a listener of the
    subsystem. *)
Definition host_key : string := GatewayState.build_host_key nqn host.

Definition listener_key : string :=
  GatewayState.build_listener_key nqn "gw1" "TCP" "10.0.0.1" "4420".

Definition listener_doc : json :=
  Bench.message_json (MsgListener Scenario.listen).

Definition full_record : dict string :=
  (record
     ++ [ (host_key, "{}");
          (listener_key, Bench.json_dumps listener_doc) ])%list.

(** Engines with one kind of call failing. *)
Definition listing_times_out : nat -> rpc -> result :=
  fun n c =>
    match c with
    | nvmf_get_subsystems _ => Raises timeout
    | _ => healthy n c
    end.

Definition host_removal_returns_false : nat -> rpc -> result :=
  fun n c =>
    match c with
    | nvmf_subsystem_remove_host _ _ => Returns (JBool false)
    | _ => healthy n c
    end.

Definition listener_removal_times_out : nat -> rpc -> result :=
  fun n c =>
    match c with
    | nvmf_subsystem_remove_listener _ _ _ _ _ => Raises timeout
    | _ => healthy n c
    end.

Definition attach_returns_false : nat -> rpc -> result :=
  fun n c =>
    match c with
    | nvmf_subsystem_add_ns _ _ _ _ _ => Returns (JBool false)
    | _ => healthy n c
    end.

Definition subsystem_removal_times_out : nat -> rpc -> result :=
  fun n c =>
    match c with
    | nvmf_delete_subsystem _ => Raises timeout
    | _ => healthy n c
    end.

Definition statistics_without_devices : nat -> rpc -> result :=
  fun n c =>
    match c with
    | bdev_get_iostat _ => Returns (JObj [("tick_rate", JNum 1000)])
    | _ => healthy n c
    end.

(** A JSON-RPC error with a structured response: the text that the
    client puts in the exception, with the response on the line of its
    heading. *)
Definition no_such_device : json :=
  JObj [ ("code", JNum (-19)); ("message", JStr "No such device") ].

Definition no_such_device_text : string :=
  "request: nvmf_subsystem_listener_set_ana_state Got JSON-RPC error response response:"
    ++ Bench.json_dumps no_such_device.


(** The environment of [Scenario], with a [json.loads] that also reads
    the response above and the listener's entry. *)
Definition env (script : nat -> rpc -> result) : Environment Bench.Engine :=
  Bench.env script (no_such_device :: listener_doc :: docs) 2.





(** Requests *)
Definition discovery : string := "nqn.2014-08.org.nvmexpress.discovery".

Definition create_first : create_subsystem_req.t :=
  create_subsystem_req.mk nqn "SPDK1" 32 true true.

Definition delete_subsystem_unforced : delete_subsystem_req.t :=
  delete_subsystem_req.mk nqn false.

Definition io_stats_1 : namespace_get_io_stats_req.t :=
  namespace_get_io_stats_req.mk nqn 1 "".

Definition remove_host_1 : remove_host_req.t := remove_host_req.mk nqn host.

Definition listen_elsewhere : create_listener_req.t :=
  create_listener_req.mk nqn "gw2" "10.0.0.1" 0 0 4420 0.

Definition unlisten_elsewhere : delete_listener_req.t :=
  delete_listener_req.mk nqn "gw2" "10.0.0.1" 0 0 4420.

Definition unlisten : delete_listener_req.t :=
  delete_listener_req.mk nqn "gw1" "10.0.0.1" 0 0 4420.

End Cases.

(** ** Vocabulary of the properties *)

(** A run from [w] to [w'] issued no engine call and left the engine and
    the persisted record as they were. *)
Definition untouched {E} (w w' : World E) : Prop :=
  engine w' = engine w /\ omap w' = omap w
  /\ engine_calls (trace w') = engine_calls (trace w).

(** The name of the [k]-th cluster context. *)
Definition context_name (k : nat) : string :=
  "cluster_context_" ++ str_of_nat k.

(** The worlds reached from the pool that [_init_cluster_context] sets up
    by acquisitions of a cluster context, each with the names handed out so
    far, oldest first. Whatever else runs in between leaves the pool
    alone. *)
Inductive pool_run {E} `{Environment E} : World E -> list string -> Prop :=
| run_init w0 w :
    _init_cluster_context w0 = (Ok tt, w) -> pool_run w []
| run_acquired w h name w' :
    pool_run w h -> _get_cluster w = (Ok name, w') ->
    pool_run w' (h ++ [name])%list
| run_failed w h e w' :
    pool_run w h -> _get_cluster w = (Raised e, w') -> pool_run w' h
| run_other w h w' :
    pool_run w h -> clusters w' = clusters w ->
    current_cluster w' = current_cluster w -> pool_run w' h.

(** How many times a name was handed out. *)
Definition handed_out (name : string) (h : list string) : Z :=
  Z.of_nat (count_occ string_dec h name).

(** The volume counter of a context, 0 for a name the pool does not have. *)
Definition counter (name : string) (cl : dict Z) : Z :=
  match dict_get name cl with
  | Some n => n
  | None => 0
  end.

(** What holds of the pool after any run. *)
Definition pool_ok {E} `{Environment E} (w : World E) (h : list string)
  : Prop :=
  map fst (clusters w)
    = map context_name (seq 0 (List.length (clusters w)))
  /\ (forall name n, dict_get name (clusters w) = Some n ->
        1 <= n <= bdevs_per_cluster)
  /\ (forall name, handed_out name h = counter name (clusters w))
  /\ (current_cluster w = None
      \/ exists k, List.length (clusters w) = S k
                   /\ current_cluster w = Some (context_name k)).

(** The registration call that allocating the next context makes. *)
Definition register_call {E} `{Environment E} (w : World E) : rpc :=
  bdev_rbd_register_cluster (context_name (List.length (clusters w)))
    rados_id config_librbd_core_mask.

(** A computation that leaves a component [f] of the world as it found
    it, however it ends. *)
Definition keeps {E A X} (f : World E -> X) (m : M E A) : Prop :=
  forall w o w', m w = (o, w') -> f w' = f w.

(** A component of the world made of the persisted record and the locks
    held only. *)
Definition passive {E X} (f : World E -> X) : Prop :=
  forall w e cl cur t,
    f (mkWorld e (omap w) cl cur (held w) t) = f w.


(** The persisted record has a subsystem entry that names [nqn]. *)
Definition nqn_in_record {E} `{Environment E} (nqn : string)
    (state : dict string) : Prop :=
  exists key val subsys,
    In (key, val) state
    /\ prefix GatewayState.SUBSYSTEM_PREFIX key = true
    /\ json_loads val = Some subsys
    /\ getitem subsys "subsystem_nqn" = inr (JStr nqn).



(** The request passes the checks that [create_subsystem_safe] makes first. *)
Definition passes_validation {E} `{Environment E}
    (request : create_subsystem_req.t) : Prop :=
  is_discovery_nqn (create_subsystem_req.subsystem_nqn request) = false
  /\ create_subsystem_req.enable_ha request
     && negb (create_subsystem_req.ana_reporting request) = false
  /\ min_controller_id <= max_controller_id.

(** A computation that adds to the trace only events that [ok] accepts,
    however it ends. *)
Definition emits {E A} (ok : event -> bool) (m : M E A) : Prop :=
  forall w o w', m w = (o, w') ->
    exists t, trace w' = (trace w ++ t)%list /\ forallb ok t = true.

(** A computation whose reply, if it gives one, has an error status, and
    which adds to the trace only events that [ok] accepts. *)
Definition refuses {E} (ok : event -> bool) (m : M E reply) : Prop :=
  forall w o w', m w = (o, w') ->
    (forall r, o = Ok r -> status r <> 0)
    /\ exists t, trace w' = (trace w ++ t)%list /\ forallb ok t = true.

(** The event is a call that attaches a namespace. *)
Definition attaches (e : event) : bool :=
  match e with
  | Call (nvmf_subsystem_add_ns _ _ _ _ _) => true
  | _ => false
  end.

(** The limit that a stored QoS record holds for the field [f], if any. *)
Definition stored_limit (ns_qos_entry : json) (f : string) : option Z :=
  match dict_method_get ns_qos_entry f with
  | inr JNull => None
  | inr v => match py_int v with
             | inr n => Some n
             | inl _ => None
             end
  | inl _ => None
  end.

(** A field of the merged request: the requested value if the request sets
    the field, the stored one otherwise. *)
Definition merged_limit (requested : option Z) (ns_qos_entry : json)
    (f : string) : option Z :=
  match requested with
  | Some v => Some v
  | None => stored_limit ns_qos_entry f
  end.

(** The entry [n] of a listing is what a request for NSID [nsid] and UUID
    [uuid] asks for: its NSID is the requested one where the request gives
    a positive one, and its UUID the requested one where the request gives
    one. *)
Definition names_namespace (nsid : Z) (uuid : string) (n : json) : Prop :=
  (0 < nsid ->
   exists i, getitem n "nsid" = inr i /\ json_eqb (JNum nsid) i = true)
  /\ (uuid <> "" -> getitem n "uuid" = inr (JStr uuid)).

(** The entry [n] is listed among the namespaces of a subsystem named [nqn]
    in the engine's listing. *)
Definition namespace_of (nqn : string) (listing : list json) (n : json)
  : Prop :=
  exists s nss l,
    In s listing
    /\ getitem s "nqn" = inr (JStr nqn)
    /\ getitem s "namespaces" = inr nss
    /\ iter_json nss = inr l
    /\ In n l.

(** Every context of the pool but the current one is full. *)
Definition others_full {E} `{Environment E} (w : World E) : Prop :=
  forall name n,
    dict_get name (clusters w) = Some n ->
    current_cluster w <> Some name ->
    n = bdevs_per_cluster.

(** A computation that leaves the persisted record as it was unless it
    ends with a reply of status 0. *)
Definition writes_on_success {E} (m : M E reply) : Prop :=
  forall w o w', m w = (o, w') ->
    omap w' = omap w \/ exists r, o = Ok r /\ status r = 0.

(** The persisted record has a namespace entry of the subsystem [nqn]: an
    entry under a namespace key whose text [json.loads] reads, whose
    [subsystem_nqn] is [nqn] and which has an [nsid]. *)
Definition namespace_in_record {E} `{Environment E} (nqn : string)
    (state : dict string) : Prop :=
  exists key val ns nsid,
    In (key, val) state
    /\ prefix GatewayState.NAMESPACE_PREFIX key = true
    /\ json_loads val = Some ns
    /\ getitem ns "subsystem_nqn" = inr (JStr nqn)
    /\ getitem ns "nsid" = inr nsid.

(** * Properties *)

Section Properties.

Context {E : Type} `{Env : Environment E}.

Local Open Scope list_scope.

Lemma engine_calls_app (t u : list event) :
  engine_calls (t ++ u) = engine_calls t ++ engine_calls u.
Proof. unfold engine_calls. apply flat_map_app. Qed.

Lemma engine_calls_snoc_lock (t : list event) (e : event) :
  (forall c, e <> Call c) -> engine_calls (t ++ [e]) = engine_calls t.
Proof.
  intros He. rewrite engine_calls_app. destruct e; simpl;
    try apply app_nil_r. now destruct (He c).
Qed.

(** *** Dictionaries *)

Lemma dict_get_set {V} (d : dict V) (k : string) (v : V) (k' : string) :
  dict_get k' (dict_set k v d)
  = if String.eqb k' k then Some v else dict_get k' d.
Proof.
  induction d as [|[a b] d IH]; cbn.
  - destruct (String.eqb k' k); reflexivity.
  - destruct (String.eqb k a) eqn:Hka; cbn.
    + apply String.eqb_eq in Hka. subst a.
      destruct (String.eqb k' k); reflexivity.
    + rewrite IH. destruct (String.eqb k' k) eqn:Hk'k; [|reflexivity].
      apply String.eqb_eq in Hk'k. subst k'. now rewrite Hka.
Qed.

Lemma dict_get_set_same {V} (d : dict V) (k : string) (v : V) :
  dict_get k (dict_set k v d) = Some v.
Proof. rewrite dict_get_set. now rewrite String.eqb_refl. Qed.

Lemma dict_set_not_nil {V} (d : dict V) (k : string) (v : V) :
  dict_set k v d <> [].
Proof.
  destruct d as [|[a b] d]; cbn; [discriminate|].
  destruct (String.eqb k a); discriminate.
Qed.

Lemma dict_get_del {V} (d : dict V) (k : string) :
  dict_get k (dict_del k d) = None.
Proof.
  induction d as [|[a b] d IH]; cbn; [reflexivity|].
  destruct (String.eqb k a) eqn:Hka; cbn; [assumption|].
  now rewrite Hka.
Qed.


(** *** What a computation leaves alone *)

Section Frame.

Context {X : Type} (f : World E -> X) (Hf : passive f).

Lemma keeps_ret {A} (a : A) : keeps f (ret a).
Proof. intros w o w' [= <- <-]. reflexivity. Qed.

Lemma keeps_raise {A} (e : exn) : keeps (A:=A) f (raise e).
Proof. intros w o w' [= <- <-]. reflexivity. Qed.

Lemma keeps_lift {A} (r : exn + A) : keeps f (lift r).
Proof. destruct r; [apply keeps_raise|apply keeps_ret]. Qed.

Lemma keeps_bind {A B} (m : M E A) (k : A -> M E B) :
  keeps f m -> (forall a, keeps f (k a)) -> keeps f (bind m k).
Proof.
  intros Hm Hk w o w'. unfold bind.
  destruct (m w) as [[a|e] w1] eqn:Hmw.
  - intros Hkw. rewrite (Hk _ _ _ _ Hkw). apply (Hm _ _ _ Hmw).
  - intros [= <- <-]. apply (Hm _ _ _ Hmw).
Qed.

Lemma keeps_try_or_return {A B} (m : M E A) (h : exn -> M E B)
    (k : A -> M E B) :
  keeps f m -> (forall e, keeps f (h e)) ->
  (forall a, keeps f (k a)) -> keeps f (try_or_return m h k).
Proof.
  intros Hm Hh Hk w o w'. unfold try_or_return.
  destruct (m w) as [[a|e] w1] eqn:Hmw; intros Hkw.
  - rewrite (Hk _ _ _ _ Hkw). apply (Hm _ _ _ Hmw).
  - rewrite (Hh _ _ _ _ Hkw). apply (Hm _ _ _ Hmw).
Qed.

Lemma keeps_try_except {A} (m : M E A) (h : exn -> M E A) :
  keeps f m -> (forall e, keeps f (h e)) -> keeps f (try_except m h).
Proof.
  intros Hm Hh w o w'. unfold try_except.
  destruct (m w) as [[a|e] w1] eqn:Hmw.
  - intros [= <- <-]. apply (Hm _ _ _ Hmw).
  - intros Hkw. rewrite (Hh _ _ _ _ Hkw). apply (Hm _ _ _ Hmw).
Qed.

Lemma keeps_call (c : rpc) : keeps f (call c).
Proof.
  intros w o w'. unfold call.
  destruct (spdk c (engine w)) as [[v|ex] e1]; intros [= <- <-];
    apply Hf.
Qed.

Lemma keeps_emit (e : event) : keeps f (emit e).
Proof. intros w o w' [= <- <-]. apply Hf. Qed.

Lemma keeps_log (lv : level) (s : string) : keeps f (log lv s).
Proof. apply keeps_emit. Qed.

Lemma keeps_get_state : keeps f get_state.
Proof. intros w o w' [= <- <-]. reflexivity. Qed.

Lemma keeps_set_pool (cl : dict Z) (cur : option string) :
  keeps f (set_pool cl cur).
Proof. intros w o w' [= <- <-]. apply Hf. Qed.

Lemma keeps_get_clusters : keeps f get_clusters.
Proof. intros w o w' [= <- <-]. reflexivity. Qed.

Lemma keeps_get_current_cluster : keeps f get_current_cluster.
Proof. intros w o w' [= <- <-]. reflexivity. Qed.

Lemma keeps_assert_omap_locked : keeps f assert_omap_locked.
Proof.
  intros w o w'. unfold assert_omap_locked.
  destruct (is_held omap_lock w); intros [= <- <-]; reflexivity.
Qed.

End Frame.

Lemma passive_omap : passive (E:=E) omap.
Proof. intros w e cl cur t. reflexivity. Qed.

Lemma passive_held : passive (E:=E) held.
Proof. intros w e cl cur t. reflexivity. Qed.

Lemma drop_lock_head (l : lock) (ls : list lock) :
  drop_lock l (l :: ls) = ls.
Proof. cbn. now destruct l. Qed.

Lemma keeps_with_lock_omap {A} (l : lock) (m : M E A) :
  keeps omap m -> keeps omap (with_lock l m).
Proof.
  intros Hm w o w'. unfold with_lock, bind, acquire, finally.
  match goal with |- context [m ?w0] =>
    destruct (m w0) as [o1 w1] eqn:Hmw end.
  intros [= <- <-]. unfold release. cbn. now rewrite (Hm _ _ _ Hmw).
Qed.

Lemma keeps_with_lock_held {A} (l : lock) (m : M E A) :
  keeps held m -> keeps held (with_lock l m).
Proof.
  intros Hm w o w'. unfold with_lock, bind, acquire, finally.
  match goal with |- context [m ?w0] =>
    destruct (m w0) as [o1 w1] eqn:Hmw end.
  intros [= <- <-]. unfold release. cbn [held].
  rewrite (Hm _ _ _ Hmw). cbn [held]. apply drop_lock_head.
Qed.

Lemma keeps_with_omap_lock_omap {A} (context : bool) (m : M E A) :
  keeps omap m -> keeps omap (with_omap_lock context m).
Proof.
  intros Hm w o w'. unfold with_omap_lock.
  destruct (is_held omap_lock w); [apply Hm|].
  now apply keeps_with_lock_omap.
Qed.

Lemma keeps_with_omap_lock_held {A} (context : bool) (m : M E A) :
  keeps held m -> keeps held (with_omap_lock context m).
Proof.
  intros Hm w o w'. unfold with_omap_lock.
  destruct (is_held omap_lock w); [apply Hm|].
  now apply keeps_with_lock_held.
Qed.

(** Writing the persisted record takes and gives no lock. *)
Lemma keeps_gateway_state_held (o : GatewayState.op) :
  keeps held (gateway_state o).
Proof.
  intros w r w'. unfold gateway_state.
  destruct (omap_raises o (omap w)); intros [= <- <-]; reflexivity.
Qed.

Ltac passive_side :=
  first [ exact passive_omap | exact passive_held | assumption ].

Ltac keeps_step :=
  first
    [ assumption
    | match goal with
      | |- forall _, _ => intro
      | |- keeps _ (ret _) => apply keeps_ret
      | |- keeps _ skip => apply keeps_ret
      | |- keeps _ (raise _) => apply keeps_raise
      | |- keeps _ (lift _) => apply keeps_lift
      | |- keeps _ (call _) => apply keeps_call; passive_side
      | |- keeps _ (log _ _) => apply keeps_log; passive_side
      | |- keeps _ (emit _) => apply keeps_emit; passive_side
      | |- keeps _ get_state => apply keeps_get_state
      | |- keeps _ (set_pool _ _) => apply keeps_set_pool; passive_side
      | |- keeps _ get_clusters => apply keeps_get_clusters
      | |- keeps _ get_current_cluster => apply keeps_get_current_cluster
      | |- keeps _ assert_omap_locked => apply keeps_assert_omap_locked
      | |- keeps held (gateway_state _) => apply keeps_gateway_state_held
      | |- keeps omap (with_lock _ _) => apply keeps_with_lock_omap
      | |- keeps held (with_lock _ _) => apply keeps_with_lock_held
      | |- keeps omap (with_omap_lock _ _) =>
          apply keeps_with_omap_lock_omap
      | |- keeps held (with_omap_lock _ _) =>
          apply keeps_with_omap_lock_held
      | |- keeps _ (try_or_return _ _ _) => apply keeps_try_or_return
      | |- keeps _ (try_except _ _) => apply keeps_try_except
      | |- keeps _ (bind _ _) => apply keeps_bind
      | |- keeps _ (if ?b then _ else _) => destruct b
      | |- keeps _ (match ?x with _ => _ end) => destruct x
      end ].

Lemma keeps_get_cluster {X} (f : World E -> X) :
  passive f -> keeps f _get_cluster.
Proof.
  intros Hf.
  assert (H0 : keeps f (_get_cluster_at 0)).
  { cbn [_get_cluster_at]. unfold _alloc_cluster. repeat keeps_step. }
  unfold _get_cluster. cbn [_get_cluster_at]. unfold _alloc_cluster.
  repeat keeps_step.
Qed.

Ltac keeps :=
  repeat first [ apply keeps_get_cluster; passive_side | keeps_step ].

Lemma keeps_create_bdev {X} (f : World E -> X) name uuid pool image bs :
  passive f -> keeps f (create_bdev name uuid pool image bs).
Proof. intros Hf. unfold create_bdev. keeps. Qed.

Lemma keeps_delete_bdev {X} (f : World E -> X) (name : json) :
  passive f -> keeps f (delete_bdev name).
Proof. intros Hf. unfold delete_bdev. keeps. Qed.

Lemma keeps_create_namespace {X} (f : World E -> X) nqn bdev nsid anagrpid
    uuid context :
  passive f -> keeps f (create_namespace nqn bdev nsid anagrpid uuid context).
Proof. intros Hf. unfold create_namespace, skip. keeps. Qed.

Lemma keeps_remove_namespace {X} (f : World E -> X) nqn nsid context :
  passive f -> keeps f (remove_namespace nqn nsid context).
Proof. intros Hf. unfold remove_namespace, skip. keeps. Qed.

Lemma keeps_find_namespace_omap nqn nsid uuid needs_lock :
  keeps omap (find_namespace_and_bdev_name nqn nsid uuid needs_lock).
Proof. unfold find_namespace_and_bdev_name. cbv beta zeta. keeps. Qed.

Lemma keeps_find_namespace_held nqn nsid uuid needs_lock :
  keeps held (find_namespace_and_bdev_name nqn nsid uuid needs_lock).
Proof. unfold find_namespace_and_bdev_name. cbv beta zeta. keeps. Qed.

(** *** What a computation adds to the trace *)

Section Emits.

Context (ok : event -> bool).

Lemma emits_same {A} (m : M E A) :
  (forall w o w', m w = (o, w') -> trace w' = trace w) -> emits ok m.
Proof.
  intros H w o w' Hm. exists []. rewrite app_nil_r.
  split; [apply (H _ _ _ Hm)|reflexivity].
Qed.

Lemma emits_ret {A} (a : A) : emits (E:=E) ok (ret a).
Proof. apply emits_same. now intros w o w' [= <- <-]. Qed.

Lemma emits_raise {A} (e : exn) : emits (E:=E) (A:=A) ok (raise e).
Proof. apply emits_same. now intros w o w' [= <- <-]. Qed.

Lemma emits_lift {A} (r : exn + A) : emits (E:=E) ok (lift r).
Proof. destruct r; [apply emits_raise|apply emits_ret]. Qed.

Lemma emits_get_state : emits (E:=E) ok get_state.
Proof. apply emits_same. now intros w o w' [= <- <-]. Qed.

Lemma emits_get_clusters : emits (E:=E) ok get_clusters.
Proof. apply emits_same. now intros w o w' [= <- <-]. Qed.

Lemma emits_get_current_cluster : emits (E:=E) ok get_current_cluster.
Proof. apply emits_same. now intros w o w' [= <- <-]. Qed.

Lemma emits_set_pool (cl : dict Z) (cur : option string) :
  emits (E:=E) ok (set_pool cl cur).
Proof. apply emits_same. now intros w o w' [= <- <-]. Qed.

Lemma emits_assert_omap_locked : emits (E:=E) ok assert_omap_locked.
Proof.
  apply emits_same. intros w o w'. unfold assert_omap_locked.
  now destruct (is_held omap_lock w); intros [= <- <-].
Qed.

Lemma emits_gateway_state (o : GatewayState.op) :
  emits ok (gateway_state o).
Proof.
  apply emits_same. intros w r w'. unfold gateway_state.
  now destruct (omap_raises o (omap w)); intros [= <- <-].
Qed.

Lemma emits_emit (e : event) : ok e = true -> emits (E:=E) ok (emit e).
Proof.
  intros He w o w' [= <- <-]. exists [e]. cbn. now rewrite He.
Qed.

Lemma emits_log (lv : level) (s : string) :
  ok (Log lv s) = true -> emits (E:=E) ok (log lv s).
Proof. apply emits_emit. Qed.

Lemma emits_call (c : rpc) : ok (Call c) = true -> emits ok (call c).
Proof.
  intros He w o w'. unfold call.
  destruct (spdk c (engine w)) as [[v|ex] e1]; intros [= <- <-];
    exists [Call c]; cbn; now rewrite He.
Qed.

Lemma emits_trans (w w1 w2 : World E) (t1 t2 : list event) :
  trace w1 = trace w ++ t1 -> forallb ok t1 = true ->
  trace w2 = trace w1 ++ t2 -> forallb ok t2 = true ->
  exists t, trace w2 = trace w ++ t /\ forallb ok t = true.
Proof.
  intros H1 Ht1 H2 Ht2. exists (t1 ++ t2).
  rewrite H2, H1, app_assoc, forallb_app, Ht1, Ht2. auto.
Qed.

Lemma emits_bind {A B} (m : M E A) (k : A -> M E B) :
  emits ok m -> (forall a, emits ok (k a)) -> emits ok (bind m k).
Proof.
  intros Hm Hk w o w'. unfold bind.
  destruct (m w) as [[a|e] w1] eqn:Hmw.
  - intros Hkw. destruct (Hm _ _ _ Hmw) as (t1 & H1 & Ht1).
    destruct (Hk _ _ _ _ Hkw) as (t2 & H2 & Ht2).
    eapply emits_trans; eassumption.
  - intros [= <- <-]. apply (Hm _ _ _ Hmw).
Qed.

Lemma emits_try_or_return {A B} (m : M E A) (h : exn -> M E B)
    (k : A -> M E B) :
  emits ok m -> (forall e, emits ok (h e)) ->
  (forall a, emits ok (k a)) -> emits ok (try_or_return m h k).
Proof.
  intros Hm Hh Hk w o w'. unfold try_or_return.
  destruct (m w) as [[a|e] w1] eqn:Hmw; intros Hkw;
    destruct (Hm _ _ _ Hmw) as (t1 & H1 & Ht1).
  - destruct (Hk _ _ _ _ Hkw) as (t2 & H2 & Ht2).
    eapply emits_trans; eassumption.
  - destruct (Hh _ _ _ _ Hkw) as (t2 & H2 & Ht2).
    eapply emits_trans; eassumption.
Qed.

Lemma emits_try_except {A} (m : M E A) (h : exn -> M E A) :
  emits ok m -> (forall e, emits ok (h e)) -> emits ok (try_except m h).
Proof.
  intros Hm Hh w o w'. unfold try_except.
  destruct (m w) as [[a|e] w1] eqn:Hmw.
  - intros [= <- <-]. apply (Hm _ _ _ Hmw).
  - intros Hkw. destruct (Hm _ _ _ Hmw) as (t1 & H1 & Ht1).
    destruct (Hh _ _ _ _ Hkw) as (t2 & H2 & Ht2).
    eapply emits_trans; eassumption.
Qed.

Lemma emits_with_lock {A} (l : lock) (m : M E A) :
  ok (Acquire l) = true -> ok (Release l) = true ->
  emits ok m -> emits ok (with_lock l m).
Proof.
  intros Ha Hr Hm w o w'. unfold with_lock, bind, acquire, finally.
  match goal with |- context [m ?w0] =>
    destruct (m w0) as [o1 w1] eqn:Hmw end.
  intros [= <- <-]. destruct (Hm _ _ _ Hmw) as (t & Ht & Hok).
  cbn in Ht. exists (Acquire l :: t ++ [Release l]).
  unfold release. cbn [trace]. rewrite Ht. split.
  - now rewrite <- !app_assoc.
  - cbn. rewrite Ha, forallb_app, Hok. cbn. now rewrite Hr.
Qed.

Lemma emits_with_omap_lock {A} (context : bool) (m : M E A) :
  ok (Acquire omap_lock) = true -> ok (Release omap_lock) = true ->
  emits ok m -> emits ok (with_omap_lock context m).
Proof.
  intros Ha Hr Hm w o w'. unfold with_omap_lock.
  destruct (is_held omap_lock w); [apply Hm|].
  now apply emits_with_lock.
Qed.

(** Replies with an error status *)

Lemma refuses_ret (r : reply) :
  status r <> 0 -> refuses (E:=E) ok (ret r).
Proof.
  intros Hr w o w' [= <- <-]. split.
  - now intros r' [= <-].
  - exists []. now rewrite app_nil_r.
Qed.

Lemma refuses_raise (e : exn) : refuses (E:=E) ok (raise e).
Proof.
  intros w o w' [= <- <-]. split; [discriminate|].
  exists []. now rewrite app_nil_r.
Qed.

Lemma refuses_bind_post {A} (Q : A -> Prop) (m : M E A)
    (k : A -> M E reply) :
  emits ok m ->
  (forall w a w', m w = (Ok a, w') -> Q a) ->
  (forall a, Q a -> refuses ok (k a)) ->
  refuses ok (bind m k).
Proof.
  intros Hm HQ Hk w o w'. unfold bind.
  destruct (m w) as [[a|e] w1] eqn:Hmw.
  - intros Hkw. destruct (Hm _ _ _ Hmw) as (t1 & H1 & Ht1).
    destruct (Hk a (HQ _ _ _ Hmw) _ _ _ Hkw) as (Hst & t2 & H2 & Ht2).
    split; [exact Hst|]. eapply emits_trans; eassumption.
  - intros [= <- <-]. split; [discriminate|]. apply (Hm _ _ _ Hmw).
Qed.

Lemma refuses_bind {A} (m : M E A) (k : A -> M E reply) :
  emits ok m -> (forall a, refuses ok (k a)) -> refuses ok (bind m k).
Proof.
  intros Hm Hk. apply (refuses_bind_post (fun _ => True)); auto.
Qed.

Lemma refuses_with_lock (l : lock) (m : M E reply) :
  ok (Acquire l) = true -> ok (Release l) = true ->
  refuses ok m -> refuses ok (with_lock l m).
Proof.
  intros Ha Hr Hm w o w'. unfold with_lock, bind, acquire, finally.
  match goal with |- context [m ?w0] =>
    destruct (m w0) as [o1 w1] eqn:Hmw end.
  intros [= <- <-]. destruct (Hm _ _ _ Hmw) as (Hst & t & Ht & Hok).
  split; [exact Hst|].
  cbn in Ht. exists (Acquire l :: t ++ [Release l]).
  unfold release. cbn [trace]. rewrite Ht. split.
  - now rewrite <- !app_assoc.
  - cbn. rewrite Ha, forallb_app, Hok. cbn. now rewrite Hr.
Qed.

Lemma refuses_with_omap_lock (context : bool) (m : M E reply) :
  ok (Acquire omap_lock) = true -> ok (Release omap_lock) = true ->
  refuses ok m -> refuses ok (with_omap_lock context m).
Proof.
  intros Ha Hr Hm w o w'. unfold with_omap_lock.
  destruct (is_held omap_lock w); [apply Hm|].
  now apply refuses_with_lock.
Qed.

End Emits.

Ltac emits_step :=
  first
    [ assumption
    | reflexivity
    | match goal with
      | |- forall _, _ => intro
      | |- emits _ (ret _) => apply emits_ret
      | |- emits _ skip => apply emits_ret
      | |- emits _ (raise _) => apply emits_raise
      | |- emits _ (lift _) => apply emits_lift
      | |- emits _ (call _) => apply emits_call
      | |- emits _ (log _ _) => apply emits_log
      | |- emits _ (emit _) => apply emits_emit
      | |- emits _ get_state => apply emits_get_state
      | |- emits _ (set_pool _ _) => apply emits_set_pool
      | |- emits _ get_clusters => apply emits_get_clusters
      | |- emits _ get_current_cluster => apply emits_get_current_cluster
      | |- emits _ assert_omap_locked => apply emits_assert_omap_locked
      | |- emits _ (gateway_state _) => apply emits_gateway_state
      | |- emits _ (with_lock _ _) => apply emits_with_lock
      | |- emits _ (with_omap_lock _ _) => apply emits_with_omap_lock
      | |- emits _ (try_or_return _ _ _) => apply emits_try_or_return
      | |- emits _ (try_except _ _) => apply emits_try_except
      | |- emits _ (bind _ _) => apply emits_bind
      | |- emits _ (if ?b then _ else _) => destruct b
      | |- emits _ (match ?x with _ => _ end) => destruct x
      end ].

Ltac emits := repeat emits_step.

(** *** Error translator *)

Lemma parse_try_needs_marker (message : string) :
  find json_error_text message = None ->
  parse_json_exeption_try message = None.
Proof. unfold parse_json_exeption_try. now intros ->. Qed.

(** An error that is not a JSON-RPC error is invalid-argument. *)
Lemma failure_status_other_exception (ex : exn) :
  (forall m, ex <> JSONRPCException m) -> failure_status ex = inr EINVAL.
Proof.
  intros H. unfold failure_status, parse_json_exeption.
  destruct ex; try reflexivity. exfalso. eapply H. reflexivity.
Qed.

(** X7. A JSON-RPC error whose text carries a structured response with a
    code and a message gives the absolute value of the code as status: a
    negative code gives the positive one. *)
Lemma failure_status_structured (message : string) (l : list (string * json))
    (n : Z) (m : json) :
  parse_json_exeption_try message = Some (JObj l) ->
  dict_get "code" l = Some (JNum n) ->
  dict_get "message" l = Some m ->
  failure_status (JSONRPCException message) = inr (Z.abs n).
Proof.
  intros Hp Hc Hm. unfold failure_status, parse_json_exeption.
  rewrite Hp. destruct l as [|kv l']; [discriminate|].
  cbn [truthy]. unfold normalize_code. cbn [getitem]. rewrite Hc.
  cbn [as_int]. destruct (n <? 0) eqn:Hn.
  - assert (Ht : truthy (JObj (dict_set "code" (JNum (- n)) (kv :: l')))
                 = true).
    { destruct (dict_set "code" (JNum (- n)) (kv :: l')) eqn:Hd;
        [now apply dict_set_not_nil in Hd | reflexivity]. }
    rewrite Ht. cbn [getitem]. rewrite !dict_get_set.
    change (String.eqb "code" "code") with true.
    change (String.eqb "message" "code") with false.
    cbv iota. rewrite Hm. cbn [as_int].
    apply Z.ltb_lt in Hn. f_equal. lia.
  - cbn [truthy getitem]. rewrite Hc, Hm. cbn.
    apply Z.ltb_ge in Hn. f_equal. lia.
Qed.

Lemma failure_status_unstructured (message : string) :
  parse_json_exeption_try message = None ->
  failure_status (JSONRPCException message)
  = inl (UnboundLocalError "resp").
Proof.
  intros Hp. unfold failure_status, parse_json_exeption. now rewrite Hp.
Qed.

(** C2. An engine failure whose text carries no structured error after the
    marker should translate to invalid-argument. In the code the
    translator then reads a variable it never bound: the failing input is
    any JSON-RPC error whose text binds nothing in the [try] block, and
    there the translator, the status computation and [create_bdev] all
    end in [UnboundLocalError] instead of a reply with status EINVAL. *)
Theorem unstructured_error_is_unbound_local (message : string) :
  parse_json_exeption_try message = None ->
  parse_json_exeption (JSONRPCException message)
    = inl (UnboundLocalError "resp")
  /\ failure_status (JSONRPCException message)
    = inl (UnboundLocalError "resp")
  /\ forall name uuid pool image block_size (w w' : World E),
       (cluster_name <- _get_cluster ;;
        call (bdev_rbd_create name cluster_name pool image block_size uuid))
         w = (Raised (JSONRPCException message), w') ->
       create_bdev name uuid pool image block_size w
       = (Raised (UnboundLocalError "resp"), w').
Proof.
  intros Hp.
  assert (H1 : parse_json_exeption (JSONRPCException message)
               = inl (UnboundLocalError "resp")).
  { unfold parse_json_exeption. now rewrite Hp. }
  assert (H2 : failure_status (JSONRPCException message)
               = inl (UnboundLocalError "resp")).
  { unfold failure_status. now rewrite H1. }
  repeat split; trivial.
  intros name uuid pool image block_size w w' Hrun.
  unfold create_bdev, try_or_return. rewrite Hrun.
  unfold bind. rewrite H2. reflexivity.
Qed.


(** *** Namespaces addressed by nothing *)

Lemma find_namespace_unaddressed (nqn : string) (nsid : Z)
    (needs_lock : bool) (w : World E) :
  nsid <= 0 ->
  find_namespace_and_bdev_name nqn nsid "" needs_lock w
  = (Ok (JNull, JNull), w).
Proof.
  intros Hn. unfold find_namespace_and_bdev_name.
  apply Z.leb_le in Hn. rewrite Hn. reflexivity.
Qed.

Lemma untouched_locked (w : World E) (l1 : list event) (h : list lock) :
  (forall c, ~ In (Call c) l1) ->
  untouched w
    (mkWorld (engine w) (omap w) (clusters w) (current_cluster w) h
       (trace w ++ l1)).
Proof.
  intros Hl. unfold untouched. cbn. repeat split.
  rewrite engine_calls_app.
  assert (Hnil : engine_calls l1 = []).
  { clear -Hl. induction l1 as [|e l IH]; [reflexivity|].
    destruct e; cbn in *;
      try (apply IH; intros c Hc; apply (Hl c); now right).
    exfalso. apply (Hl c). now left. }
  rewrite Hnil. apply app_nil_r.
Qed.

Ltac no_calls :=
  let c := fresh "c" in
  let Hc := fresh "Hc" in
  cbn; intros c Hc;
  repeat (destruct Hc as [Hc|Hc]; [discriminate|]); destruct Hc.

(** C10. A request that names a namespace neither by a positive NSID nor
    by a UUID is answered ENODEV by each of the five operations that look
    a namespace up, with no call to the engine and nothing changed. *)
Theorem unaddressed_namespace_is_rejected (nqn : string) (nsid : Z)
    (context : bool) (w : World E) :
  nsid <= 0 ->
  (exists w',
     namespace_delete (namespace_delete_req.mk nqn nsid "") context w
     = (Ok (req_status ENODEV), w') /\ untouched w w')
  /\ (forall new_size, exists w',
     namespace_resize (namespace_resize_req.mk nqn nsid "" new_size)
       context w
     = (Ok (req_status ENODEV), w') /\ untouched w w')
  /\ (exists w',
     namespace_get_io_stats (namespace_get_io_stats_req.mk nqn nsid "")
       context w
     = (Ok (req_status ENODEV), w') /\ untouched w w')
  /\ (forall a b c d, exists w',
     namespace_set_qos_limits
       (namespace_set_qos_req.mk nqn nsid "" a b c d) context w
     = (Ok (req_status ENODEV), w') /\ untouched w w')
  /\ (forall anagrpid, exists w',
     namespace_change_load_balancing_group
       (namespace_change_load_balancing_group_req.mk nqn nsid "" anagrpid)
       context w
     = (Ok (req_status ENODEV), w') /\ untouched w w').
Proof.
  intros Hn.
  repeat split; intros.
  - eexists. split.
    + unfold namespace_delete, execute_grpc_function,
        execute_omap_locking_function, _grpc_function_with_lock,
        with_lock, namespace_delete_safe, with_omap_lock, bind, finally,
        acquire. cbn. rewrite find_namespace_unaddressed by assumption.
      cbn. reflexivity.
    + unfold release. cbn. rewrite <- !app_assoc.
      apply untouched_locked. no_calls.
  - eexists. split.
    + unfold namespace_resize, bind. cbn.
      rewrite find_namespace_unaddressed by assumption. cbn. reflexivity.
    + unfold untouched. auto.
  - eexists. split.
    + unfold namespace_get_io_stats, with_lock, bind, finally, acquire.
      cbn. rewrite find_namespace_unaddressed by assumption.
      cbn. reflexivity.
    + unfold release. cbn. rewrite <- !app_assoc.
      apply untouched_locked. no_calls.
  - eexists. split.
    + unfold namespace_set_qos_limits, execute_grpc_function,
        execute_omap_locking_function, _grpc_function_with_lock,
        with_lock, namespace_set_qos_limits_safe, bind, finally, acquire.
      cbn. rewrite find_namespace_unaddressed by assumption.
      cbn. reflexivity.
    + unfold release. cbn. rewrite <- !app_assoc.
      apply untouched_locked. no_calls.
  - eexists. split.
    + unfold namespace_change_load_balancing_group, execute_grpc_function,
        execute_omap_locking_function, _grpc_function_with_lock,
        with_lock, namespace_change_load_balancing_group_safe,
        with_omap_lock, bind, finally, acquire.
      cbn. rewrite find_namespace_unaddressed by assumption.
      cbn. reflexivity.
    + unfold release. cbn. rewrite <- !app_assoc.
      apply untouched_locked. no_calls.
Qed.


(** *** Cluster context pool *)

Lemma str_of_nat_inj (i j : nat) : str_of_nat i = str_of_nat j -> i = j.
Proof.
  unfold str_of_nat. intros H.
  assert (H' : Some (Nat.to_uint i) = Some (Nat.to_uint j)).
  { rewrite <- !NilEmpty.usu. now rewrite H. }
  injection H' as H'. rewrite <- (Unsigned.of_to i), <- (Unsigned.of_to j).
  now rewrite H'.
Qed.

Lemma context_name_inj (i j : nat) :
  context_name i = context_name j -> i = j.
Proof.
  unfold context_name. intros H. apply str_of_nat_inj.
  cbn in H. repeat (injection H as H). exact H.
Qed.

Lemma dict_get_None {V} (d : dict V) (k : string) :
  dict_get k d = None <-> ~ In k (map fst d).
Proof.
  induction d as [|[a b] d IH]; cbn.
  - tauto.
  - destruct (String.eqb k a) eqn:Hk.
    + apply String.eqb_eq in Hk. subst. split; [discriminate|]. tauto.
    + apply String.eqb_neq in Hk. rewrite IH. split.
      * intros Hn [->|Hi]; tauto.
      * tauto.
Qed.

Lemma dict_set_fresh {V} (d : dict V) (k : string) (v : V) :
  dict_get k d = None -> dict_set k v d = d ++ [(k, v)].
Proof.
  induction d as [|[a b] d IH]; cbn; [reflexivity|].
  destruct (String.eqb k a); [discriminate|].
  intros H. now rewrite IH.
Qed.

Lemma dict_set_keys {V} (d : dict V) (k : string) (v v' : V) :
  dict_get k d = Some v' -> map fst (dict_set k v d) = map fst d.
Proof.
  induction d as [|[a b] d IH]; cbn; [discriminate|].
  destruct (String.eqb k a) eqn:Hk; cbn; [reflexivity|].
  intros H. now rewrite IH.
Qed.

Lemma dict_set_length {V} (d : dict V) (k : string) (v v' : V) :
  dict_get k d = Some v' -> List.length (dict_set k v d) = List.length d.
Proof.
  intros H. rewrite <- (length_map fst), (dict_set_keys _ _ _ _ H).
  apply length_map.
Qed.

Lemma context_name_fresh (cl : dict Z) :
  map fst cl = map context_name (seq 0 (List.length cl)) ->
  dict_get (context_name (List.length cl)) cl = None.
Proof.
  intros Hk. apply dict_get_None. rewrite Hk. intros Hin.
  apply in_map_iff in Hin. destruct Hin as (i & Hi & Hin).
  apply context_name_inj in Hi. apply in_seq in Hin. lia.
Qed.

Lemma handed_out_snoc (name x : string) (h : list string) :
  handed_out name (h ++ [x])
  = handed_out name h + (if String.eqb name x then 1 else 0).
Proof.
  unfold handed_out. rewrite count_occ_app. cbn.
  destruct (string_dec x name) as [->|Hn].
  - rewrite String.eqb_refl. lia.
  - destruct (String.eqb name x) eqn:Hx; [|lia].
    apply String.eqb_eq in Hx. congruence.
Qed.

(** What one acquisition does: it hands out the current context when that
    has room, and otherwise registers the next one. *)
Lemma get_cluster_cases (w : World E) :
  (exists c n,
      current_cluster w = Some c /\ dict_get c (clusters w) = Some n
      /\ n < bdevs_per_cluster
      /\ _get_cluster w
         = (Ok c, mkWorld (engine w) (omap w)
                    (dict_set c (n + 1) (clusters w)) (Some c) (held w)
                    (trace w)))
  \/ ((current_cluster w = None
       \/ exists c n, current_cluster w = Some c
                      /\ dict_get c (clusters w) = Some n
                      /\ bdevs_per_cluster <= n)
      /\ _get_cluster w
         = let name := context_name (List.length (clusters w)) in
           let t := trace w ++ [Call (register_call w)] in
           match spdk (register_call w) (engine w) with
           | (Returns _, e') =>
               (Ok name, mkWorld e' (omap w)
                           (dict_set name 1 (clusters w)) (Some name)
                           (held w) t)
           | (Raises ex, e') =>
               (Raised ex, mkWorld e' (omap w) (clusters w) None (held w) t)
           end)
  \/ (exists c, current_cluster w = Some c
                /\ dict_get c (clusters w) = None).
Proof.
  unfold _get_cluster, register_call, context_name. 
  destruct (current_cluster w) as [c|] eqn:Hcur.
  - destruct (dict_get c (clusters w)) as [n|] eqn:Hget.
    + destruct (bdevs_per_cluster <=? n) eqn:Hfull.
      * right. left. split.
        { right. exists c, n. apply Z.leb_le in Hfull. auto. }
        cbn -[Z.leb Z.add].
        unfold bind, get_current_cluster, get_clusters, set_pool.
        rewrite Hcur. cbn -[Z.leb Z.add]. rewrite Hget, Hfull.
        cbn -[Z.leb Z.add].
        unfold _alloc_cluster, bind, get_clusters, call. cbn -[Z.leb Z.add].
        destruct (spdk _ (engine w)) as [[v|ex] e']; reflexivity.
      * left. exists c, n.
        pose proof (proj1 (Z.leb_gt _ _) Hfull) as Hlt.
        repeat split; trivial.
        cbn -[Z.leb Z.add].
        unfold bind, get_current_cluster, get_clusters, set_pool.
        rewrite Hcur. cbn -[Z.leb Z.add]. rewrite Hget, Hfull. reflexivity.
    + right. right. eauto.
  - right. left. split; [now left|].
    cbn. unfold bind, get_current_cluster. rewrite Hcur.
    unfold _alloc_cluster, bind, get_clusters, call, set_pool. cbn.
    destruct (spdk _ (engine w)) as [[v|ex] e']; rewrite ?Hcur; reflexivity.
Qed.

Lemma counter_set (cl : dict Z) (k name : string) (v : Z) :
  counter name (dict_set k v cl)
  = if String.eqb name k then v else counter name cl.
Proof.
  unfold counter. rewrite dict_get_set. now destruct (String.eqb name k).
Qed.

Lemma last_context_present (cl : dict Z) (k : nat) :
  map fst cl = map context_name (seq 0 (List.length cl)) ->
  List.length cl = S k ->
  dict_get (context_name k) cl <> None.
Proof.
  intros Hk Hlen Hget. apply dict_get_None in Hget. apply Hget.
  rewrite Hk. apply in_map. apply in_seq. lia.
Qed.

Lemma pool_ok_step (w : World E) (h : list string) :
  1 <= bdevs_per_cluster -> pool_ok w h ->
  forall o w', _get_cluster w = (o, w') ->
    match o with
    | Ok name => pool_ok w' (h ++ [name])
    | Raised _ => pool_ok w' h
    end.
Proof.
  intros HB (Hkeys & Hbound & Hcount & Hcur) o w' Hrun.
  destruct (get_cluster_cases w)
    as [(c & n & Hc & Hget & Hlt & Heq)
       |[(Hwhy & Heq)|(c & Hc & Hget)]].
  - rewrite Heq in Hrun. injection Hrun as <- <-.
    unfold pool_ok. cbn [clusters current_cluster].
    rewrite (dict_set_keys _ _ _ _ Hget), (dict_set_length _ _ _ _ Hget).
    split; [assumption|]. split; [|split].
    + intros name m. rewrite dict_get_set.
      destruct (String.eqb name c).
      * intros [= <-]. specialize (Hbound _ _ Hget). lia.
      * apply Hbound.
    + intros name. rewrite handed_out_snoc, counter_set, Hcount.
      destruct (String.eqb name c) eqn:Hn; [|lia].
      apply String.eqb_eq in Hn. subst name. unfold counter.
      rewrite Hget. lia.
    + right. destruct Hcur as [Hcur|(k & Hlen & Hcur)]; [congruence|].
      exists k. split; [assumption|]. congruence.
  - pose proof (context_name_fresh _ Hkeys) as Hfresh.
    rewrite Heq in Hrun. cbv zeta in Hrun.
    destruct (spdk (register_call w) (engine w)) as [[v|ex] e'].
    + injection Hrun as <- <-.
      unfold pool_ok. cbn [clusters current_cluster].
      rewrite (dict_set_fresh _ _ _ Hfresh).
      split; [|split; [|split]].
      * rewrite map_app, length_app, Nat.add_1_r, seq_S, map_app.
        cbn. now rewrite Hkeys at 1.
      * intros name m. rewrite <- (dict_set_fresh _ _ _ Hfresh).
        rewrite dict_get_set. destruct (String.eqb name _).
        -- intros [= <-]. lia.
        -- apply Hbound.
      * intros name. rewrite <- (dict_set_fresh _ _ _ Hfresh).
        rewrite handed_out_snoc, counter_set, Hcount.
        destruct (String.eqb name _) eqn:Hn; [|lia].
        apply String.eqb_eq in Hn. subst name. unfold counter.
        rewrite Hfresh. lia.
      * right. exists (List.length (clusters w)).
        rewrite length_app. cbn. split; [lia|reflexivity].
    + injection Hrun as <- <-.
      unfold pool_ok. cbn [clusters current_cluster]. auto.
  - exfalso. destruct Hcur as [Hcur|(k & Hlen & Hcur)]; [congruence|].
    rewrite Hc in Hcur. injection Hcur as ->.
    now apply (last_context_present _ _ Hkeys Hlen).
Qed.

Lemma init_cluster_context_ok (w0 w : World E) :
  _init_cluster_context w0 = (Ok tt, w) ->
  1 <= bdevs_per_cluster /\ clusters w = [] /\ current_cluster w = None.
Proof.
  unfold _init_cluster_context, bind, set_pool.
  destruct (bdevs_per_cluster <? 1) eqn:HB; [discriminate|].
  intros [= <-]. apply Z.ltb_ge in HB. auto.
Qed.

(** A pool that was set up has room for a volume in each context. *)
Lemma pool_run_configured (w : World E) (h : list string) :
  pool_run w h -> 1 <= bdevs_per_cluster.
Proof.
  induction 1 as [w0 w Hinit| | |]; trivial.
  now apply init_cluster_context_ok in Hinit.
Qed.

Lemma pool_run_ok (w : World E) (h : list string) :
  pool_run w h -> pool_ok w h.
Proof.
  intros Hrun. pose proof (pool_run_configured _ _ Hrun) as HB.
  induction Hrun as
    [w0 w Hinit|w h name w' Hrun IH Hstep|w h e w' Hrun IH Hstep
    |w h w' Hrun IH Hcl Hcur].
  - apply init_cluster_context_ok in Hinit.
    destruct Hinit as (_ & Hcl & Hcur).
    unfold pool_ok. rewrite Hcl, Hcur. cbn. repeat split; auto;
      discriminate.
  - apply (pool_ok_step _ _ HB IH _ _ Hstep).
  - apply (pool_ok_step _ _ HB IH _ _ Hstep).
  - unfold pool_ok in *. now rewrite Hcl, Hcur.
Qed.

Lemma context_names_NoDup (n : nat) :
  NoDup (map context_name (seq 0 n)).
Proof.
  apply Injective_map_NoDup; [|apply seq_NoDup].
  intros i j. apply context_name_inj.
Qed.

(** C9. From the pool as it is set up, empty, whatever the sequence of
    acquisitions: every volume counter stays between 1 and [bdevs_per_cluster] and equals the
    number of times its context was handed out, so that no name is handed
    out more than [bdevs_per_cluster] times; the contexts are, in order of
    allocation, [cluster_context_0], [cluster_context_1], ..., all
    different; and one more acquisition keeps every context, hands out
    either the current context or the next name in the sequence, and
    fails only with the error of the engine's registration call. *)
Theorem cluster_pool_is_bounded (w : World E) (h : list string) :
  pool_run w h ->
  (forall name n, dict_get name (clusters w) = Some n ->
     1 <= n <= bdevs_per_cluster /\ handed_out name h = n)
  /\ (forall name, handed_out name h <= bdevs_per_cluster)
  /\ map fst (clusters w)
     = map context_name (seq 0 (List.length (clusters w)))
  /\ NoDup (map fst (clusters w))
  /\ forall o w', _get_cluster w = (o, w') ->
       match o with
       | Ok name =>
           (map fst (clusters w') = map fst (clusters w)
            /\ current_cluster w = Some name)
           \/ (map fst (clusters w') = map fst (clusters w) ++ [name]
               /\ name = context_name (List.length (clusters w)))
       | Raised e =>
           clusters w' = clusters w
           /\ fst (spdk (register_call w) (engine w)) = Raises e
       end.
Proof.
  intros Hrun. pose proof (pool_run_configured _ _ Hrun) as HB.
  pose proof (pool_run_ok _ _ Hrun) as Hok.
  destruct Hok as (Hkeys & Hbound & Hcount & Hcur).
  split; [|split; [|split; [|split]]].
  - intros name n Hget. split; [now apply (Hbound name)|].
    rewrite Hcount. unfold counter. now rewrite Hget.
  - intros name. rewrite Hcount. unfold counter.
    destruct (dict_get name (clusters w)) as [n|] eqn:Hget; [|lia].
    apply (Hbound _ _ Hget).
  - exact Hkeys.
  - rewrite Hkeys. apply context_names_NoDup.
  - intros o w' Hstep.
    destruct (get_cluster_cases w)
      as [(c & n & Hc & Hget & Hlt & Heq)
         |[(Hwhy & Heq)|(c & Hc & Hget)]].
    + rewrite Heq in Hstep. injection Hstep as <- <-. left.
      cbn [clusters]. now rewrite (dict_set_keys _ _ _ _ Hget).
    + pose proof (context_name_fresh _ Hkeys) as Hfresh.
      rewrite Heq in Hstep. cbv zeta in Hstep.
      destruct (spdk (register_call w) (engine w)) as [[v|ex] e'].
      * injection Hstep as <- <-. right. cbn [clusters].
        rewrite (dict_set_fresh _ _ _ Hfresh), map_app. auto.
      * injection Hstep as <- <-. auto.
    + exfalso. destruct Hcur as [Hcur|(k & Hlen & Hcur)]; [congruence|].
      rewrite Hc in Hcur. injection Hcur as ->.
      now apply (last_context_present _ _ Hkeys Hlen).
Qed.


(** *** Looking a namespace up *)

Lemma find_namespace_listed (nqn : string) (nsid : Z) (uuid : string)
    (w : World E) (listing : json) (l : list json) (e1 : E) :
  (nsid <=? 0) && negb (str_truthy uuid) = false ->
  spdk (nvmf_get_subsystems nqn) (engine w) = (Returns listing, e1) ->
  truthy listing = true ->
  iter_json listing = inr l ->
  find_namespace_and_bdev_name nqn nsid uuid false w
  = (Ok (scan_subsystems nqn nsid uuid l (JNull, JNull)),
     mkWorld e1 (omap w) (clusters w) (current_cluster w) (held w)
       (trace w ++ [Call (nvmf_get_subsystems nqn)])).
Proof.
  intros Haddr Hspdk Htruthy Hiter.
  unfold find_namespace_and_bdev_name. rewrite Haddr.
  unfold bind, try_except, call. rewrite Hspdk. cbn.
  rewrite Htruthy. cbn. unfold lift. rewrite Hiter. reflexivity.
Qed.

(** *** Deleting a namespace *)

(** C1. A delete leaves no entry in the persisted record, also when the
    engine's delete failed. [namespace_delete] does not: the failing input
    is a live request for a namespace that the engine lists, where the
    engine's [nvmf_subsystem_remove_ns] returns a falsy result or raises a
    translatable error. The operation then returns the error status at
    once and the persisted record is exactly what it was, the entry of the
    namespace included. *)
Theorem namespace_delete_keeps_record_on_engine_failure
    (request : namespace_delete_req.t) (w : World E)
    (listing ns bdev nsid : json) (l : list json) (e1 : E) :
  let nqn := namespace_delete_req.subsystem_nqn request in
  (namespace_delete_req.nsid request <=? 0)
    && negb (str_truthy (namespace_delete_req.uuid request)) = false ->
  is_discovery_nqn nqn = false ->
  spdk (nvmf_get_subsystems nqn) (engine w) = (Returns listing, e1) ->
  truthy listing = true ->
  iter_json listing = inr l ->
  scan_subsystems nqn (namespace_delete_req.nsid request)
    (namespace_delete_req.uuid request) l (JNull, JNull) = (ns, bdev) ->
  truthy ns = true ->
  getitem ns "nsid" = inr nsid ->
  ((exists v, fst (spdk (nvmf_subsystem_remove_ns nqn nsid) e1) = Returns v
              /\ truthy v = false)
   \/ (exists ex st,
         fst (spdk (nvmf_subsystem_remove_ns nqn nsid) e1) = Raises ex
         /\ failure_status ex = inr st /\ st <> 0)) ->
  exists r w',
    namespace_delete request true w = (Ok r, w')
    /\ status r <> 0
    /\ omap w' = omap w.
Proof.
  intros nqn Haddr Hdisc Hspdk Htruthy Hiter Hscan Hns Hnsid Hfail.
  unfold namespace_delete, execute_grpc_function,
    execute_omap_locking_function, _grpc_function_with_lock, with_lock,
    namespace_delete_safe, with_omap_lock.
  unfold bind at 1. unfold acquire at 1. unfold finally at 1.
  unfold bind at 1. unfold acquire at 1. unfold finally at 1.
  cbn [is_held held existsb lock_eqb orb].
  unfold bind at 1.
  erewrite find_namespace_listed; try eassumption.
  fold nqn. rewrite Hscan. cbn [fst snd]. rewrite Hns. cbn [negb].
  unfold bind at 1. unfold lift at 1. rewrite Hnsid. unfold ret at 1.
  unfold bind at 1. unfold remove_namespace.
  unfold bind at 1. unfold assert_omap_locked.
  cbn [is_held held existsb lock_eqb orb].
  fold nqn. rewrite Hdisc. unfold try_or_return, call.
  cbn [engine].
  destruct (spdk (nvmf_subsystem_remove_ns nqn nsid) e1) as [res e2].
  cbn [fst] in Hfail.
  destruct Hfail as [(v & -> & Hv)|(ex & st & -> & Hst & Hnz)].
  - rewrite Hv. cbn. eexists _, _. split; [reflexivity|].
    split; [discriminate|reflexivity].
  - unfold bind, lift. rewrite Hst. cbn.
    apply Z.eqb_neq in Hnz. rewrite Hnz. cbn.
    eexists _, _. split; [reflexivity|].
    split; [now apply Z.eqb_neq|reflexivity].
Qed.

(** X8. The other deletes do clean the record up. Deleting a subsystem in
    live mode leaves no entry of it in the persisted record, whatever the
    engine answers and however the operation ends, as long as the write
    of the record does not itself raise. *)
Lemma delete_subsystem_safe_cleans_record
    (request : delete_subsystem_req.t) (w : World E) (o : outcome reply)
    (w' : World E) :
  let nqn := delete_subsystem_req.subsystem_nqn request in
  (forall st, omap_raises (GatewayState.remove_subsystem nqn) st = false) ->
  delete_subsystem_safe request true w = (o, w') ->
  dict_get (GatewayState.build_subsystem_key nqn) (omap w') = None.
Proof.
  intros nqn Hok. unfold delete_subsystem_safe, with_omap_lock, with_lock.
  fold nqn.
  assert (Hrm : forall w0 o0 w0',
             remove_subsystem_from_state nqn true w0 = (o0, w0') ->
             dict_get (GatewayState.build_subsystem_key nqn) (omap w0')
             = None).
  { intros w0 o0 w0'. unfold remove_subsystem_from_state, try_except,
      bind, gateway_state. cbn. rewrite Hok. cbn.
    intros [= <- <-]. cbn. apply dict_get_del. }
  assert (Hbody : forall w0 o0 w0',
             try_or_return (call (nvmf_delete_subsystem nqn))
               (fun ex =>
                  _ <- remove_subsystem_from_state nqn true ;;
                  status <- lift (failure_status ex) ;;
                  ret (req_status status))
               (fun r =>
                  if negb (truthy r)
                  then _ <- remove_subsystem_from_state nqn true ;;
                       ret (req_status EINVAL)
                  else remove_subsystem_from_state nqn true) w0
             = (o0, w0') ->
             dict_get (GatewayState.build_subsystem_key nqn) (omap w0')
             = None).
  { intros w0 o0 w0'. unfold try_or_return, call.
    destruct (spdk _ (engine w0)) as [[v|ex] e1].
    - destruct (truthy v); cbn [negb].
      + apply Hrm.
      + unfold bind.
        destruct (remove_subsystem_from_state nqn true _)
          as [[r|e] w1] eqn:Hr; intros [= <- <-]; apply (Hrm _ _ _ Hr).
    - unfold bind.
      destruct (remove_subsystem_from_state nqn true _)
        as [[r|e] w1] eqn:Hr.
      + unfold lift. destruct (failure_status ex); cbn;
          intros [= <- <-]; apply (Hrm _ _ _ Hr).
      + intros [= <- <-]. apply (Hrm _ _ _ Hr). }
  destruct (is_held omap_lock w).
  - apply Hbody.
  - unfold bind, acquire, finally.
    match goal with |- context [try_or_return ?a ?b ?c ?w0] =>
      destruct (try_or_return a b c w0) as [o1 w1] eqn:Hb end.
    intros [= <- <-]. unfold release. cbn. apply (Hbody _ _ _ Hb).
Qed.


(** *** Adding a namespace *)

(** X9. Where the attachment ends in a reply with an error status, the device
    is deleted again, the status is passed on and nothing is written. *)
Lemma namespace_add_safe_rolls_back (request : namespace_add_req.t)
    (context : bool) (w w1 w2 : World E) (rb rn : reply) :
  let rq := with_uuid request in
  let uuid := namespace_add_req.uuid rq in
  let bdev_name := ("bdev_" ++ uuid)%string in
  is_held omap_lock w = true ->
  str_truthy uuid = true ->
  create_bdev bdev_name uuid (namespace_add_req.rbd_pool_name rq)
    (namespace_add_req.rbd_image_name rq)
    (namespace_add_req.block_size rq) w = (Ok rb, w1) ->
  status rb = 0 ->
  create_namespace (namespace_add_req.subsystem_nqn rq) (JStr bdev_name)
    (JNum (namespace_add_req.nsid rq)) (namespace_add_req.anagrpid rq)
    (JStr uuid) context w1 = (Ok rn, w2) ->
  status rn <> 0 ->
  exists w',
    namespace_add_safe request context w
    = (Ok (nsid_status (status rn) 0), w')
    /\ omap w' = omap w
    /\ exists t, trace w'
                 = trace w2 ++ Call (bdev_rbd_delete (JStr bdev_name)) :: t.
Proof.
  intros rq uuid bdev_name Hheld Huuid Hbdev Hrb Hns Hrn.
  unfold namespace_add_safe, with_omap_lock. rewrite Hheld.
  fold rq. fold uuid. unfold find_unique_bdev_name.
  cbn [truthy]. unfold str_truthy in Huuid. rewrite Huuid.
  cbn [negb lift fstr]. fold bdev_name.
  unfold bind at 1. unfold ret at 1.
  unfold bind at 1. rewrite Hbdev. rewrite Hrb. cbn [Z.eqb negb].
  unfold bind at 1. rewrite Hns.
  apply Z.eqb_neq in Hrn. rewrite Hrn. cbn [negb].
  assert (Ho1 : omap w1 = omap w)
    by apply (keeps_create_bdev omap _ _ _ _ _ passive_omap _ _ _ Hbdev).
  assert (Ho2 : omap w2 = omap w1)
    by apply (keeps_create_namespace omap _ _ _ _ _ _ passive_omap _ _ _
                Hns).
  unfold bind at 1. unfold try_except, bind at 1.
  unfold delete_bdev, try_or_return, call.
  destruct (spdk (bdev_rbd_delete (JStr bdev_name)) (engine w2))
    as [[v|ex] e3].
  - destruct (truthy v); cbn.
    + eexists. split; [reflexivity|]. cbn. split; [congruence|].
      eexists. reflexivity.
    + eexists. split; [reflexivity|]. cbn. split; [congruence|].
      eexists. rewrite <- app_assoc. reflexivity.
  - unfold bind, lift. destruct (failure_status ex) as [e|st]; cbn.
    + eexists. split; [reflexivity|]. cbn. split; [congruence|].
      eexists. rewrite <- app_assoc. reflexivity.
    + destruct (st =? 0); cbn.
      * eexists. split; [reflexivity|]. cbn. split; [congruence|].
        eexists. reflexivity.
      * eexists. split; [reflexivity|]. cbn. split; [congruence|].
        eexists. rewrite <- app_assoc. reflexivity.
Qed.

(** C7. When the attachment fails after the device was created, the
    device is to be deleted and the attachment's status returned. The
    failing input is an attachment that the engine refuses with a
    JSON-RPC error whose text carries no structured error: the translator
    ends in [UnboundLocalError] inside [create_namespace], which
    [namespace_add_safe] does not catch. The operation ends with that
    exception right after the [nvmf_subsystem_add_ns] call: no reply, and
    no call to delete the device. (The defect is the one of C2.) *)
Theorem namespace_add_safe_attach_error_escapes
    (request : namespace_add_req.t) (context : bool) (w w1 : World E)
    (rb : reply) (message : string) (e2 : E) :
  let rq := with_uuid request in
  let nqn := namespace_add_req.subsystem_nqn rq in
  let uuid := namespace_add_req.uuid rq in
  let bdev_name := ("bdev_" ++ uuid)%string in
  let add_ns :=
    nvmf_subsystem_add_ns nqn (JStr bdev_name)
      (JNum (namespace_add_req.nsid rq)) (namespace_add_req.anagrpid rq)
      (JStr uuid) in
  is_held omap_lock w = true ->
  str_truthy uuid = true ->
  create_bdev bdev_name uuid (namespace_add_req.rbd_pool_name rq)
    (namespace_add_req.rbd_image_name rq)
    (namespace_add_req.block_size rq) w = (Ok rb, w1) ->
  status rb = 0 ->
  namespace_add_req.anagrpid rq <= MAX_ANA_GROUPS ->
  is_discovery_nqn nqn = false ->
  spdk add_ns (engine w1) = (Raises (JSONRPCException message), e2) ->
  parse_json_exeption_try message = None ->
  namespace_add_safe request context w
  = (Raised (UnboundLocalError "resp"),
     mkWorld e2 (omap w) (clusters w1) (current_cluster w1) (held w1)
       (trace w1 ++ [Call add_ns])).
Proof.
  intros rq nqn uuid bdev_name add_ns Hheld Huuid Hbdev Hrb Hgrp Hdisc
    Hspdk Hparse.
  assert (Ho1 : omap w1 = omap w)
    by apply (keeps_create_bdev omap _ _ _ _ _ passive_omap _ _ _ Hbdev).
  assert (Hh1 : is_held omap_lock w1 = true).
  { unfold is_held.
    rewrite (keeps_create_bdev held _ _ _ _ _ passive_held _ _ _ Hbdev).
    exact Hheld. }
  unfold namespace_add_safe, with_omap_lock. rewrite Hheld.
  fold rq. fold uuid. unfold find_unique_bdev_name.
  cbn [truthy]. unfold str_truthy in Huuid. rewrite Huuid.
  cbn [negb lift fstr]. fold bdev_name.
  unfold bind at 1. unfold ret at 1.
  unfold bind at 1. rewrite Hbdev. rewrite Hrb. cbn [Z.eqb negb].
  unfold bind at 1. unfold create_namespace.
  fold nqn. rewrite Hdisc.
  apply Z.ltb_ge in Hgrp. rewrite Hgrp.
  pose proof (failure_status_unstructured message Hparse) as Hfs.
  destruct context.
  - unfold bind at 1. unfold assert_omap_locked. rewrite Hh1.
    unfold try_or_return, call. fold add_ns. rewrite Hspdk.
    unfold bind, lift. rewrite Hfs. cbn. now rewrite Ho1.
  - unfold bind at 1. unfold skip, ret at 1.
    unfold try_or_return, call. fold add_ns. rewrite Hspdk.
    unfold bind, lift. rewrite Hfs. cbn. now rewrite Ho1.
Qed.

(** *** Creating a subsystem that exists *)

Lemma subsystem_already_exists_in_spec (nqn : string)
    (state : dict string) :
  nqn_in_record nqn state -> subsystem_already_exists_in nqn state = true.
Proof.
  intros (key & val & subsys & Hin & Hpre & Hload & Hget).
  induction state as [|[k v] rest IH]; [destruct Hin|].
  cbn [subsystem_already_exists_in].
  destruct Hin as [[= -> ->]|Hin].
  - rewrite Hpre, Hload, Hget. cbn. now rewrite String.eqb_refl.
  - destruct (prefix GatewayState.SUBSYSTEM_PREFIX k); cbn [negb];
      [|now apply IH].
    destruct (json_loads v) as [s|]; [|now apply IH].
    destruct (getitem s "subsystem_nqn") as [e|q]; [now apply IH|].
    destruct (json_eqb q (JStr nqn)); [reflexivity|now apply IH].
Qed.



Lemma with_serial_number_nqn (request : create_subsystem_req.t) :
  create_subsystem_req.subsystem_nqn (with_serial_number request)
  = create_subsystem_req.subsystem_nqn request.
Proof.
  unfold with_serial_number.
  now destruct (negb (str_truthy (create_subsystem_req.serial_number request))).
Qed.


(** *** Changing the load-balancing group *)

Lemma emits_find_namespace (ok : event -> bool) nqn nsid uuid :
  ok (Call (nvmf_get_subsystems nqn)) = true ->
  emits ok (find_namespace_and_bdev_name nqn nsid uuid false).
Proof.
  intros Hok. unfold find_namespace_and_bdev_name. cbv beta zeta. emits.
Qed.

Lemma emits_remove_namespace (ok : event -> bool) nqn nsid context :
  ok (Call (nvmf_subsystem_remove_ns nqn nsid)) = true ->
  emits ok (remove_namespace nqn nsid context).
Proof. intros Hok. unfold remove_namespace. emits. Qed.

Lemma emits_remove_namespace_from_state (ok : event -> bool) nqn nsid
    context :
  emits ok (remove_namespace_from_state nqn nsid context).
Proof. unfold remove_namespace_from_state. emits. Qed.

(** A group id above the maximum stops [create_namespace] before it calls
    the engine. *)
Lemma create_namespace_oversized nqn bdev nsid anagrpid uuid context
    (w : World E) (o : outcome reply) (w' : World E) :
  MAX_ANA_GROUPS < anagrpid ->
  create_namespace nqn bdev nsid anagrpid uuid context w = (o, w') ->
  w' = w /\ (o = Ok (nsid_status EINVAL 0) \/ o = Raised AssertionError).
Proof.
  intros Hbig. apply Z.ltb_lt in Hbig. unfold create_namespace.
  rewrite Hbig. unfold bind, skip, assert_omap_locked, ret.
  destruct context; [destruct (is_held omap_lock w)|];
    intros [= <- <-]; auto.
Qed.

(** C3, as amended. A request for a group id above 4 never succeeds and
    never reaches the engine's attach call: whatever the operation
    replies has an error status. The check is the one of
    [create_namespace], made once both locks are held; a group id below
    1 is not checked. *)
Theorem oversized_group_is_refused
    (request : namespace_change_load_balancing_group_req.t)
    (context : bool) (w : World E) (o : outcome reply) (w' : World E) :
  MAX_ANA_GROUPS
    < namespace_change_load_balancing_group_req.anagrpid request ->
  namespace_change_load_balancing_group request context w = (o, w') ->
  (forall r, o = Ok r -> status r <> 0)
  /\ exists t,
       trace w'
       = trace w ++ Acquire omap_lock :: Acquire rpc_lock :: t
       /\ forallb (fun e => negb (attaches e)) t = true.
Proof.
  intros Hbig Hrun.
  set (ok := fun e => negb (attaches e)).
  assert (Hsafe : refuses ok
            (namespace_change_load_balancing_group_safe request context)).
  { unfold namespace_change_load_balancing_group_safe.
    apply refuses_with_omap_lock; try reflexivity.
    apply refuses_bind; [now apply emits_find_namespace|]. intros find_ret.
    destruct (negb (truthy (fst find_ret)));
      [apply refuses_ret; discriminate|].
    apply refuses_bind; [emits|]. intros uuid.
    apply refuses_bind; [emits|]. intros nsid.
    match goal with |- refuses _ (if ?b then _ else _) => destruct b end;
      [apply refuses_ret; discriminate|].
    match goal with |- refuses _ (if ?b then _ else _) => destruct b end;
      [apply refuses_ret; discriminate|].
    apply refuses_bind; [emits|]. intros bdev_name.
    apply refuses_bind; [emits|]. intros state.
    match goal with |- refuses _ (match ?x with _ => _ end) =>
      destruct x as [ns_entry|] end;
      [|apply refuses_ret; discriminate].
    destruct (negb (truthy ns_entry));
      [apply refuses_ret; discriminate|].
    apply refuses_bind; [now apply emits_remove_namespace|]. intros ret_del.
    destruct (negb (status ret_del =? 0)) eqn:Hdel.
    { apply refuses_ret. cbn. apply negb_true_iff in Hdel.
      now apply Z.eqb_neq. }
    apply refuses_bind.
    { destruct (truthy nsid); [|emits].
      apply emits_bind; [apply emits_remove_namespace_from_state|emits]. }
    intros _.
    apply (refuses_bind_post ok (fun r => r = nsid_status EINVAL 0)).
    - apply emits_same. intros w0 o0 w0' H0.
      now destruct (create_namespace_oversized _ _ _ _ _ _ _ _ _ Hbig H0)
        as [-> _].
    - intros w0 a w0' H0.
      destruct (create_namespace_oversized _ _ _ _ _ _ _ _ _ Hbig H0)
        as [_ [[= ->]|[=]]]. reflexivity.
    - intros a ->. cbn. apply refuses_ret. discriminate. }
  revert Hrun.
  unfold namespace_change_load_balancing_group, execute_grpc_function,
    execute_omap_locking_function, _grpc_function_with_lock, with_lock.
  unfold bind at 1. unfold acquire at 1. unfold finally at 1.
  unfold bind at 1. unfold acquire at 1. unfold finally at 1.
  match goal with |- context [namespace_change_load_balancing_group_safe
                                request context ?w0] =>
    destruct (namespace_change_load_balancing_group_safe request context w0)
      as [o1 w1] eqn:Hb end.
  intros [= <- <-].
  destruct (Hsafe _ _ _ Hb) as (Hst & t & Ht & Hok).
  split; [exact Hst|].
  exists (t ++ [Release rpc_lock; Release omap_lock]).
  unfold release. cbn [trace] in *. rewrite Ht. split.
  - rewrite <- !app_assoc. reflexivity.
  - rewrite forallb_app, Hok. reflexivity.
Qed.

(** *** Deleting a subsystem that has namespaces *)

Lemma untouched_logged (w : World E) (l1 : list event) :
  (forall c, ~ In (Call c) l1) ->
  untouched w
    (mkWorld (engine w) (omap w) (clusters w) (current_cluster w) (held w)
       (trace w ++ l1)).
Proof. apply untouched_locked. Qed.

(** Without [force], a subsystem of which the scan of the persisted
    record finds a namespace is busy, and nothing is done. *)
Lemma delete_subsystem_busy (request : delete_subsystem_req.t)
    (w : World E) :
  let nqn := delete_subsystem_req.subsystem_nqn request in
  is_discovery_nqn nqn = false ->
  delete_subsystem_req.force request = false ->
  get_subsystem_namespaces_in nqn (omap w) <> [] ->
  exists w',
    delete_subsystem request true w = (Ok (req_status EBUSY), w')
    /\ untouched w w'.
Proof.
  intros nqn Hdisc Hforce Hns. unfold delete_subsystem. fold nqn.
  rewrite Hdisc, Hforce.
  cbn [negb andb].
  cbv beta iota zeta delta
    [bind subsystem_has_listeners get_subsystem_namespaces get_state ret
       skip log emit].
  destruct (get_subsystem_namespaces_in nqn (omap w)) as [|n0 rest] eqn:Hl;
    [congruence|].
  destruct (subsystem_has_listeners_in nqn (omap w)); cbn [omap];
    rewrite ?Hl; cbn.
  - eexists. split; [reflexivity|]. apply untouched_logged. no_calls.
  - eexists. split; [reflexivity|]. unfold untouched. auto.
Qed.

(** C5. With [force], the namespaces are to be deleted one by one, a
    failure being logged and passed over, and the subsystem deleted after
    them. The failing input is a forced delete where the engine refuses
    to detach the first namespace with a JSON-RPC error whose text
    carries no structured error: the translator's [UnboundLocalError]
    leaves [namespace_delete] and the loop of [delete_subsystem]. The
    operation ends with that exception; the engine was asked to list the
    subsystem and to detach that namespace and nothing more, so neither
    the other namespaces nor the subsystem are deleted. (The defect is
    the one of C2.) *)
Theorem forced_delete_stops_at_unstructured_error
    (request : delete_subsystem_req.t) (w : World E)
    (n0 : json) (rest : list json) (n : Z)
    (listing ns bdev nsid : json) (l : list json) (e1 e2 : E)
    (message : string) :
  let nqn := delete_subsystem_req.subsystem_nqn request in
  is_discovery_nqn nqn = false ->
  delete_subsystem_req.force request = true ->
  get_subsystem_namespaces_in nqn (omap w) = n0 :: rest ->
  as_uint32 n0 = inr n -> 0 < n ->
  spdk (nvmf_get_subsystems nqn) (engine w) = (Returns listing, e1) ->
  truthy listing = true ->
  iter_json listing = inr l ->
  scan_subsystems nqn n "" l (JNull, JNull) = (ns, bdev) ->
  truthy ns = true ->
  getitem ns "nsid" = inr nsid ->
  spdk (nvmf_subsystem_remove_ns nqn nsid) e1
  = (Raises (JSONRPCException message), e2) ->
  parse_json_exeption_try message = None ->
  exists w',
    delete_subsystem request true w = (Raised (UnboundLocalError "resp"), w')
    /\ engine w' = e2
    /\ omap w' = omap w
    /\ engine_calls (trace w')
       = engine_calls (trace w)
         ++ [nvmf_get_subsystems nqn; nvmf_subsystem_remove_ns nqn nsid].
Proof.
  intros nqn Hdisc Hforce Hlist Hn0 Hpos Hspdk Htruthy Hiter Hscan Hns
    Hnsid Hrm Hparse.
  pose proof (failure_status_unstructured message Hparse) as Hfs.
  assert (Haddr : (n <=? 0) && negb (str_truthy "") = false).
  { apply Z.leb_gt in Hpos. now rewrite Hpos. }
  unfold delete_subsystem. fold nqn. rewrite Hdisc, Hforce.
  cbn [negb andb].
  assert (Hloop : forall w0,
             engine w0 = engine w -> omap w0 = omap w ->
             exists w',
               delete_subsystem_namespaces nqn (n0 :: rest) true w0
               = (Raised (UnboundLocalError "resp"), w')
               /\ engine w' = e2 /\ omap w' = omap w
               /\ engine_calls (trace w')
                  = engine_calls (trace w0)
                    ++ [nvmf_get_subsystems nqn;
                        nvmf_subsystem_remove_ns nqn nsid]).
  { intros w0 He Ho. cbn [delete_subsystem_namespaces].
    unfold bind at 1. unfold log, emit at 1.
    unfold bind at 1. unfold lift at 1.
    assert (Hm0 : message_uint32 n0 = inr n)
      by (destruct n0; try exact Hn0; discriminate).
    rewrite Hm0. unfold ret at 1.
    unfold bind at 1.
    unfold namespace_delete, execute_grpc_function,
      execute_omap_locking_function, _grpc_function_with_lock, with_lock,
      namespace_delete_safe, with_omap_lock.
    unfold bind at 1. unfold acquire at 1. unfold finally at 1.
    unfold bind at 1. unfold acquire at 1. unfold finally at 1.
    cbn [is_held held existsb lock_eqb orb namespace_delete_req.nsid
           namespace_delete_req.uuid namespace_delete_req.subsystem_nqn].
    unfold bind at 1.
    erewrite find_namespace_listed;
      [|exact Haddr|cbn [engine]; rewrite He; exact Hspdk|exact Htruthy
       |exact Hiter].
    rewrite Hscan. cbn [fst snd]. rewrite Hns. cbn [negb].
    unfold bind at 1. unfold lift at 1. rewrite Hnsid. unfold ret at 1.
    unfold bind at 1. unfold remove_namespace.
    unfold bind at 1. unfold assert_omap_locked.
    cbn [is_held held existsb lock_eqb orb].
    rewrite Hdisc. unfold try_or_return, call. cbn [engine].
    rewrite Hrm. unfold bind, lift. rewrite Hfs. unfold raise, release.
    cbn. eexists. split; [reflexivity|]. cbn [engine omap trace].
    split; [reflexivity|]. split; [exact Ho|].
    rewrite !engine_calls_app. cbn [engine_calls flat_map app].
    rewrite !app_nil_r, <- app_assoc. reflexivity. }
  unfold bind at 1. unfold bind at 1. unfold bind at 1.
  unfold subsystem_has_listeners at 1. unfold bind at 1.
  unfold get_state at 1. unfold ret at 1.
  destruct (subsystem_has_listeners_in nqn (omap w)).
  - unfold bind at 1. unfold log, emit at 1.
    unfold get_subsystem_namespaces, bind at 1. unfold get_state, ret.
    cbn [omap]. rewrite Hlist. cbn [List.length Z.of_nat].
    match goal with |- context [delete_subsystem_namespaces _ _ _ ?w0] =>
      destruct (Hloop w0 eq_refl eq_refl) as (w' & Hrun & He & Ho & Ht) end.
    unfold bind. rewrite Hrun. eexists. split; [reflexivity|].
    split; [exact He|]. split; [exact Ho|].
    rewrite Ht. cbn [trace]. rewrite engine_calls_app. cbn.
    now rewrite app_nil_r.
  - unfold bind at 1. unfold skip, ret at 1.
    unfold get_subsystem_namespaces, bind at 1. unfold get_state, ret.
    rewrite Hlist.
    destruct (Hloop w eq_refl eq_refl) as (w' & Hrun & He & Ho & Ht).
    unfold bind. rewrite Hrun. eexists. split; [reflexivity|].
    auto.
Qed.

(** *** Creating a listener on a subsystem with HA *)

(** The loop over the groups looks at no result: as long as the engine
    raises nothing, it runs to its end. *)
Lemma set_ana_states_ignores_results nqn trtype traddr trsvcid adrfam
    (todo : nat) :
  (forall g e, exists r e',
      spdk (nvmf_subsystem_listener_set_ana_state nqn "inaccessible" trtype
              traddr trsvcid adrfam g) e = (Returns r, e')) ->
  forall x (w : World E), exists w',
    set_ana_states nqn trtype traddr trsvcid adrfam x todo w = (Ok None, w')
    /\ omap w' = omap w.
Proof.
  intros Hengine. induction todo as [|todo IH]; intros x w.
  - exists w. split; reflexivity.
  - cbn [set_ana_states]. unfold try_or_return, call.
    destruct (Hengine (x + 1) (engine w)) as (r & e' & Hr). rewrite Hr.
    match goal with |- context [set_ana_states _ _ _ _ _ _ _ ?w0] =>
      destruct (IH (x + 1) w0) as (w' & Hrun & Ho) end.
    exists w'. split; [exact Hrun|]. rewrite Ho. reflexivity.
Qed.


(** C6. When a per-group call fails, the operation is to return an error
    status and to leave the listener out of the persisted record. A call
    fails by raising or by returning a falsy result; the loop handles
    the first only. The failing input is a live request for a listener
    of this gateway on a subsystem with HA, where the engine accepts the
    listener and answers the calls that set the group state without
    raising, for instance with [false] every time: the operation replies
    with status 0 and the listener is in the persisted record. *)
Theorem create_listener_passes_over_failed_groups
    (request request' : create_listener_req.t) (w : World E)
    (trtype adrfam auto_ha_state : string) (v : json) (e1 : E) :
  let nqn := create_listener_req.nqn request in
  let gw := create_listener_req.gateway_name request in
  let traddr := create_listener_req.traddr request in
  let port := str_of_Z (create_listener_req.trsvcid request) in
  get_key_from_value TransportType (create_listener_req.trtype request)
  = Some trtype ->
  get_key_from_value AddressFamily (create_listener_req.adrfam request)
  = Some adrfam ->
  get_key_from_value AutoHAState (create_listener_req.auto_ha_state request)
  = Some auto_ha_state ->
  is_discovery_nqn nqn = false ->
  gw = gateway_name ->
  is_held omap_lock w = true ->
  dict_get (GatewayState.build_listener_key nqn gw trtype traddr port)
    (omap w) = None ->
  spdk (nvmf_subsystem_add_listener nqn trtype traddr port adrfam)
    (engine w) = (Returns v, e1) ->
  truthy v = true ->
  listener_enable_ha auto_ha_state request (omap w) = (true, request') ->
  (forall g e, exists r e',
      spdk (nvmf_subsystem_listener_set_ana_state nqn "inaccessible" trtype
              traddr port adrfam g) e = (Returns r, e')) ->
  (forall o st, omap_raises o st = false) ->
  exists w',
    create_listener_safe request true w = (Ok (req_status 0), w')
    /\ dict_get
         (GatewayState.build_listener_key nqn
            (create_listener_req.gateway_name request') trtype traddr port)
         (omap w')
       = Some (MessageToJson (MsgListener request')).
Proof.
  intros nqn gw traddr port Htr Haf Hha Hdisc Hgw Hheld Hnew Hadd Hv Hen
    Hengine Hstore.
  unfold create_listener_safe. rewrite Htr, Haf, Hha.
  fold nqn. rewrite Hdisc. unfold with_omap_lock. rewrite Hheld.
  fold gw. rewrite Hgw, String.eqb_refl. rewrite <- Hgw.
  unfold try_or_return, matching_listener_exists. cbn [negb].
  fold traddr. fold port.
  unfold bind at 1. unfold bind at 1. unfold get_state at 1. cbn [omap].
  rewrite Hnew. unfold ret at 1.
  unfold bind at 1. unfold call. rewrite Hadd. unfold ret at 1.
  rewrite Hv. cbn [negb].
  unfold bind at 1. unfold get_state at 1. cbn [omap]. rewrite Hen.
  unfold bind at 1.
  match goal with
  | |- context [set_ana_states ?a ?b ?c ?d ?e ?x ?n ?w0] =>
      destruct (set_ana_states_ignores_results a b c d e n Hengine x w0)
        as (w1 & Hrun & Ho)
  end.
  rewrite Hrun. unfold try_except, bind, gateway_state.
  rewrite Hstore. cbn. eexists. split; [reflexivity|].
  cbn. apply dict_get_set_same.
Qed.

(** *** Merging QoS limits *)

Lemma merge_qos_field_spec (requested : option Z) (ns_qos_entry : json)
    (f : string) (m : option Z) :
  merge_qos_field requested ns_qos_entry f = inr m ->
  m = merged_limit requested ns_qos_entry f.
Proof.
  unfold merge_qos_field, merged_limit, stored_limit.
  destruct requested as [v|]; [now intros [= <-]|].
  destruct (dict_method_get ns_qos_entry f) as [e|x]; [discriminate|].
  destruct x; try (destruct (py_int _) as [e|z]; [discriminate|];
    destruct ((z <? 0) || (18446744073709551615 <? z));
    [discriminate|now intros [= <-]]).
  now intros [= <-].
Qed.

Lemma merge_qos_spec (request merged : namespace_set_qos_req.t)
    (ns_qos_entry : json) :
  merge_qos request ns_qos_entry = inr merged ->
  namespace_set_qos_req.subsystem_nqn merged
  = namespace_set_qos_req.subsystem_nqn request
  /\ namespace_set_qos_req.nsid merged = namespace_set_qos_req.nsid request
  /\ namespace_set_qos_req.uuid merged = namespace_set_qos_req.uuid request
  /\ namespace_set_qos_req.rw_ios_per_second merged
     = merged_limit (namespace_set_qos_req.rw_ios_per_second request)
         ns_qos_entry "rw_ios_per_second"
  /\ namespace_set_qos_req.rw_mbytes_per_second merged
     = merged_limit (namespace_set_qos_req.rw_mbytes_per_second request)
         ns_qos_entry "rw_mbytes_per_second"
  /\ namespace_set_qos_req.r_mbytes_per_second merged
     = merged_limit (namespace_set_qos_req.r_mbytes_per_second request)
         ns_qos_entry "r_mbytes_per_second"
  /\ namespace_set_qos_req.w_mbytes_per_second merged
     = merged_limit (namespace_set_qos_req.w_mbytes_per_second request)
         ns_qos_entry "w_mbytes_per_second".
Proof.
  unfold merge_qos.
  destruct (merge_qos_field _ _ "rw_ios_per_second") as [e|a] eqn:Ha;
    [discriminate|].
  destruct (merge_qos_field _ _ "rw_mbytes_per_second") as [e|b] eqn:Hb;
    [discriminate|].
  destruct (merge_qos_field _ _ "r_mbytes_per_second") as [e|c] eqn:Hc;
    [discriminate|].
  destruct (merge_qos_field _ _ "w_mbytes_per_second") as [e|d] eqn:Hd;
    [discriminate|].
  intros [= <-]. cbn.
  apply merge_qos_field_spec in Ha, Hb, Hc, Hd. auto 10.
Qed.

(** C8. A live [namespace_set_qos_limits] that goes through (the
    namespace is found with its device, the merge raises nothing, the
    engine accepts the limits, the record takes the write) persists the
    request in which every field it left unset has the value of the
    previously stored QoS record, and every field it set has the
    requested value; with no stored record (or an empty one) the request
    is persisted as it came. *)
Theorem qos_limits_are_merged (request : namespace_set_qos_req.t)
    (w w1 : World E) (ns bdev nsid v : json) (e2 : E) :
  let nqn := namespace_set_qos_req.subsystem_nqn request in
  let old := stored_qos nqn nsid (omap w) in
  let key := GatewayState.build_namespace_qos_key nqn (fstr nsid) in
  find_namespace_and_bdev_name nqn (namespace_set_qos_req.nsid request)
    (namespace_set_qos_req.uuid request) false w = (Ok (ns, bdev), w1) ->
  truthy ns = true -> truthy bdev = true ->
  getitem ns "nsid" = inr nsid ->
  (truthy old = true -> exists m, merge_qos request old = inr m) ->
  spdk (bdev_set_qos_limit bdev
          (namespace_set_qos_req.rw_ios_per_second request)
          (namespace_set_qos_req.rw_mbytes_per_second request)
          (namespace_set_qos_req.r_mbytes_per_second request)
          (namespace_set_qos_req.w_mbytes_per_second request))
    (engine w1) = (Returns v, e2) ->
  truthy v = true ->
  (forall o st, omap_raises o st = false) ->
  exists merged w',
    namespace_set_qos_limits_safe request true w = (Ok (req_status 0), w')
    /\ dict_get key (omap w') = Some (MessageToJson (MsgQos merged))
    /\ (truthy old = false -> merged = request)
    /\ (truthy old = true ->
        namespace_set_qos_req.subsystem_nqn merged = nqn
        /\ namespace_set_qos_req.nsid merged
           = namespace_set_qos_req.nsid request
        /\ namespace_set_qos_req.uuid merged
           = namespace_set_qos_req.uuid request
        /\ namespace_set_qos_req.rw_ios_per_second merged
           = merged_limit (namespace_set_qos_req.rw_ios_per_second request)
               old "rw_ios_per_second"
        /\ namespace_set_qos_req.rw_mbytes_per_second merged
           = merged_limit (namespace_set_qos_req.rw_mbytes_per_second request)
               old "rw_mbytes_per_second"
        /\ namespace_set_qos_req.r_mbytes_per_second merged
           = merged_limit (namespace_set_qos_req.r_mbytes_per_second request)
               old "r_mbytes_per_second"
        /\ namespace_set_qos_req.w_mbytes_per_second merged
           = merged_limit (namespace_set_qos_req.w_mbytes_per_second request)
               old "w_mbytes_per_second").
Proof.
  intros nqn old key Hfind Hns Hbdev Hnsid Hmerge Hspdk Hv Hstore.
  assert (Ho1 : omap w1 = omap w)
    by apply (keeps_find_namespace_omap _ _ _ _ _ _ _ Hfind).
  assert (Hrun : forall merged,
             (if truthy old then lift (merge_qos request old)
              else ret request) w1 = (Ok merged, w1) ->
             exists w',
               namespace_set_qos_limits_safe request true w
               = (Ok (req_status 0), w')
               /\ dict_get key (omap w')
                  = Some (MessageToJson (MsgQos merged))).
  { intros merged Hm. unfold namespace_set_qos_limits_safe. fold nqn.
    unfold bind at 1. rewrite Hfind. cbn [fst snd]. rewrite Hns, Hbdev.
    cbn [negb]. unfold bind at 1. unfold lift at 1. rewrite Hnsid.
    unfold ret at 1. unfold bind at 1. unfold bind at 1.
    unfold get_state at 1. unfold ret at 1. rewrite Ho1. fold old.
    unfold bind at 1. rewrite Hm.
    match goal with |- context [with_omap_lock true ?body] =>
      set (B := body) end.
    assert (Hbody : forall w0, engine w0 = engine w1 ->
               exists w',
                 B w0 = (Ok (req_status 0), w')
                 /\ dict_get key (omap w')
                    = Some (MessageToJson (MsgQos merged))).
    { intros w0 He. subst B. unfold try_or_return, call.
      rewrite He, Hspdk, Hv.
      cbn [negb]. unfold try_except, bind, gateway_state.
      rewrite Hstore. cbn. eexists. split; [reflexivity|].
      cbn. apply dict_get_set_same. }
    unfold with_omap_lock. destruct (is_held omap_lock w1).
    - apply Hbody. reflexivity.
    - unfold with_lock, bind, acquire, finally.
      match goal with |- context [B ?w0] =>
        destruct (Hbody w0 eq_refl) as (w' & Hr & Hget) end.
      rewrite Hr. eexists. split; [reflexivity|].
      unfold release. cbn [omap]. exact Hget. }
  destruct (truthy old) eqn:Hold.
  - destruct (Hmerge eq_refl) as (m & Hm).
    destruct (Hrun m) as (w' & Hr & Hget).
    { unfold lift. now rewrite Hm. }
    exists m, w'. split; [exact Hr|]. split; [exact Hget|].
    split; [discriminate|]. intros _. now apply merge_qos_spec.
  - destruct (Hrun request eq_refl) as (w' & Hr & Hget).
    exists request, w'. split; [exact Hr|]. split; [exact Hget|].
    split; [reflexivity|discriminate].
Qed.

(** *** Deletes that clean the persisted record *)

Lemma is_held_call (c : rpc) (w : World E) (o : outcome json)
    (w' : World E) :
  call c w = (o, w') -> is_held omap_lock w' = is_held omap_lock w.
Proof.
  intros H. unfold is_held.
  now rewrite (keeps_call held passive_held c _ _ _ H).
Qed.

Lemma remove_host_from_state_cleans (nqn host : string) (w : World E)
    (o : outcome reply) (w' : World E) :
  is_held omap_lock w = true ->
  (forall st, omap_raises (GatewayState.remove_host nqn host) st = false) ->
  remove_host_from_state nqn host true w = (o, w') ->
  o = Ok (req_status 0)
  /\ dict_get (GatewayState.build_host_key nqn host) (omap w') = None.
Proof.
  intros Hh Hok. unfold remove_host_from_state, bind, assert_omap_locked,
    try_except, gateway_state. cbn [negb]. rewrite Hh, Hok. cbn.
  intros [= <- <-]. split; [reflexivity|]. cbn. apply dict_get_del.
Qed.

(** X1. In live mode, removing a host (or the any-host toggle) leaves no
    entry for it in the persisted record, whatever the engine answers
    (success, a falsy result or a raised error) and however the operation
    ends, as long as the write of the record does not itself raise. *)
Theorem remove_host_cleans_record (request : remove_host_req.t)
    (w : World E) (o : outcome reply) (w' : World E) :
  let nqn := remove_host_req.subsystem_nqn request in
  let host := remove_host_req.host_nqn request in
  is_discovery_nqn nqn = false ->
  is_discovery_nqn host = false ->
  (forall st, omap_raises (GatewayState.remove_host nqn host) st = false) ->
  remove_host request true w = (o, w') ->
  dict_get (GatewayState.build_host_key nqn host) (omap w') = None.
Proof.
  intros nqn host Hd1 Hd2 Hok.
  unfold remove_host, execute_grpc_function, execute_omap_locking_function,
    _grpc_function_with_lock, with_lock, remove_host_safe.
  fold nqn. fold host. rewrite Hd1, Hd2.
  unfold bind at 1. unfold acquire at 1. unfold finally at 1.
  unfold bind at 1. unfold acquire at 1. unfold finally at 1.
  unfold with_omap_lock. cbn [is_held held existsb lock_eqb orb].
  match goal with |- context [try_or_return ?a ?b ?c _] =>
    assert (Hbody : forall w0 o1 w1,
               is_held omap_lock w0 = true ->
               try_or_return a b c w0 = (o1, w1) ->
               dict_get (GatewayState.build_host_key nqn host) (omap w1)
               = None)
  end.
  { intros w0 o1 w1 Hh0. unfold try_or_return.
    destruct ((if String.eqb host "*"
               then call (nvmf_subsystem_allow_any_host nqn true)
               else call (nvmf_subsystem_remove_host nqn host)) w0)
      as [[r|ex] w2] eqn:Hcall;
      assert (Hh : is_held omap_lock w2 = true)
        by (destruct (String.eqb host "*");
            now rewrite (is_held_call _ _ _ _ Hcall)).
    - destruct (truthy r); cbn [negb].
      + intros Hr.
        now destruct (remove_host_from_state_cleans _ _ _ _ _ Hh Hok Hr).
      + unfold bind.
        destruct (remove_host_from_state nqn host true w2)
          as [o3 w3] eqn:Hr.
        destruct (remove_host_from_state_cleans _ _ _ _ _ Hh Hok Hr)
          as [-> Hget].
        now intros [= <- <-].
    - unfold bind.
      destruct (remove_host_from_state nqn host true w2) as [o3 w3] eqn:Hr.
      destruct (remove_host_from_state_cleans _ _ _ _ _ Hh Hok Hr)
        as [-> Hget].
      unfold lift. destruct (failure_status ex); cbn; now intros [= <- <-]. }
  match goal with |- context [try_or_return ?a ?b ?c ?w0] =>
    destruct (try_or_return a b c w0) as [o1 w1] eqn:Hb end.
  intros [= <- <-]. unfold release. cbn [omap].
  refine (Hbody _ _ _ _ Hb). reflexivity.
Qed.

Lemma remove_listener_from_state_cleans (nqn gw trtype traddr : string)
    (port : Z) (w : World E) (o : outcome reply) (w' : World E) :
  is_held omap_lock w = true ->
  (forall st,
      omap_raises
        (GatewayState.remove_listener nqn gw trtype traddr (str_of_Z port))
        st = false) ->
  remove_listener_from_state nqn gw trtype traddr port true w = (o, w') ->
  o = Ok (req_status 0)
  /\ dict_get
       (GatewayState.build_listener_key nqn gw trtype traddr
          (str_of_Z port)) (omap w') = None.
Proof.
  intros Hh Hok. unfold remove_listener_from_state, bind,
    assert_omap_locked, try_except, gateway_state. cbn [negb].
  rewrite Hh, Hok. cbn.
  intros [= <- <-]. split; [reflexivity|]. cbn. apply dict_get_del.
Qed.

(** X2. In live mode, deleting a listener of this gateway leaves no entry
    for it in the persisted record, whatever the engine answers and
    however the operation ends, as long as the write of the record does
    not itself raise. *)
Theorem delete_listener_cleans_record (request : delete_listener_req.t)
    (trtype adrfam : string) (w : World E) (o : outcome reply)
    (w' : World E) :
  let nqn := delete_listener_req.nqn request in
  let gw := delete_listener_req.gateway_name request in
  let traddr := delete_listener_req.traddr request in
  let port := delete_listener_req.trsvcid request in
  get_key_from_value TransportType (delete_listener_req.trtype request)
  = Some trtype ->
  get_key_from_value AddressFamily (delete_listener_req.adrfam request)
  = Some adrfam ->
  is_discovery_nqn nqn = false ->
  gw = gateway_name ->
  (forall st,
      omap_raises
        (GatewayState.remove_listener nqn gw trtype traddr (str_of_Z port))
        st = false) ->
  delete_listener request true w = (o, w') ->
  dict_get
    (GatewayState.build_listener_key nqn gw trtype traddr (str_of_Z port))
    (omap w') = None.
Proof.
  intros nqn gw traddr port Htr Haf Hdisc Hgw Hok.
  unfold delete_listener, execute_grpc_function,
    execute_omap_locking_function, _grpc_function_with_lock, with_lock,
    delete_listener_safe.
  rewrite Htr, Haf. fold nqn. rewrite Hdisc. fold gw. fold traddr. fold port.
  unfold bind at 1. unfold acquire at 1. unfold finally at 1.
  unfold bind at 1. unfold acquire at 1. unfold finally at 1.
  unfold with_omap_lock. cbn [is_held held existsb lock_eqb orb].
  rewrite Hgw at 1. rewrite String.eqb_refl.
  match goal with |- context [try_or_return ?a ?b ?c _] =>
    assert (Hbody : forall w0 o1 w1,
               is_held omap_lock w0 = true ->
               try_or_return a b c w0 = (o1, w1) ->
               dict_get
                 (GatewayState.build_listener_key nqn gw trtype traddr
                    (str_of_Z port)) (omap w1) = None)
  end.
  { intros w0 o1 w1 Hh0. unfold try_or_return. unfold bind at 1.
    destruct (call (nvmf_subsystem_remove_listener nqn trtype traddr
                      (str_of_Z port) adrfam) w0) as [[r|ex] w2] eqn:Hcall;
      assert (Hh : is_held omap_lock w2 = true)
        by now rewrite (is_held_call _ _ _ _ Hcall).
    - unfold ret at 1. destruct (truthy r); cbn [negb].
      + intros Hr.
        now destruct (remove_listener_from_state_cleans _ _ _ _ _ _ _ _ Hh
                        Hok Hr).
      + unfold bind.
        destruct (remove_listener_from_state nqn gw trtype traddr port true
                    w2) as [o3 w3] eqn:Hr.
        destruct (remove_listener_from_state_cleans _ _ _ _ _ _ _ _ Hh Hok
                    Hr) as [-> Hget].
        now intros [= <- <-].
    - unfold bind.
      destruct (remove_listener_from_state nqn gw trtype traddr port true w2)
        as [o3 w3] eqn:Hr.
      destruct (remove_listener_from_state_cleans _ _ _ _ _ _ _ _ Hh Hok Hr)
        as [-> Hget].
      unfold lift. destruct (failure_status ex); cbn; now intros [= <- <-]. }
  match goal with |- context [try_or_return ?a ?b ?c ?w0] =>
    destruct (try_or_return a b c w0) as [o1 w1] eqn:Hb end.
  intros [= <- <-]. unfold release. cbn [omap].
  refine (Hbody _ _ _ _ Hb). reflexivity.
Qed.

(** *** Replay mode *)

Lemma keeps_execute_grpc_function_omap {R} (func : R -> bool -> M E reply)
    (request : R) (context : bool) :
  keeps omap (func request context) ->
  keeps omap (execute_grpc_function func request context).
Proof.
  intros H. unfold execute_grpc_function, execute_omap_locking_function,
    _grpc_function_with_lock. keeps.
Qed.

Ltac keeps_with_hyps :=
  repeat first
    [ keeps_step
    | apply keeps_get_cluster; passive_side
    | match goal with
      | H : forall _, _ |- keeps _ _ => apply H
      end ].

Lemma replay_remove_namespace_from_state nqn nsid :
  keeps (E:=E) omap (remove_namespace_from_state nqn nsid false).
Proof. unfold remove_namespace_from_state. cbn [negb]. keeps. Qed.

Lemma replay_namespace_delete_safe (request : namespace_delete_req.t) :
  keeps omap (namespace_delete_safe request false).
Proof.
  unfold namespace_delete_safe.
  pose proof keeps_find_namespace_omap.
  pose proof (fun n i => keeps_remove_namespace omap n i false passive_omap).
  pose proof replay_remove_namespace_from_state.
  pose proof (fun n => keeps_delete_bdev omap n passive_omap).
  keeps_with_hyps.
Qed.

Lemma replay_delete_subsystem_namespaces nqn (ns_list : list json) :
  keeps omap (delete_subsystem_namespaces nqn ns_list false).
Proof.
  induction ns_list as [|n rest IH]; cbn [delete_subsystem_namespaces].
  - keeps.
  - pose proof (fun r => keeps_execute_grpc_function_omap
                           namespace_delete_safe r false
                           (replay_namespace_delete_safe r)) as Hdel.
    unfold namespace_delete. keeps_with_hyps.
Qed.

Lemma keeps_set_ana_states {X} (f : World E -> X) nqn trtype traddr trsvcid
    adrfam (todo : nat) :
  passive f ->
  forall x, keeps f (set_ana_states nqn trtype traddr trsvcid adrfam x todo).
Proof.
  intros Hf. induction todo as [|todo IH]; intros x;
    cbn [set_ana_states]; keeps_with_hyps.
Qed.

(** X3. In replay mode (no context) no mutating operation writes the
    persisted record: whatever the engine answers and however the
    operation ends, the record is what it was. *)
Theorem replay_never_writes_record :
  (forall r, keeps omap (create_subsystem r false))
  /\ (forall r, keeps omap (delete_subsystem r false))
  /\ (forall r, keeps omap (namespace_add r false))
  /\ (forall r, keeps omap (namespace_delete r false))
  /\ (forall r, keeps omap (namespace_change_load_balancing_group r false))
  /\ (forall r, keeps omap (namespace_set_qos_limits r false))
  /\ (forall r, keeps omap (remove_host r false))
  /\ (forall r, keeps omap (create_listener r false))
  /\ (forall r, keeps omap (delete_listener r false)).
Proof.
  pose proof keeps_find_namespace_omap as Hfind.
  pose proof (fun n i => keeps_remove_namespace omap n i false passive_omap)
    as Hrm.
  pose proof replay_remove_namespace_from_state as Hrms.
  pose proof (fun n => keeps_delete_bdev omap n passive_omap) as Hdb.
  pose proof (fun a b c d e =>
                keeps_create_bdev omap a b c d e passive_omap) as Hcb.
  pose proof (fun a b c d e =>
                keeps_create_namespace omap a b c d e false passive_omap)
    as Hcn.
  pose proof replay_delete_subsystem_namespaces as Hloop.
  pose proof (fun a b c d e n x =>
                keeps_set_ana_states omap a b c d e n passive_omap x)
    as Hana.
  repeat split; intros r;
    try apply keeps_execute_grpc_function_omap.
  - unfold create_subsystem_safe, subsystem_already_exists,
      serial_number_already_used. cbn [negb]. keeps_with_hyps.
  - unfold delete_subsystem. cbv iota.
    assert (Hsafe : keeps omap
              (execute_grpc_function delete_subsystem_safe r false)).
    { apply keeps_execute_grpc_function_omap.
      unfold delete_subsystem_safe, remove_subsystem_from_state.
      cbn [negb]. keeps_with_hyps. }
    keeps_with_hyps.
  - unfold namespace_add_safe. keeps_with_hyps.
  - apply replay_namespace_delete_safe.
  - unfold namespace_change_load_balancing_group_safe. keeps_with_hyps.
  - unfold namespace_set_qos_limits_safe. keeps_with_hyps.
  - unfold remove_host_safe, remove_host_from_state. cbn [negb].
    keeps_with_hyps.
  - unfold create_listener_safe, matching_listener_exists. cbn [negb].
    keeps_with_hyps.
  - unfold delete_listener_safe, remove_listener_from_state. cbn [negb].
    keeps_with_hyps.
Qed.

(** *** What a lookup finds *)

Lemma json_eqb_str_l (s : string) (v : json) :
  json_eqb (JStr s) v = true -> v = JStr s.
Proof.
  destruct v; cbn; try discriminate.
  intros H. apply String.eqb_eq in H. now subst.
Qed.

Lemma json_eqb_str_r (v : json) (s : string) :
  json_eqb v (JStr s) = true -> v = JStr s.
Proof.
  destruct v; cbn; try discriminate.
  intros H. apply String.eqb_eq in H. now subst.
Qed.

Lemma str_truthy_false (s : string) : str_truthy s = false -> s = "".
Proof.
  unfold str_truthy. destruct (String.eqb s "") eqn:H; [|discriminate].
  intros _. now apply String.eqb_eq.
Qed.

Lemma scan_namespaces_sound (nsid : Z) (uuid : string) (R : json -> Prop)
    (l : list json) :
  (forall n, In n l -> R n) ->
  forall acc,
    (fst acc = JNull \/ names_namespace nsid uuid (fst acc) /\ R (fst acc)) ->
    let found := fst (fst (scan_namespaces nsid uuid l acc)) in
    found = JNull \/ names_namespace nsid uuid found /\ R found.
Proof.
  induction l as [|n rest IH]; intros HR acc Hacc; [exact Hacc|].
  cbn [scan_namespaces].
  assert (HR' : forall n, In n rest -> R n) by (intros; apply HR; now right).
  destruct (0 <? nsid) eqn:Hpos.
  - destruct (getitem n "nsid") as [e|i] eqn:Hi; [exact Hacc|].
    destruct (json_eqb (JNum nsid) i) eqn:Heq; cbn [negb];
      [|now apply IH].
    destruct (str_truthy uuid) eqn:Hu.
    + destruct (getitem n "uuid") as [e|u] eqn:Hgu; [exact Hacc|].
      destruct (json_eqb (JStr uuid) u) eqn:Hequ; cbn [negb];
        [|now apply IH].
      apply json_eqb_str_l in Hequ. subst u.
      assert (Hn : names_namespace nsid uuid n /\ R n).
      { split; [|apply HR; now left].
        split; intros _; [now exists i|assumption]. }
      destruct (getitem n "bdev_name") as [e|b]; [now right|].
      apply IH; [assumption|now right].
    + apply str_truthy_false in Hu.
      assert (Hn : names_namespace nsid uuid n /\ R n).
      { split; [|apply HR; now left].
        split; [intros _; now exists i|intros Hne; now destruct Hne]. }
      destruct (getitem n "bdev_name") as [e|b]; [now right|].
      apply IH; [assumption|now right].
  - apply Z.ltb_ge in Hpos.
    destruct (str_truthy uuid) eqn:Hu.
    + destruct (getitem n "uuid") as [e|u] eqn:Hgu; [exact Hacc|].
      destruct (json_eqb (JStr uuid) u) eqn:Hequ; cbn [negb];
        [|now apply IH].
      apply json_eqb_str_l in Hequ. subst u.
      assert (Hn : names_namespace nsid uuid n /\ R n).
      { split; [|apply HR; now left].
        split; [intros Hlt; lia|intros _; assumption]. }
      destruct (getitem n "bdev_name") as [e|b]; [now right|].
      apply IH; [assumption|now right].
    + apply str_truthy_false in Hu.
      assert (Hn : names_namespace nsid uuid n /\ R n).
      { split; [|apply HR; now left].
        split; [intros Hlt; lia|intros Hne; now destruct Hne]. }
      destruct (getitem n "bdev_name") as [e|b]; [now right|].
      apply IH; [assumption|now right].
Qed.

Lemma scan_subsystems_sound (nqn : string) (nsid : Z) (uuid : string)
    (listing : list json) (subsystems : list json) :
  incl subsystems listing ->
  forall acc,
    (fst acc = JNull
     \/ names_namespace nsid uuid (fst acc)
        /\ namespace_of nqn listing (fst acc)) ->
    let found := fst (scan_subsystems nqn nsid uuid subsystems acc) in
    found = JNull
    \/ names_namespace nsid uuid found /\ namespace_of nqn listing found.
Proof.
  induction subsystems as [|s rest IH]; intros Hincl acc Hacc;
    [exact Hacc|].
  assert (Hrest : incl rest listing)
    by (intros x Hx; apply Hincl; now right).
  cbn [scan_subsystems].
  destruct (getitem s "nqn") as [e|q] eqn:Hq; [now apply IH|].
  destruct (json_eqb q (JStr nqn)) eqn:Heq; cbn [negb]; [|now apply IH].
  apply json_eqb_str_r in Heq. subst q.
  destruct (getitem s "namespaces") as [e|nss] eqn:Hnss.
  - cbn [iter_json scan_namespaces]. exact Hacc.
  - destruct (iter_json nss) as [e|l] eqn:Hl; [now apply IH|].
    pose proof (scan_namespaces_sound nsid uuid (namespace_of nqn listing) l)
      as Hscan.
    assert (Hall : forall n, In n l -> namespace_of nqn listing n).
    { intros n Hn. exists s, nss, l. repeat split; auto.
      apply Hincl. now left. }
    specialize (Hscan Hall acc Hacc). cbv zeta in Hscan.
    destruct (scan_namespaces nsid uuid l acc) as [acc' [|]];
      cbn [fst] in Hscan; [exact Hscan|].
    now apply IH.
Qed.

(** X5. The namespace a lookup returns is the one asked for: it is listed
    by the engine among the namespaces of a subsystem with the requested
    NQN, it has the requested NSID where the request gives a positive one,
    and the requested UUID where the request gives one. *)
Theorem found_namespace_is_the_one_asked_for (nqn : string) (nsid : Z)
    (uuid : string) (needs_lock : bool) (w : World E) (ns bdev : json)
    (w' : World E) :
  find_namespace_and_bdev_name nqn nsid uuid needs_lock w
  = (Ok (ns, bdev), w') ->
  ns <> JNull ->
  exists listing l e',
    spdk (nvmf_get_subsystems nqn) (engine w) = (Returns listing, e')
    /\ iter_json listing = inr l
    /\ namespace_of nqn l ns
    /\ names_namespace nsid uuid ns.
Proof.
  intros Hrun Hns. unfold find_namespace_and_bdev_name in Hrun.
  destruct ((nsid <=? 0) && negb (str_truthy uuid));
    [injection Hrun as <- _ _; now destruct Hns|].
  assert (Hbody :
    forall (w0 w1 : World E) (r : option json),
      try_except (r <- call (nvmf_get_subsystems nqn) ;; ret (Some r))
        (fun _ => ret None) w0 = (Ok r, w1) ->
      forall listing, r = Some listing ->
      exists e', spdk (nvmf_get_subsystems nqn) (engine w0)
                 = (Returns listing, e')).
  { intros w0 w1 r. unfold try_except, bind, call, ret.
    destruct (spdk (nvmf_get_subsystems nqn) (engine w0)) as [[v|ex] e1];
      intros [= <- _] listing [= <-]. now exists e1. }
  unfold bind in Hrun.
  match type of Hrun with
  | context [match ?m w with _ => _ end] =>
      destruct (m w) as [[r|e] w1] eqn:Hcall; [|discriminate]
  end.
  assert (Hlisted : forall listing, r = Some listing ->
            exists e', spdk (nvmf_get_subsystems nqn) (engine w)
                       = (Returns listing, e')).
  { destruct needs_lock.
    - unfold with_lock, bind, acquire, finally in Hcall.
      match type of Hcall with
      | context [try_except ?a ?b ?w0] =>
          destruct (try_except a b w0) as [o2 w2] eqn:Hb
      end.
      injection Hcall as -> _. apply (Hbody _ _ _ Hb).
    - apply (Hbody _ _ _ Hcall). }
  destruct r as [listing|];
    [|injection Hrun as <- _ _; now destruct Hns].
  destruct (Hlisted listing eq_refl) as (e' & Hspdk).
  destruct (truthy listing); cbn [negb] in Hrun;
    [|injection Hrun as <- _ _; now destruct Hns].
  unfold lift in Hrun. destruct (iter_json listing) as [e|l] eqn:Hl;
    [discriminate|].
  injection Hrun as Hscan _.
  exists listing, l, e'. split; [exact Hspdk|]. split; [exact Hl|].
  pose proof (scan_subsystems_sound nqn nsid uuid l l (incl_refl l)
                (JNull, JNull)) as Hs.
  specialize (Hs (or_introl eq_refl)). cbv zeta in Hs.
  rewrite Hscan in Hs. cbn [fst] in Hs.
  destruct Hs as [Hs|[Hn Ho]]; [now destruct Hns|now split].
Qed.

(** *** A listing that fails *)

Lemma find_namespace_listing_raises (nqn : string) (nsid : Z)
    (uuid : string) (w : World E) (ex : exn) (e1 : E) :
  (nsid <=? 0) && negb (str_truthy uuid) = false ->
  spdk (nvmf_get_subsystems nqn) (engine w) = (Raises ex, e1) ->
  find_namespace_and_bdev_name nqn nsid uuid false w
  = (Ok (JNull, JNull),
     mkWorld e1 (omap w) (clusters w) (current_cluster w) (held w)
       (trace w ++ [Call (nvmf_get_subsystems nqn)])).
Proof.
  intros Haddr Hspdk. unfold find_namespace_and_bdev_name.
  rewrite Haddr. unfold bind, try_except, call. rewrite Hspdk.
  reflexivity.
Qed.

Lemma find_namespace_listing_raises_locked (nqn : string) (nsid : Z)
    (uuid : string) (w : World E) (ex : exn) (e1 : E) :
  (nsid <=? 0) && negb (str_truthy uuid) = false ->
  spdk (nvmf_get_subsystems nqn) (engine w) = (Raises ex, e1) ->
  find_namespace_and_bdev_name nqn nsid uuid true w
  = (Ok (JNull, JNull),
     mkWorld e1 (omap w) (clusters w) (current_cluster w) (held w)
       (trace w ++ [Acquire rpc_lock; Call (nvmf_get_subsystems nqn);
                    Release rpc_lock])).
Proof.
  intros Haddr Hspdk. unfold find_namespace_and_bdev_name.
  rewrite Haddr. unfold with_lock, finally, acquire, bind, try_except, call.
  cbn [engine]. rewrite Hspdk. unfold ret, release. cbn.
  rewrite <- !app_assoc. reflexivity.
Qed.

Lemma engine_calls_none (l : list event) :
  (forall c, ~ In (Call c) l) -> engine_calls l = [].
Proof.
  induction l as [|e l IH]; intros Hl; [reflexivity|].
  destruct e; cbn in *;
    try (apply IH; intros c' Hc; apply (Hl c'); now right).
  exfalso. apply (Hl c). now left.
Qed.

(** The calls of a trace that grew by one call among lock operations and
    log records. *)
Lemma engine_calls_one (c : rpc) (t l1 l2 : list event) :
  (forall c, ~ In (Call c) l1) -> (forall c, ~ In (Call c) l2) ->
  engine_calls (t ++ l1 ++ Call c :: l2) = engine_calls t ++ [c].
Proof.
  intros H1 H2.
  rewrite !engine_calls_app. rewrite (engine_calls_none l1 H1).
  change (Call c :: l2) with ([Call c] ++ l2).
  rewrite engine_calls_app, (engine_calls_none l2 H2). cbn. reflexivity.
Qed.

(** X6. When the engine's listing of the subsystem raises an error, of
    whatever kind, each of the five operations that look a namespace up
    answers that there is no such namespace (ENODEV): the error is not
    translated, the listing is the only call made, and the persisted
    record is as it was. *)
Theorem failed_listing_is_no_such_namespace (nqn : string) (nsid : Z)
    (uuid : string) (context : bool) (w : World E) (ex : exn) (e1 : E) :
  (nsid <=? 0) && negb (str_truthy uuid) = false ->
  spdk (nvmf_get_subsystems nqn) (engine w) = (Raises ex, e1) ->
  let listed_only (w' : World E) :=
    engine w' = e1 /\ omap w' = omap w
    /\ engine_calls (trace w')
       = engine_calls (trace w) ++ [nvmf_get_subsystems nqn] in
  (exists w',
     namespace_delete (namespace_delete_req.mk nqn nsid uuid) context w
     = (Ok (req_status ENODEV), w') /\ listed_only w')
  /\ (forall new_size, exists w',
     namespace_resize (namespace_resize_req.mk nqn nsid uuid new_size)
       context w
     = (Ok (req_status ENODEV), w') /\ listed_only w')
  /\ (exists w',
     namespace_get_io_stats (namespace_get_io_stats_req.mk nqn nsid uuid)
       context w
     = (Ok (req_status ENODEV), w') /\ listed_only w')
  /\ (forall a b c d, exists w',
     namespace_set_qos_limits
       (namespace_set_qos_req.mk nqn nsid uuid a b c d) context w
     = (Ok (req_status ENODEV), w') /\ listed_only w')
  /\ (forall anagrpid, exists w',
     namespace_change_load_balancing_group
       (namespace_change_load_balancing_group_req.mk nqn nsid uuid anagrpid)
       context w
     = (Ok (req_status ENODEV), w') /\ listed_only w').
Proof.
  intros Haddr Hspdk listed_only. subst listed_only. cbv beta.
  repeat split; intros.
  - eexists. split.
    + unfold namespace_delete, execute_grpc_function,
        execute_omap_locking_function, _grpc_function_with_lock,
        with_lock, namespace_delete_safe, with_omap_lock, bind, finally,
        acquire. cbn.
      erewrite find_namespace_listing_raises; [|assumption|exact Hspdk].
      cbn. reflexivity.
    + unfold release. cbn [engine omap trace]. rewrite <- !app_assoc.
      split; [reflexivity|split; [reflexivity|]].
      apply (engine_calls_one (nvmf_get_subsystems nqn) (trace w)
               [Acquire omap_lock; Acquire rpc_lock]
               [Release rpc_lock; Release omap_lock]); no_calls.
  - eexists. split.
    + unfold namespace_resize, bind. cbn.
      erewrite find_namespace_listing_raises_locked;
        [|assumption|exact Hspdk].
      cbn. reflexivity.
    + cbn [engine omap trace].
      split; [reflexivity|split; [reflexivity|]].
      apply (engine_calls_one (nvmf_get_subsystems nqn) (trace w)
               [Acquire rpc_lock] [Release rpc_lock]); no_calls.
  - eexists. split.
    + unfold namespace_get_io_stats, with_lock, bind, finally, acquire.
      cbn.
      erewrite find_namespace_listing_raises; [|assumption|exact Hspdk].
      cbn. reflexivity.
    + unfold release. cbn [engine omap trace]. rewrite <- !app_assoc.
      split; [reflexivity|split; [reflexivity|]].
      apply (engine_calls_one (nvmf_get_subsystems nqn) (trace w)
               [Acquire rpc_lock] [Release rpc_lock]); no_calls.
  - eexists. split.
    + unfold namespace_set_qos_limits, execute_grpc_function,
        execute_omap_locking_function, _grpc_function_with_lock,
        with_lock, namespace_set_qos_limits_safe, bind, finally, acquire.
      cbn.
      erewrite find_namespace_listing_raises; [|assumption|exact Hspdk].
      cbn. reflexivity.
    + unfold release. cbn [engine omap trace]. rewrite <- !app_assoc.
      split; [reflexivity|split; [reflexivity|]].
      apply (engine_calls_one (nvmf_get_subsystems nqn) (trace w)
               [Acquire omap_lock; Acquire rpc_lock]
               [Release rpc_lock; Release omap_lock]); no_calls.
  - eexists. split.
    + unfold namespace_change_load_balancing_group, execute_grpc_function,
        execute_omap_locking_function, _grpc_function_with_lock,
        with_lock, namespace_change_load_balancing_group_safe,
        with_omap_lock, bind, finally, acquire.
      cbn.
      erewrite find_namespace_listing_raises; [|assumption|exact Hspdk].
      cbn. reflexivity.
    + unfold release. cbn [engine omap trace]. rewrite <- !app_assoc.
      split; [reflexivity|split; [reflexivity|]].
      apply (engine_calls_one (nvmf_get_subsystems nqn) (trace w)
               [Acquire omap_lock; Acquire rpc_lock]
               [Release rpc_lock; Release omap_lock]); no_calls.
Qed.

(** *** Creating a subsystem *)

Lemma subsystem_already_exists_in_sound (nqn : string)
    (state : dict string) :
  subsystem_already_exists_in nqn state = true -> nqn_in_record nqn state.
Proof.
  induction state as [|[k v] rest IH]; cbn [subsystem_already_exists_in];
    [discriminate|].
  assert (Hrest : subsystem_already_exists_in nqn rest = true ->
                  nqn_in_record nqn ((k, v) :: rest)).
  { intros H. destruct (IH H) as (key & val & subsys & Hin & Hrest).
    exists key, val, subsys. split; [now right|exact Hrest]. }
  destruct (prefix GatewayState.SUBSYSTEM_PREFIX k) eqn:Hp; cbn [negb];
    [|exact Hrest].
  destruct (json_loads v) as [s|] eqn:Hl; [|exact Hrest].
  destruct (getitem s "subsystem_nqn") as [e|q] eqn:Hq; [exact Hrest|].
  destruct (json_eqb q (JStr nqn)) eqn:Heq; [|exact Hrest].
  intros _. apply json_eqb_str_r in Heq. subst q.
  exists k, v, s. repeat split; auto. now left.
Qed.

(** X12. The duplicate check of [create_subsystem] is exact: it reports
    that a subsystem exists if and only if the persisted record has an
    entry under a subsystem key whose text [json.loads] reads and whose
    [subsystem_nqn] is the NQN asked for. Entries of other kinds, entries
    that cannot be read and entries without that field are passed
    over. *)
Theorem subsystem_exists_iff_recorded (nqn : string) (state : dict string) :
  subsystem_already_exists_in nqn state = true <-> nqn_in_record nqn state.
Proof.
  split.
  - apply subsystem_already_exists_in_sound.
  - apply subsystem_already_exists_in_spec.
Qed.

Lemma prefix_app (a b : string) : prefix a (a ++ b) = true.
Proof.
  induction a as [|c a IH]; cbn.
  - now destruct b.
  - destruct (Ascii.ascii_dec c c) as [_|Hc]; [exact IH|now destruct Hc].
Qed.

Lemma In_dict_set {V} (d : dict V) (k : string) (v : V) :
  In (k, v) (dict_set k v d).
Proof.
  induction d as [|[a b] d IH]; cbn; [now left|].
  destruct (String.eqb k a) eqn:Hka.
  - apply String.eqb_eq in Hka. subst a. now left.
  - now right.
Qed.

(** The run of a live [create_subsystem] that the engine accepts. *)
Lemma create_subsystem_accepted (request : create_subsystem_req.t)
    (w : World E) (r : json) (e1 : E) :
  let rq := with_serial_number request in
  let nqn := create_subsystem_req.subsystem_nqn request in
  let created :=
    nvmf_create_subsystem nqn (create_subsystem_req.serial_number rq)
      (create_subsystem_req.max_namespaces rq) min_controller_id
      max_controller_id (create_subsystem_req.ana_reporting rq) in
  passes_validation request ->
  subsystem_already_exists_in nqn (omap w) = false ->
  truthy (serial_number_already_used_in
            (create_subsystem_req.serial_number rq) (omap w)) = false ->
  spdk created (engine w) = (Returns r, e1) ->
  truthy r = true ->
  omap_raises
    (GatewayState.add_subsystem nqn (MessageToJson (MsgSubsystem rq)))
    (omap w) = false ->
  create_subsystem request true w
  = (Ok (req_status 0),
     mkWorld e1
       (dict_set (GatewayState.build_subsystem_key nqn)
          (MessageToJson (MsgSubsystem rq)) (omap w))
       (clusters w) (current_cluster w) (held w)
       (trace w ++ [Acquire omap_lock; Acquire rpc_lock; Call created;
                    Release rpc_lock; Release omap_lock])).
Proof.
  intros rq nqn created (Hdisc & Hha & Hcntl) Hex Hser Hspdk Hr Hok.
  unfold create_subsystem, execute_grpc_function,
    execute_omap_locking_function, _grpc_function_with_lock, with_lock,
    create_subsystem_safe.
  rewrite Hdisc, Hha. apply Z.ltb_ge in Hcntl. rewrite Hcntl.
  rewrite with_serial_number_nqn. fold rq. fold nqn.
  unfold bind at 1. unfold acquire at 1. unfold finally at 1.
  unfold bind at 1. unfold acquire at 1. unfold finally at 1.
  unfold with_omap_lock. cbn [is_held held existsb lock_eqb orb].
  unfold try_or_return, subsystem_already_exists,
    serial_number_already_used. cbn [negb].
  unfold bind at 1. unfold bind at 1. unfold get_state at 1.
  cbn [omap]. unfold ret at 1. rewrite Hex.
  unfold bind at 1. unfold bind at 1. unfold get_state at 1.
  cbn [omap]. unfold ret at 1. rewrite Hser. cbn [orb].
  unfold bind at 1. unfold call. cbn [engine]. fold created.
  rewrite Hspdk. unfold ret at 1. rewrite Hr. cbn [negb].
  unfold try_except, bind, gateway_state. cbn [omap]. rewrite Hok.
  unfold ret, release. cbn. rewrite <- !app_assoc. reflexivity.
Qed.

(** X13. A live [create_subsystem] that passes the checks and that the
    engine accepts replies with status 0 and persists the request (with
    the serial number it was given or that was drawn for it) under the
    key of the subsystem; the creation is the only engine call. *)
Theorem created_subsystem_is_recorded (request : create_subsystem_req.t)
    (w : World E) (r : json) (e1 : E) :
  let rq := with_serial_number request in
  let nqn := create_subsystem_req.subsystem_nqn request in
  let created :=
    nvmf_create_subsystem nqn (create_subsystem_req.serial_number rq)
      (create_subsystem_req.max_namespaces rq) min_controller_id
      max_controller_id (create_subsystem_req.ana_reporting rq) in
  passes_validation request ->
  subsystem_already_exists_in nqn (omap w) = false ->
  truthy (serial_number_already_used_in
            (create_subsystem_req.serial_number rq) (omap w)) = false ->
  spdk created (engine w) = (Returns r, e1) ->
  truthy r = true ->
  omap_raises
    (GatewayState.add_subsystem nqn (MessageToJson (MsgSubsystem rq)))
    (omap w) = false ->
  exists w',
    create_subsystem request true w = (Ok (req_status 0), w')
    /\ dict_get (GatewayState.build_subsystem_key nqn) (omap w')
       = Some (MessageToJson (MsgSubsystem rq))
    /\ (forall k, k <> GatewayState.build_subsystem_key nqn ->
          dict_get k (omap w') = dict_get k (omap w))
    /\ engine w' = e1
    /\ engine_calls (trace w') = engine_calls (trace w) ++ [created].
Proof.
  intros rq nqn created Hval Hex Hser Hspdk Hr Hok.
  eexists. split.
  - apply (create_subsystem_accepted request w r e1); assumption.
  - cbn [omap engine trace]. split; [apply dict_get_set_same|].
    split; [|split; [reflexivity|]].
    + intros k Hk. rewrite dict_get_set.
      destruct (String.eqb k _) eqn:Heq; [|reflexivity].
      apply String.eqb_eq in Heq. now destruct Hk.
    + apply (engine_calls_one created (trace w)
               [Acquire omap_lock; Acquire rpc_lock]
               [Release rpc_lock; Release omap_lock]); no_calls.
Qed.

Lemma create_subsystem_existing (request : create_subsystem_req.t)
    (w : World E) :
  passes_validation request ->
  subsystem_already_exists_in
    (create_subsystem_req.subsystem_nqn request) (omap w) = true ->
  exists w',
    create_subsystem request true w = (Ok (req_status EEXIST), w')
    /\ untouched w w'.
Proof.
  intros (Hdisc & Hha & Hcntl) Hex.
  unfold create_subsystem, execute_grpc_function,
    execute_omap_locking_function, _grpc_function_with_lock, with_lock,
    create_subsystem_safe.
  rewrite Hdisc, Hha. apply Z.ltb_ge in Hcntl. rewrite Hcntl.
  rewrite with_serial_number_nqn.
  unfold bind at 1. unfold acquire at 1. unfold finally at 1.
  unfold bind at 1. unfold acquire at 1. unfold finally at 1.
  unfold with_omap_lock. cbn [is_held held existsb lock_eqb orb].
  unfold try_or_return, subsystem_already_exists,
    serial_number_already_used. cbn [negb].
  unfold bind at 1. unfold bind at 1. unfold get_state at 1.
  cbn [omap]. unfold ret at 1. rewrite Hex.
  unfold bind at 1. unfold ret at 1. cbn [orb].
  unfold ret. unfold release. cbn.
  eexists. split; [reflexivity|].
  rewrite <- !app_assoc. apply untouched_locked. no_calls.
Qed.

(** X14. A subsystem that was created cannot be created again: after a
    live [create_subsystem] that the engine accepted, where [json.loads]
    reads the persisted text back as an object whose [subsystem_nqn] is
    the NQN, every request to create a subsystem with that NQN that
    passes the checks is answered EEXIST, with no engine call and
    nothing changed. *)
Theorem created_subsystem_is_not_created_again
    (request again : create_subsystem_req.t) (w : World E) (r : json)
    (e1 : E) (subsys : json) :
  let rq := with_serial_number request in
  let nqn := create_subsystem_req.subsystem_nqn request in
  let created :=
    nvmf_create_subsystem nqn (create_subsystem_req.serial_number rq)
      (create_subsystem_req.max_namespaces rq) min_controller_id
      max_controller_id (create_subsystem_req.ana_reporting rq) in
  passes_validation request ->
  subsystem_already_exists_in nqn (omap w) = false ->
  truthy (serial_number_already_used_in
            (create_subsystem_req.serial_number rq) (omap w)) = false ->
  spdk created (engine w) = (Returns r, e1) ->
  truthy r = true ->
  omap_raises
    (GatewayState.add_subsystem nqn (MessageToJson (MsgSubsystem rq)))
    (omap w) = false ->
  json_loads (MessageToJson (MsgSubsystem rq)) = Some subsys ->
  getitem subsys "subsystem_nqn" = inr (JStr nqn) ->
  passes_validation again ->
  create_subsystem_req.subsystem_nqn again = nqn ->
  exists w1 w2,
    create_subsystem request true w = (Ok (req_status 0), w1)
    /\ create_subsystem again true w1 = (Ok (req_status EEXIST), w2)
    /\ untouched w1 w2.
Proof.
  intros rq nqn created Hval Hex Hser Hspdk Hr Hok Hload Hget
    (Hdisc & Hha & Hcntl) Hsame.
  pose proof (create_subsystem_accepted request w r e1 Hval Hex Hser Hspdk
                Hr Hok) as Hrun.
  match type of Hrun with _ = (_, ?w1') => set (w1 := w1') in * end.
  destruct (create_subsystem_existing again w1) as (w2 & Hagain & Hu).
  - split; [exact Hdisc|split; [exact Hha|exact Hcntl]].
  - rewrite Hsame. apply subsystem_already_exists_in_spec.
    exists (GatewayState.build_subsystem_key nqn),
      (MessageToJson (MsgSubsystem rq)), subsys.
    split; [cbn [omap]; apply In_dict_set|].
    split; [apply prefix_app|]. split; assumption.
  - exists w1, w2. split; [exact Hrun|]. split; assumption.
Qed.

(** *** Deleting and adding a namespace *)

Lemma dict_get_del_any {V} (d : dict V) (k k' : string) :
  dict_get k (dict_del k' d)
  = if String.eqb k k' then None else dict_get k d.
Proof.
  induction d as [|[a b] d IH]; cbn.
  - now destruct (String.eqb k k').
  - destruct (String.eqb k' a) eqn:Hka; cbn.
    + rewrite IH. destruct (String.eqb k k') eqn:Hkk; [reflexivity|].
      apply String.eqb_eq in Hka. subst a. now rewrite Hkk.
    + rewrite IH. destruct (String.eqb k k') eqn:Hkk; [|reflexivity].
      apply String.eqb_eq in Hkk. subst k'. now rewrite Hka.
Qed.

Lemma remove_namespace_accepted (nqn : string) (nsid v : json)
    (w : World E) (e2 : E) :
  is_held omap_lock w = true ->
  is_discovery_nqn nqn = false ->
  spdk (nvmf_subsystem_remove_ns nqn nsid) (engine w) = (Returns v, e2) ->
  truthy v = true ->
  remove_namespace nqn nsid true w
  = (Ok (req_status 0),
     mkWorld e2 (omap w) (clusters w) (current_cluster w) (held w)
       (trace w ++ [Call (nvmf_subsystem_remove_ns nqn nsid)])).
Proof.
  intros Hheld Hdisc Hspdk Hv. unfold remove_namespace, bind,
    assert_omap_locked. rewrite Hheld, Hdisc.
  unfold try_or_return, call. rewrite Hspdk, Hv. reflexivity.
Qed.

Lemma remove_namespace_from_state_done (nqn : string) (nsid : json)
    (w : World E) :
  is_held omap_lock w = true ->
  (forall st,
      omap_raises (GatewayState.remove_namespace_qos nqn (fstr nsid)) st
      = false) ->
  (forall st,
      omap_raises (GatewayState.remove_namespace nqn (fstr nsid)) st
      = false) ->
  remove_namespace_from_state nqn nsid true w
  = (Ok (req_status 0),
     mkWorld (engine w)
       (dict_del (GatewayState.build_namespace_key nqn (fstr nsid))
          (dict_del (GatewayState.build_namespace_qos_key nqn (fstr nsid))
             (omap w)))
       (clusters w) (current_cluster w) (held w) (trace w)).
Proof.
  intros Hheld Hq Hn. unfold remove_namespace_from_state, bind,
    assert_omap_locked, try_except, gateway_state. cbn [negb].
  rewrite Hheld, Hq. cbn [omap]. rewrite Hn. reflexivity.
Qed.

Lemma delete_bdev_accepted (bdev v : json) (w : World E) (e3 : E) :
  spdk (bdev_rbd_delete bdev) (engine w) = (Returns v, e3) ->
  truthy v = true ->
  delete_bdev bdev w
  = (Ok (req_status 0),
     mkWorld e3 (omap w) (clusters w) (current_cluster w) (held w)
       (trace w ++ [Call (bdev_rbd_delete bdev)])).
Proof.
  intros Hspdk Hv. unfold delete_bdev, try_or_return, call.
  rewrite Hspdk, Hv. reflexivity.
Qed.

(** X15. A live [namespace_delete] that goes through (the engine lists the
    namespace with a device, detaches it and deletes the device, and the
    writes of the record do not raise) replies with status 0 and leaves
    neither the entry of the namespace nor the entry of its QoS limits in
    the persisted record; every other entry is as it was. The engine is
    asked, in this order, for the listing, for the detachment and for
    the deletion of the device. *)
Theorem namespace_delete_removes_both_entries
    (request : namespace_delete_req.t) (w : World E)
    (listing ns bdev nsid v v' : json) (l : list json) (e1 e2 e3 : E) :
  let nqn := namespace_delete_req.subsystem_nqn request in
  let ns_key := GatewayState.build_namespace_key nqn (fstr nsid) in
  let qos_key := GatewayState.build_namespace_qos_key nqn (fstr nsid) in
  (namespace_delete_req.nsid request <=? 0)
    && negb (str_truthy (namespace_delete_req.uuid request)) = false ->
  is_discovery_nqn nqn = false ->
  spdk (nvmf_get_subsystems nqn) (engine w) = (Returns listing, e1) ->
  truthy listing = true ->
  iter_json listing = inr l ->
  scan_subsystems nqn (namespace_delete_req.nsid request)
    (namespace_delete_req.uuid request) l (JNull, JNull) = (ns, bdev) ->
  truthy ns = true ->
  truthy bdev = true ->
  getitem ns "nsid" = inr nsid ->
  spdk (nvmf_subsystem_remove_ns nqn nsid) e1 = (Returns v, e2) ->
  truthy v = true ->
  spdk (bdev_rbd_delete bdev) e2 = (Returns v', e3) ->
  truthy v' = true ->
  (forall st,
      omap_raises (GatewayState.remove_namespace_qos nqn (fstr nsid)) st
      = false) ->
  (forall st,
      omap_raises (GatewayState.remove_namespace nqn (fstr nsid)) st
      = false) ->
  exists w',
    namespace_delete request true w = (Ok (req_status 0), w')
    /\ dict_get ns_key (omap w') = None
    /\ dict_get qos_key (omap w') = None
    /\ (forall k, k <> ns_key -> k <> qos_key ->
          dict_get k (omap w') = dict_get k (omap w))
    /\ engine w' = e3
    /\ engine_calls (trace w')
       = engine_calls (trace w)
         ++ [ nvmf_get_subsystems nqn; nvmf_subsystem_remove_ns nqn nsid;
              bdev_rbd_delete bdev ].
Proof.
  intros nqn ns_key qos_key Haddr Hdisc Hspdk Htruthy Hiter Hscan Hns Hbdev
    Hnsid Hrm Hv Hdel Hv' Hq Hn.
  unfold namespace_delete, execute_grpc_function,
    execute_omap_locking_function, _grpc_function_with_lock, with_lock,
    namespace_delete_safe, with_omap_lock.
  unfold bind at 1. unfold acquire at 1. unfold finally at 1.
  unfold bind at 1. unfold acquire at 1. unfold finally at 1.
  cbn [is_held held existsb lock_eqb orb].
  unfold bind at 1.
  erewrite find_namespace_listed; try eassumption.
  fold nqn. rewrite Hscan. cbn [fst snd]. rewrite Hns. cbn [negb].
  unfold bind at 1. unfold lift at 1. rewrite Hnsid. unfold ret at 1.
  unfold bind at 1.
  erewrite remove_namespace_accepted;
    [|reflexivity|exact Hdisc|exact Hrm|exact Hv].
  cbn [status req_status Z.eqb negb].
  unfold bind at 1.
  rewrite remove_namespace_from_state_done; [|reflexivity|exact Hq|exact Hn].
  rewrite Hbdev. unfold bind at 1.
  erewrite delete_bdev_accepted; [|exact Hdel|exact Hv'].
  cbn [status req_status Z.eqb negb].
  unfold ret, release.
  eexists. split; [reflexivity|].
  cbn [omap engine trace GatewayState.apply]. fold ns_key qos_key.
  split; [apply dict_get_del|].
  split.
  { rewrite dict_get_del_any. destruct (String.eqb qos_key ns_key);
      [reflexivity|apply dict_get_del]. }
  split.
  { intros k Hk1 Hk2. rewrite !dict_get_del_any.
    destruct (String.eqb k ns_key) eqn:H1;
      [apply String.eqb_eq in H1; now destruct Hk1|].
    destruct (String.eqb k qos_key) eqn:H2;
      [apply String.eqb_eq in H2; now destruct Hk2|reflexivity]. }
  split; [reflexivity|].
  rewrite !engine_calls_app. cbn [engine_calls flat_map app].
  rewrite !app_nil_r, <- !app_assoc. reflexivity.
Qed.

(** X16. A live [namespace_add] that goes through replies with the NSID
    that the engine assigned and persists the request under the key of
    that NSID, not of the NSID the request asked for (0 asks the engine
    to choose); the request is persisted with the UUID it was given or
    that was drawn for it. *)
Theorem added_namespace_is_recorded_under_its_nsid
    (request : namespace_add_req.t) (w w1 w2 : World E) (rb rn : reply) :
  let rq := with_uuid request in
  let nqn := namespace_add_req.subsystem_nqn rq in
  let uuid := namespace_add_req.uuid rq in
  let bdev_name := ("bdev_" ++ uuid)%string in
  let text := MessageToJson (MsgNamespace rq) in
  is_held omap_lock w = true ->
  str_truthy uuid = true ->
  create_bdev bdev_name uuid (namespace_add_req.rbd_pool_name rq)
    (namespace_add_req.rbd_image_name rq)
    (namespace_add_req.block_size rq) w = (Ok rb, w1) ->
  status rb = 0 ->
  create_namespace nqn (JStr bdev_name)
    (JNum (namespace_add_req.nsid rq)) (namespace_add_req.anagrpid rq)
    (JStr uuid) true w1 = (Ok rn, w2) ->
  status rn = 0 ->
  omap_raises
    (GatewayState.add_namespace nqn (str_of_Z (nsid rn)) text) (omap w2)
  = false ->
  exists w',
    namespace_add_safe request true w = (Ok (nsid_status 0 (nsid rn)), w')
    /\ omap w'
       = dict_set (GatewayState.build_namespace_key nqn (str_of_Z (nsid rn)))
           text (omap w)
    /\ engine w' = engine w2
    /\ trace w' = trace w2.
Proof.
  intros rq nqn uuid bdev_name text Hheld Huuid Hbdev Hrb Hns Hrn Hok.
  unfold namespace_add_safe, with_omap_lock. rewrite Hheld.
  fold rq. fold uuid. unfold find_unique_bdev_name.
  cbn [truthy]. unfold str_truthy in Huuid. rewrite Huuid.
  cbn [negb fstr]. fold bdev_name.
  unfold bind at 1. unfold lift at 1. unfold ret at 1.
  unfold bind at 1. rewrite Hbdev. rewrite Hrb. cbn [Z.eqb negb].
  unfold bind at 1. fold nqn. rewrite Hns. rewrite Hrn. cbn [Z.eqb negb].
  unfold try_except, bind, gateway_state. fold text. rewrite Hok.
  unfold ret. eexists. split; [reflexivity|].
  cbn [omap engine trace GatewayState.apply].
  pose proof (keeps_create_bdev omap _ _ _ _ _ passive_omap _ _ _ Hbdev)
    as H1.
  pose proof (keeps_create_namespace omap _ _ _ _ _ _ passive_omap _ _ _ Hns)
    as H2.
  rewrite H2, H1. repeat split.
Qed.

(** *** Listeners *)

(** X17. A request to create a listener for another gateway (valid
    transport, address family and HA state, not the discovery subsystem)
    is answered ENOENT: the engine is not called and nothing is
    changed. *)
Theorem listener_of_another_gateway_is_not_created
    (request : create_listener_req.t) (trtype adrfam auto_ha_state : string)
    (context : bool) (w : World E) :
  get_key_from_value TransportType (create_listener_req.trtype request)
  = Some trtype ->
  get_key_from_value AddressFamily (create_listener_req.adrfam request)
  = Some adrfam ->
  get_key_from_value AutoHAState (create_listener_req.auto_ha_state request)
  = Some auto_ha_state ->
  is_discovery_nqn (create_listener_req.nqn request) = false ->
  create_listener_req.gateway_name request <> gateway_name ->
  exists w',
    create_listener request context w = (Ok (req_status ENOENT), w')
    /\ untouched w w'.
Proof.
  intros Htr Haf Hha Hdisc Hgw.
  apply String.eqb_neq in Hgw.
  unfold create_listener, execute_grpc_function,
    execute_omap_locking_function, _grpc_function_with_lock, with_lock,
    create_listener_safe.
  rewrite Htr, Haf, Hha, Hdisc, Hgw.
  unfold with_omap_lock, try_or_return, bind, finally, acquire. cbn.
  eexists. split; [reflexivity|].
  unfold release. cbn. rewrite <- !app_assoc.
  apply untouched_locked. no_calls.
Qed.

(** X18. A request to delete a listener of another gateway is answered
    ENOENT: the engine is not called and, unlike after an engine failure,
    the persisted record is not touched either. *)
Theorem listener_of_another_gateway_is_not_deleted
    (request : delete_listener_req.t) (trtype adrfam : string)
    (context : bool) (w : World E) :
  get_key_from_value TransportType (delete_listener_req.trtype request)
  = Some trtype ->
  get_key_from_value AddressFamily (delete_listener_req.adrfam request)
  = Some adrfam ->
  is_discovery_nqn (delete_listener_req.nqn request) = false ->
  delete_listener_req.gateway_name request <> gateway_name ->
  exists w',
    delete_listener request context w = (Ok (req_status ENOENT), w')
    /\ untouched w w'.
Proof.
  intros Htr Haf Hdisc Hgw.
  apply String.eqb_neq in Hgw.
  unfold delete_listener, execute_grpc_function,
    execute_omap_locking_function, _grpc_function_with_lock, with_lock,
    delete_listener_safe.
  rewrite Htr, Haf, Hdisc, Hgw.
  unfold with_omap_lock, try_or_return, bind, finally, acquire. cbn.
  eexists. split; [reflexivity|].
  unfold release. cbn. rewrite <- !app_assoc.
  apply untouched_locked. no_calls.
Qed.

(** X19. A live request to create a listener of this gateway that the
    persisted record already has (under the key of the subsystem, the
    gateway, the transport, the address and the port, with a text that is
    not empty) is answered EEXIST: the engine is not called and nothing
    is changed. *)
Theorem recorded_listener_is_not_created_again
    (request : create_listener_req.t) (trtype adrfam auto_ha_state : string)
    (text : string) (w : World E) :
  let nqn := create_listener_req.nqn request in
  let gw := create_listener_req.gateway_name request in
  let traddr := create_listener_req.traddr request in
  let port := str_of_Z (create_listener_req.trsvcid request) in
  get_key_from_value TransportType (create_listener_req.trtype request)
  = Some trtype ->
  get_key_from_value AddressFamily (create_listener_req.adrfam request)
  = Some adrfam ->
  get_key_from_value AutoHAState (create_listener_req.auto_ha_state request)
  = Some auto_ha_state ->
  is_discovery_nqn nqn = false ->
  gw = gateway_name ->
  dict_get (GatewayState.build_listener_key nqn gw trtype traddr port)
    (omap w) = Some text ->
  text <> "" ->
  exists w',
    create_listener request true w = (Ok (req_status EEXIST), w')
    /\ untouched w w'.
Proof.
  intros nqn gw traddr port Htr Haf Hha Hdisc Hgw Hget Htext.
  apply String.eqb_neq in Htext.
  unfold create_listener, execute_grpc_function,
    execute_omap_locking_function, _grpc_function_with_lock, with_lock,
    create_listener_safe.
  rewrite Htr, Haf, Hha. fold nqn. rewrite Hdisc.
  fold gw. rewrite Hgw, String.eqb_refl. rewrite <- Hgw.
  unfold bind at 1. unfold acquire at 1. unfold finally at 1.
  unfold bind at 1. unfold acquire at 1. unfold finally at 1.
  unfold with_omap_lock. cbn [is_held held existsb lock_eqb orb].
  unfold try_or_return, matching_listener_exists. cbn [negb].
  fold traddr. fold port.
  unfold bind at 1. unfold bind at 1. unfold get_state at 1. cbn [omap].
  rewrite Hget. unfold ret at 1. unfold str_truthy. rewrite Htext.
  cbn [negb]. unfold ret, release. cbn.
  eexists. split; [reflexivity|].
  rewrite <- !app_assoc. apply untouched_locked. no_calls.
Qed.

(** The calls that set the groups [x + 1], ..., [x + todo]. *)
Lemma set_ana_states_trace nqn trtype traddr trsvcid adrfam (todo : nat) :
  (forall g e, exists r e',
      spdk (nvmf_subsystem_listener_set_ana_state nqn "inaccessible" trtype
              traddr trsvcid adrfam g) e = (Returns r, e')) ->
  forall x (w : World E), exists w',
    set_ana_states nqn trtype traddr trsvcid adrfam x todo w = (Ok None, w')
    /\ trace w'
       = trace w
         ++ map (fun i =>
                   Call (nvmf_subsystem_listener_set_ana_state nqn
                           "inaccessible" trtype traddr trsvcid adrfam
                           (x + Z.of_nat i)))
              (seq 1 todo).
Proof.
  intros Hengine. induction todo as [|todo IH]; intros x w.
  - exists w. split; [reflexivity|]. cbn. now rewrite app_nil_r.
  - cbn [set_ana_states]. unfold try_or_return, call.
    destruct (Hengine (x + 1) (engine w)) as (r & e' & Hr). rewrite Hr.
    match goal with |- context [set_ana_states _ _ _ _ _ _ _ ?w0] =>
      destruct (IH (x + 1) w0) as (w' & Hrun & Ht) end.
    exists w'. split; [exact Hrun|]. rewrite Ht. cbn [trace seq map].
    rewrite <- app_assoc. cbn [app]. f_equal.
    change (Z.of_nat 1) with 1. f_equal.
    rewrite <- (seq_shift todo 1), map_map. apply map_ext. intros i.
    do 2 f_equal. lia.
Qed.

(** X20. For a listener of a subsystem with HA, as long as the engine
    raises nothing, the loop of [create_listener] sets the state of the
    ANA groups 1, 2, 3 and 4, in this order, to inaccessible, whatever
    the engine returns for each, and makes no other call. *)
Theorem ana_groups_are_set_in_order nqn trtype traddr trsvcid adrfam
    (w : World E) :
  let set g :=
    nvmf_subsystem_listener_set_ana_state nqn "inaccessible" trtype traddr
      trsvcid adrfam g in
  (forall g e, exists r e', spdk (set g) e = (Returns r, e')) ->
  exists w',
    set_ana_states nqn trtype traddr trsvcid adrfam 0
      (Z.to_nat MAX_ANA_GROUPS) w = (Ok None, w')
    /\ trace w' = trace w ++ [Call (set 1); Call (set 2); Call (set 3);
                              Call (set 4)].
Proof.
  intros set Hengine.
  destruct (set_ana_states_trace nqn trtype traddr trsvcid adrfam
              (Z.to_nat MAX_ANA_GROUPS) Hengine 0 w) as (w' & Hrun & Ht).
  exists w'. split; [exact Hrun|]. rewrite Ht. reflexivity.
Qed.

(** *** The discovery subsystem *)

(** X21. The discovery subsystem is out of reach of the operations on
    subsystems, hosts and listeners: a request to create or delete it, to
    remove a host from it or to remove the discovery NQN as a host, or to
    create or delete a listener of it is refused (EINVAL, or ENOKEY where
    the request names an unknown transport, address family or HA state)
    with no engine call and nothing changed. *)
Theorem discovery_subsystem_is_out_of_reach (nqn : string) (context : bool)
    (w : World E) :
  is_discovery_nqn nqn = true ->
  (forall serial max_ns ana ha, exists w',
      create_subsystem (create_subsystem_req.mk nqn serial max_ns ana ha)
        context w = (Ok (req_status EINVAL), w')
      /\ untouched w w')
  /\ (forall force, exists w',
      delete_subsystem (delete_subsystem_req.mk nqn force) context w
      = (Ok (req_status EINVAL), w')
      /\ untouched w w')
  /\ (forall other, exists w',
      remove_host (remove_host_req.mk nqn other) context w
      = (Ok (req_status EINVAL), w')
      /\ untouched w w')
  /\ (forall other, exists w',
      remove_host (remove_host_req.mk other nqn) context w
      = (Ok (req_status EINVAL), w')
      /\ untouched w w')
  /\ (forall gw traddr trtype adrfam trsvcid ha, exists st w',
      create_listener
        (create_listener_req.mk nqn gw traddr trtype adrfam trsvcid ha)
        context w = (Ok (req_status st), w')
      /\ (st = EINVAL \/ st = ENOKEY)
      /\ untouched w w')
  /\ (forall gw traddr trtype adrfam trsvcid, exists st w',
      delete_listener
        (delete_listener_req.mk nqn gw traddr trtype adrfam trsvcid)
        context w = (Ok (req_status st), w')
      /\ (st = EINVAL \/ st = ENOKEY)
      /\ untouched w w').
Proof.
  intros Hdisc.
  assert (Hlocked :
    forall st, exists w',
      with_lock omap_lock (with_lock rpc_lock (ret (req_status st))) w
      = (Ok (req_status st), w') /\ untouched w w').
  { intros st. unfold with_lock, bind, finally, acquire, ret, release.
    cbn. eexists. split; [reflexivity|].
    rewrite <- !app_assoc. apply untouched_locked. no_calls. }
  repeat split; intros.
  - unfold create_subsystem, execute_grpc_function,
      execute_omap_locking_function, _grpc_function_with_lock,
      create_subsystem_safe.
    cbn [create_subsystem_req.subsystem_nqn]. rewrite Hdisc. apply Hlocked.
  - unfold delete_subsystem. cbn [delete_subsystem_req.subsystem_nqn].
    rewrite Hdisc. eexists. split; [reflexivity|]. unfold untouched. auto.
  - unfold remove_host, execute_grpc_function,
      execute_omap_locking_function, _grpc_function_with_lock,
      remove_host_safe.
    cbn [remove_host_req.subsystem_nqn]. rewrite Hdisc. apply Hlocked.
  - unfold remove_host, execute_grpc_function,
      execute_omap_locking_function, _grpc_function_with_lock,
      remove_host_safe.
    cbn [remove_host_req.subsystem_nqn remove_host_req.host_nqn].
    rewrite Hdisc.
    destruct (is_discovery_nqn other); apply Hlocked.
  - unfold create_listener, execute_grpc_function,
      execute_omap_locking_function, _grpc_function_with_lock,
      create_listener_safe.
    cbn [create_listener_req.nqn create_listener_req.trtype
         create_listener_req.adrfam create_listener_req.auto_ha_state].
    rewrite Hdisc.
    destruct (get_key_from_value TransportType trtype);
      [|destruct (Hlocked ENOKEY) as (w' & H1 & H2); eauto 6].
    destruct (get_key_from_value AddressFamily adrfam);
      [|destruct (Hlocked ENOKEY) as (w' & H1 & H2); eauto 6].
    destruct (get_key_from_value AutoHAState ha);
      [|destruct (Hlocked ENOKEY) as (w' & H1 & H2); eauto 6].
    destruct (Hlocked EINVAL) as (w' & H1 & H2); eauto 6.
  - unfold delete_listener, execute_grpc_function,
      execute_omap_locking_function, _grpc_function_with_lock,
      delete_listener_safe.
    cbn [delete_listener_req.nqn delete_listener_req.trtype
         delete_listener_req.adrfam].
    rewrite Hdisc.
    destruct (get_key_from_value TransportType trtype);
      [|destruct (Hlocked ENOKEY) as (w' & H1 & H2); eauto 6].
    destruct (get_key_from_value AddressFamily adrfam);
      [|destruct (Hlocked ENOKEY) as (w' & H1 & H2); eauto 6].
    destruct (Hlocked EINVAL) as (w' & H1 & H2); eauto 6.
Qed.

(** *** Filling the cluster contexts *)

Lemma others_full_step (w : World E) (h : list string) :
  pool_ok w h -> others_full w ->
  forall o w', _get_cluster w = (o, w') -> others_full w'.
Proof.
  intros (Hkeys & Hbound & Hcount & Hcur) Hfull o w' Hrun.
  destruct (get_cluster_cases w)
    as [(c & n & Hc & Hget & Hlt & Heq)
       |[(Hwhy & Heq)|(c & Hc & Hget)]].
  - rewrite Heq in Hrun. injection Hrun as <- <-.
    intros name m. cbn [clusters current_cluster]. rewrite dict_get_set.
    destruct (String.eqb name c) eqn:Hn.
    + apply String.eqb_eq in Hn. subst name. intros _ Hne. now destruct Hne.
    + intros Hm _. apply (Hfull name m Hm). rewrite Hc. intros [= ->].
      now rewrite String.eqb_refl in Hn.
  - assert (Hold : forall name m, dict_get name (clusters w) = Some m ->
                     m = bdevs_per_cluster).
    { intros name m Hm.
      destruct Hwhy as [Hnone|(c & n & Hc & Hget & Hge)].
      - apply (Hfull name m Hm). rewrite Hnone. discriminate.
      - destruct (string_dec name c) as [->|Hne].
        + rewrite Hget in Hm. injection Hm as <-.
          specialize (Hbound _ _ Hget). lia.
        + apply (Hfull name m Hm). rewrite Hc. congruence. }
    rewrite Heq in Hrun. cbv zeta in Hrun.
    destruct (spdk (register_call w) (engine w)) as [[v|ex] e'].
    + injection Hrun as <- <-.
      intros name m. cbn [clusters current_cluster]. rewrite dict_get_set.
      destruct (String.eqb name _) eqn:Hn.
      * apply String.eqb_eq in Hn. subst name. intros _ Hne.
        now destruct Hne.
      * intros Hm _. apply (Hold name m Hm).
    + injection Hrun as <- <-.
      intros name m. cbn [clusters current_cluster]. intros Hm _.
      apply (Hold name m Hm).
  - exfalso. destruct Hcur as [Hcur|(k & Hlen & Hcur)]; [congruence|].
    rewrite Hc in Hcur. injection Hcur as ->.
    now apply (last_context_present _ _ Hkeys Hlen).
Qed.

(** X22. The pool fills a cluster context before it allocates the next:
    after any sequence of acquisitions from the pool as it is set up,
    every context but the current one holds exactly [bdevs_per_cluster]
    volumes, also when registrations of new contexts have failed in
    between. *)
Theorem contexts_are_filled_in_turn (w : World E) (h : list string) :
  pool_run w h ->
  forall name n,
    dict_get name (clusters w) = Some n ->
    current_cluster w <> Some name ->
    n = bdevs_per_cluster.
Proof.
  intros Hrun.
  change (others_full w).
  induction Hrun as
    [w0 w Hinit|w h name w' Hrun IH Hstep|w h e w' Hrun IH Hstep
    |w h w' Hrun IH Hcl Hcur].
  - apply init_cluster_context_ok in Hinit.
    destruct Hinit as (_ & Hcl & _).
    intros name n. rewrite Hcl. discriminate.
  - apply (others_full_step _ _ (pool_run_ok _ _ Hrun) IH _ _ Hstep).
  - apply (others_full_step _ _ (pool_run_ok _ _ Hrun) IH _ _ Hstep).
  - unfold others_full in *. now rewrite Hcl, Hcur.
Qed.

(** *** The record is written last *)

Lemma wos_keeps (m : M E reply) : keeps omap m -> writes_on_success m.
Proof. intros H w o w' Hrun. left. apply (H _ _ _ Hrun). Qed.

Lemma wos_bind {A} (m : M E A) (k : A -> M E reply) :
  keeps omap m -> (forall a, writes_on_success (k a)) ->
  writes_on_success (bind m k).
Proof.
  intros Hm Hk w o w'. unfold bind.
  destruct (m w) as [[a|e] w1] eqn:Hmw.
  - intros Hkw. rewrite <- (Hm _ _ _ Hmw). apply (Hk _ _ _ _ Hkw).
  - intros [= <- <-]. left. apply (Hm _ _ _ Hmw).
Qed.

Lemma wos_try_or_return {A} (m : M E A) (h : exn -> M E reply)
    (k : A -> M E reply) :
  keeps omap m -> (forall e, writes_on_success (h e)) ->
  (forall a, writes_on_success (k a)) ->
  writes_on_success (try_or_return m h k).
Proof.
  intros Hm Hh Hk w o w'. unfold try_or_return.
  destruct (m w) as [[a|e] w1] eqn:Hmw; intros Hkw;
    rewrite <- (Hm _ _ _ Hmw).
  - apply (Hk _ _ _ _ Hkw).
  - apply (Hh _ _ _ _ Hkw).
Qed.

Lemma wos_with_lock (l : lock) (m : M E reply) :
  writes_on_success m -> writes_on_success (with_lock l m).
Proof.
  intros Hm w o w'. unfold with_lock, bind, acquire, finally.
  match goal with |- context [m ?w0] =>
    destruct (m w0) as [o1 w1] eqn:Hmw end.
  intros [= <- <-]. unfold release. cbn [omap].
  apply (Hm _ _ _ Hmw).
Qed.

Lemma wos_with_omap_lock (context : bool) (m : M E reply) :
  writes_on_success m -> writes_on_success (with_omap_lock context m).
Proof.
  intros Hm w o w'. unfold with_omap_lock.
  destruct (is_held omap_lock w); [apply Hm|].
  now apply wos_with_lock.
Qed.

(** The write itself: it is followed by the reply of status 0, and a
    write that raises has written nothing. *)
Lemma wos_write (op : GatewayState.op) (done failed : reply) :
  status done = 0 ->
  writes_on_success
    (try_except (gateway_state op ;;; ret done) (fun _ => ret failed)).
Proof.
  intros Hdone w o w'. unfold try_except, bind, gateway_state, ret.
  destruct (omap_raises op (omap w)); intros [= <- <-].
  - now left.
  - right. now exists done.
Qed.

Ltac wos_step :=
  match goal with
  | |- forall _, _ => intro
  | |- writes_on_success (with_lock _ _) => apply wos_with_lock
  | |- writes_on_success (with_omap_lock _ _) => apply wos_with_omap_lock
  | |- writes_on_success (try_or_return _ _ _) =>
      apply wos_try_or_return; [solve [keeps_with_hyps]| |]
  | |- writes_on_success (try_except (bind (gateway_state _) _) _) =>
      apply wos_write; reflexivity
  | |- writes_on_success (bind _ _) =>
      apply wos_bind; [solve [keeps_with_hyps]|]
  | |- writes_on_success (if ?b then _ else _) => destruct b
  | |- writes_on_success (match ?x with _ => _ end) => destruct x
  | |- writes_on_success _ => apply wos_keeps; solve [keeps_with_hyps]
  end.

(** X23. The operations that add to the persisted record write it last: a
    run of [create_subsystem], [namespace_add], [namespace_set_qos_limits]
    or [create_listener] that does not end with a reply of status 0 (it
    replied with an error status, or it ended with an exception) has left
    the persisted record exactly as it was, whatever it asked of the
    engine. *)
Theorem record_is_written_on_success_only (context : bool) :
  (forall r, writes_on_success (create_subsystem r context))
  /\ (forall r, writes_on_success (namespace_add r context))
  /\ (forall r, writes_on_success (namespace_set_qos_limits r context))
  /\ (forall r, writes_on_success (create_listener r context)).
Proof.
  pose proof keeps_find_namespace_omap as Hfind.
  pose proof (fun n => keeps_delete_bdev omap n passive_omap) as Hdb.
  pose proof (fun a b c d e =>
                keeps_create_bdev omap a b c d e passive_omap) as Hcb.
  pose proof (fun a b c d e c' =>
                keeps_create_namespace omap a b c d e c' passive_omap)
    as Hcn.
  pose proof (fun a b c d e n x =>
                keeps_set_ana_states omap a b c d e n passive_omap x)
    as Hana.
  repeat split; intros r.
  - unfold create_subsystem, execute_grpc_function,
      execute_omap_locking_function, _grpc_function_with_lock,
      create_subsystem_safe, subsystem_already_exists,
      serial_number_already_used.
    repeat wos_step.
  - unfold namespace_add, execute_grpc_function,
      execute_omap_locking_function, _grpc_function_with_lock,
      namespace_add_safe, skip.
    repeat wos_step.
  - unfold namespace_set_qos_limits, execute_grpc_function,
      execute_omap_locking_function, _grpc_function_with_lock,
      namespace_set_qos_limits_safe.
    repeat wos_step.
  - unfold create_listener, execute_grpc_function,
      execute_omap_locking_function, _grpc_function_with_lock,
      create_listener_safe, matching_listener_exists.
    repeat wos_step.
Qed.

(** *** Statistics that cannot be read *)

(** X24. When the engine answers [bdev_get_iostat] with a reply that is not
    empty and from which the list of devices cannot be taken (it has no
    [bdevs] entry, or it is no object), [namespace_get_io_stats] does not
    reply with an error status: the handler of the parse error formats a
    variable that the function does not have, and the operation ends
    with [NameError]. The lock of the engine is released and the
    persisted record is as it was. *)
Theorem unreadable_statistics_end_in_name_error
    (request : namespace_get_io_stats_req.t) (context : bool) (w : World E)
    (listing ns bdev r : json) (l : list json) (e1 e2 : E) (ex : exn) :
  let nqn := namespace_get_io_stats_req.subsystem_nqn request in
  (namespace_get_io_stats_req.nsid request <=? 0)
    && negb (str_truthy (namespace_get_io_stats_req.uuid request)) = false ->
  spdk (nvmf_get_subsystems nqn) (engine w) = (Returns listing, e1) ->
  truthy listing = true ->
  iter_json listing = inr l ->
  scan_subsystems nqn (namespace_get_io_stats_req.nsid request)
    (namespace_get_io_stats_req.uuid request) l (JNull, JNull) = (ns, bdev) ->
  truthy ns = true ->
  truthy bdev = true ->
  spdk (bdev_get_iostat bdev) e1 = (Returns r, e2) ->
  truthy r = true ->
  getitem r "bdevs" = inl ex ->
  exists w',
    namespace_get_io_stats request context w = (Raised (NameError "s"), w')
    /\ held w' = held w
    /\ omap w' = omap w
    /\ engine_calls (trace w')
       = engine_calls (trace w)
         ++ [nvmf_get_subsystems nqn; bdev_get_iostat bdev].
Proof.
  intros nqn Haddr Hspdk Htruthy Hiter Hscan Hns Hbdev Hstat Hr Hget.
  unfold namespace_get_io_stats, with_lock.
  unfold bind at 1. unfold bind at 1. unfold acquire at 1.
  unfold finally at 1. unfold bind at 1.
  erewrite find_namespace_listed; try eassumption.
  fold nqn. rewrite Hscan. cbn [fst snd]. rewrite Hns, Hbdev.
  cbn [negb]. unfold try_or_return, call. cbn [engine]. rewrite Hstat.
  unfold ret at 1. unfold release. rewrite Hr. cbn [negb]. rewrite Hget.
  unfold raise. eexists. split; [reflexivity|].
  cbn [held omap trace]. split; [apply drop_lock_head|].
  split; [reflexivity|].
  rewrite !engine_calls_app. cbn [engine_calls flat_map app].
  rewrite !app_nil_r, <- !app_assoc. reflexivity.
Qed.

(** *** A subsystem in use *)

Lemma get_subsystem_namespaces_in_found (nqn : string)
    (state : dict string) :
  namespace_in_record nqn state ->
  get_subsystem_namespaces_in nqn state <> [].
Proof.
  intros (key & val & ns & nsid & Hin & Hpre & Hload & Hnqn & Hnsid).
  induction state as [|[k v] rest IH]; [destruct Hin|].
  cbn [get_subsystem_namespaces_in].
  destruct Hin as [[= -> ->]|Hin].
  - rewrite Hpre, Hload, Hnqn. cbn [negb json_eqb].
    rewrite String.eqb_refl, Hnsid. discriminate.
  - destruct (prefix GatewayState.NAMESPACE_PREFIX k); cbn [negb];
      [|now apply IH].
    destruct (json_loads v) as [s|]; [|now apply IH].
    destruct (getitem s "subsystem_nqn") as [e|q]; [now apply IH|].
    destruct (json_eqb q (JStr nqn)); [|now apply IH].
    destruct (getitem s "nsid") as [e|i]; [now apply IH|discriminate].
Qed.

(** X10. A live [delete_subsystem] without [force], on a subsystem that is
    not the discovery one, is answered EBUSY, with no engine call and
    nothing changed, when the persisted record has a namespace entry of
    the subsystem: an entry under a namespace key whose text [json.loads]
    reads, whose [subsystem_nqn] is the NQN and which has an [nsid]. (An
    entry without an [nsid] is not counted.) *)
Theorem subsystem_with_a_recorded_namespace_is_busy
    (request : delete_subsystem_req.t) (w : World E) :
  let nqn := delete_subsystem_req.subsystem_nqn request in
  is_discovery_nqn nqn = false ->
  delete_subsystem_req.force request = false ->
  namespace_in_record nqn (omap w) ->
  exists w',
    delete_subsystem request true w = (Ok (req_status EBUSY), w')
    /\ untouched w w'.
Proof.
  intros nqn Hdisc Hforce Hns.
  apply delete_subsystem_busy; try assumption.
  now apply get_subsystem_namespaces_in_found.
Qed.

End Properties.

(** * The properties at work on the test bench *)

Section OnTheBench.

Import Scenario.

Local Open Scope list_scope.

(** A timeout of the JSON-RPC client is an error without the marker. *)
Lemma timeout_is_unbound_local :
  @parse_json_exeption _ (env healthy) timeout
    = inl (UnboundLocalError "resp")
  /\ @failure_status _ (env healthy) timeout
    = inl (UnboundLocalError "resp")
  /\ forall name uuid pool image block_size
       (w w' : World Bench.Engine),
       (cluster_name <- @_get_cluster _ (env healthy) ;;
        @call _ (env healthy)
          (bdev_rbd_create name cluster_name pool image block_size uuid))
         w = (Raised timeout, w') ->
       @create_bdev _ (env healthy) name uuid pool image block_size w
       = (Raised (UnboundLocalError "resp"), w').
Proof.
  apply (@unstructured_error_is_unbound_local _ (env healthy)
           "Timeout waiting for response").
  reflexivity.
Defined.

(** NSID 0 and no UUID. *)
Lemma nsid_0_is_rejected :
  exists w',
    @namespace_delete _ (env healthy) (namespace_delete_req.mk nqn 0 "")
      true (Bench.start record)
    = (Ok (req_status ENODEV), w')
    /\ untouched (Bench.start record) w'.
Proof.
  apply (@unaddressed_namespace_is_rejected _ (env healthy) nqn 0 true
           (Bench.start record)).
  lia.
Defined.

(** Three acquisitions with two volumes per context. *)
Lemma pool_3_run :
  @pool_run _ (env healthy) pool_3
    ["cluster_context_0"; "cluster_context_0"; "cluster_context_1"]%string.
Proof.
  apply (@run_acquired _ (env healthy) pool_2
           ["cluster_context_0"; "cluster_context_0"]%string
           "cluster_context_1"%string pool_3); [|reflexivity].
  apply (@run_acquired _ (env healthy) pool_1
           ["cluster_context_0"]%string
           "cluster_context_0"%string pool_2); [|reflexivity].
  apply (@run_acquired _ (env healthy) pool_0 []
           "cluster_context_0"%string pool_1); [|reflexivity].
  apply (@run_init _ (env healthy) pool_0 pool_0). reflexivity.
Defined.

Lemma pool_3_is_bounded :
  (forall name n, dict_get name (clusters pool_3) = Some n ->
     1 <= n <= 2
     /\ handed_out name
          ["cluster_context_0"; "cluster_context_0"; "cluster_context_1"]%string
        = n)
  /\ NoDup (map fst (clusters pool_3)).
Proof.
  destruct (@cluster_pool_is_bounded _ (env healthy) pool_3 _ pool_3_run)
    as (H1 & _ & _ & H4 & _).
  split; [exact H1|exact H4].
Defined.


(** The engine lists namespace 1 and returns [false] when asked to detach
    it: the reply is an error and the record still has entries of the
    namespace. *)
Lemma failed_detach_keeps_the_entry :
  exists r w',
    @namespace_delete _ (env detach_returns_false) delete_namespace_1 true
      (Bench.start record) = (Ok r, w')
    /\ status r <> 0
    /\ omap w' = record.
Proof.
  eapply (@namespace_delete_keeps_record_on_engine_failure _
            (env detach_returns_false) delete_namespace_1
            (Bench.start record)).
  - reflexivity.
  - reflexivity.
  - reflexivity.
  - reflexivity.
  - reflexivity.
  - reflexivity.
  - reflexivity.
  - reflexivity.
  - left. eexists. split; reflexivity.
Defined.

(** The attachment of a new namespace times out: the operation ends in
    [UnboundLocalError] and the device it created stays. *)
Lemma attach_timeout_escapes :
  exists w',
    @namespace_add_safe _ (env attach_times_out) add_namespace true
      (Bench.locked record)
    = (Raised (UnboundLocalError "resp"), w')
    /\ engine_calls (trace w')
       = [ bdev_rbd_register_cluster "cluster_context_0" None None;
           bdev_rbd_create "bdev_u2" "cluster_context_0" "pool1" "img2" 512
             "u2";
           nvmf_subsystem_add_ns nqn (JStr "bdev_u2") (JNum 0) 1
             (JStr "u2") ].
Proof.
  eexists. split.
  - eapply (@namespace_add_safe_attach_error_escapes _
              (env attach_times_out) add_namespace true
              (Bench.locked record)).
    + reflexivity.
    + reflexivity.
    + reflexivity.
    + reflexivity.
    + vm_compute. discriminate.
    + reflexivity.
    + reflexivity.
    + reflexivity.
  - reflexivity.
Defined.

(** A forced delete of the subsystem where detaching namespace 1 times
    out: the operation ends in [UnboundLocalError]; the subsystem is not
    deleted. *)
Lemma forced_delete_times_out :
  exists w',
    @delete_subsystem _ (env detach_times_out) force_delete_subsystem true
      (Bench.start record)
    = (Raised (UnboundLocalError "resp"), w')
    /\ engine w' = 2%nat
    /\ omap w' = record
    /\ engine_calls (trace w')
       = [nvmf_get_subsystems nqn; nvmf_subsystem_remove_ns nqn (JNum 1)].
Proof.
  eapply (@forced_delete_stops_at_unstructured_error _
            (env detach_times_out) force_delete_subsystem
            (Bench.start record)).
  - reflexivity.
  - reflexivity.
  - reflexivity.
  - reflexivity.
  - reflexivity.
  - reflexivity.
  - reflexivity.
  - reflexivity.
  - reflexivity.
  - reflexivity.
  - reflexivity.
  - reflexivity.
  - reflexivity.
Defined.

(** Every call that sets a group state returns [false]: the listener is
    created with status 0 and recorded. *)
Lemma failed_groups_are_passed_over :
  exists w',
    @create_listener_safe _ (env groups_return_false) listen true
      (Bench.locked record) = (Ok (req_status 0), w')
    /\ dict_get
         (GatewayState.build_listener_key nqn "gw1" "TCP" "10.0.0.1" "4420")
         (omap w')
       = Some (@MessageToJson _ (env groups_return_false)
                 (MsgListener
                    (create_listener_req.mk nqn "gw1" "10.0.0.1" 0 0 4420
                       2))).
Proof.
  apply (@create_listener_passes_over_failed_groups _
           (env groups_return_false) listen
           (create_listener_req.mk nqn "gw1" "10.0.0.1" 0 0 4420 2)
           (Bench.locked record) "TCP" "ipv4" "AUTO_HA_UNSET"
           (JBool true) 1%nat).
  - reflexivity.
  - reflexivity.
  - reflexivity.
  - reflexivity.
  - reflexivity.
  - reflexivity.
  - reflexivity.
  - reflexivity.
  - reflexivity.
  - reflexivity.
  - intros g e. eexists _, _. reflexivity.
  - reflexivity.
Defined.

(** The stored limits are 100 R/W IOs and 7 MB/s written; the request sets
    50 MB/s read and written and nothing else: all three are persisted. *)
Lemma limits_of_namespace_1_are_merged :
  exists w',
    @namespace_set_qos_limits_safe _ (env healthy) set_qos true
      (Bench.locked record) = (Ok (req_status 0), w')
    /\ dict_get (GatewayState.build_namespace_qos_key nqn "1") (omap w')
       = Some (@MessageToJson _ (env healthy)
                 (MsgQos
                    (namespace_set_qos_req.mk nqn 1 "" (Some 100) (Some 50)
                       None (Some 7)))).
Proof.
  destruct (@qos_limits_are_merged _ (env healthy) set_qos
              (Bench.locked record)
              (mkWorld 1%nat record [] None [rpc_lock; omap_lock]
                 [Call (nvmf_get_subsystems nqn)])
              (JObj [ ("nsid", JNum 1); ("uuid", JStr "u1");
                      ("bdev_name", JStr "bdev_u1") ])
              (JStr "bdev_u1") (JNum 1) (JBool true) 2%nat
              eq_refl eq_refl eq_refl eq_refl
              ltac:(intros _; eexists; vm_compute; reflexivity)
              eq_refl eq_refl ltac:(reflexivity))
    as (merged & w' & Hrun & Hget & _ & Hfields).
  exists w'. split; [exact Hrun|].
  destruct (Hfields eq_refl) as (H1 & H2 & H3 & H4 & H5 & H6 & H7).
  destruct merged as [a b c d e f g]. cbn in H1, H2, H3, H4, H5, H6, H7.
  vm_compute in H4, H5, H6, H7. subst. exact Hget.
Defined.



(** Group id 5 for namespace 1. *)
Lemma group_5_is_refused :
  let res :=
    @namespace_change_load_balancing_group _ (env healthy) (change_group 5)
      true (Bench.start record) in
  (forall r, fst res = Ok r -> status r <> 0)
  /\ exists t,
       trace (snd res) = [] ++ Acquire omap_lock :: Acquire rpc_lock :: t
       /\ forallb (fun e => negb (attaches e)) t = true.
Proof.
  intros res.
  apply (@oversized_group_is_refused _ (env healthy) (change_group 5) true
           (Bench.start record) (fst res) (snd res)).
  - reflexivity.
  - apply surjective_pairing.
Defined.

(** C3, counterexample. Group id 0 is outside [1,4] and is not rejected:
    the namespace is detached and attached again with group id 0, under
    both locks. Group id 5 is rejected, but after both locks were taken
    and the namespace was detached and dropped from the persisted
    record. *)
Lemma group_0_is_accepted_and_group_5_detaches :
  let run g :=
    @namespace_change_load_balancing_group _ (env healthy) (change_group g)
      true (Bench.start record) in
  fst (run 0) = Ok (req_status 0)
  /\ trace (snd (run 0))
     = [ Acquire omap_lock; Acquire rpc_lock;
         Call (nvmf_get_subsystems nqn);
         Call (nvmf_subsystem_remove_ns nqn (JNum 1));
         Call (nvmf_subsystem_add_ns nqn (JStr "bdev_u1") (JNum 1) 0
                 (JStr "u1"));
         Release rpc_lock; Release omap_lock ]
  /\ fst (run 5) = Ok (req_status EINVAL)
  /\ trace (snd (run 5))
     = [ Acquire omap_lock; Acquire rpc_lock;
         Call (nvmf_get_subsystems nqn);
         Call (nvmf_subsystem_remove_ns nqn (JNum 1));
         Release rpc_lock; Release omap_lock ]
  /\ dict_get (GatewayState.build_namespace_key nqn "1") record
     = Some (Bench.json_dumps namespace_doc)
  /\ dict_get (GatewayState.build_namespace_key nqn "1")
       (omap (snd (run 5))) = None.
Proof. repeat split; reflexivity. Qed.

End OnTheBench.


(** * More of the properties at work on the test bench *)

Section MoreOnTheBench.

Import Scenario Cases.

Local Open Scope list_scope.

(** The engine returns [false] when asked to remove the host: the reply
    is an error and the entry of the host is gone. *)
Lemma failed_host_removal_drops_the_entry :
  let run :=
    @remove_host _ (env host_removal_returns_false) remove_host_1 true
      (Bench.start full_record) in
  dict_get host_key full_record = Some "{}"%string
  /\ fst run = Ok (req_status EINVAL)
  /\ dict_get host_key (omap (snd run)) = None.
Proof.
  intros run. split; [reflexivity|]. split; [reflexivity|].
  apply (@remove_host_cleans_record _ (env host_removal_returns_false)
           remove_host_1 (Bench.start full_record) (fst run) (snd run)).
  - reflexivity.
  - reflexivity.
  - reflexivity.
  - apply surjective_pairing.
Defined.

(** The removal of the listener times out: the operation ends in
    [UnboundLocalError], and the entry of the listener is gone. *)
Lemma timed_out_listener_removal_drops_the_entry :
  let run :=
    @delete_listener _ (env listener_removal_times_out) unlisten true
      (Bench.start full_record) in
  dict_get listener_key full_record
  = Some (Bench.json_dumps listener_doc)
  /\ fst run = Raised (UnboundLocalError "resp")
  /\ dict_get listener_key (omap (snd run)) = None.
Proof.
  intros run. split; [reflexivity|]. split; [reflexivity|].
  apply (@delete_listener_cleans_record _
           (env listener_removal_times_out) unlisten "TCP"%string
           "ipv4"%string (Bench.start full_record) (fst run) (snd run)).
  - reflexivity.
  - reflexivity.
  - reflexivity.
  - reflexivity.
  - reflexivity.
  - apply surjective_pairing.
Defined.

(** A lookup of namespace 1 in the listing of [Scenario]. *)
Lemma namespace_1_is_found :
  exists listing l e',
    @spdk _ (env healthy) (nvmf_get_subsystems nqn) 0%nat
    = (Returns listing, e')
    /\ iter_json listing = inr l
    /\ namespace_of nqn l
         (JObj [ ("nsid", JNum 1); ("uuid", JStr "u1");
                 ("bdev_name", JStr "bdev_u1") ]%string)
    /\ names_namespace 1 "u1"
         (JObj [ ("nsid", JNum 1); ("uuid", JStr "u1");
                 ("bdev_name", JStr "bdev_u1") ]%string).
Proof.
  apply (@found_namespace_is_the_one_asked_for _ (env healthy) nqn 1
           "u1"%string true (Bench.start record) _ (JStr "bdev_u1")
           (snd (@find_namespace_and_bdev_name _ (env healthy) nqn 1
                   "u1"%string true (Bench.start record)))).
  - reflexivity.
  - discriminate.
Defined.

(** The listing times out: the five operations answer ENODEV. *)
Lemma timed_out_listing_is_ENODEV :
  exists w',
    @namespace_delete _ (env listing_times_out) delete_namespace_1 true
      (Bench.start record) = (Ok (req_status ENODEV), w')
    /\ engine w' = 1%nat /\ omap w' = record
    /\ engine_calls (trace w') = [] ++ [nvmf_get_subsystems nqn].
Proof.
  apply (@failed_listing_is_no_such_namespace _ (env listing_times_out)
           nqn 1 ""%string true (Bench.start record) timeout 1%nat).
  - reflexivity.
  - reflexivity.
Defined.

(** The response above has code -19: the status is 19. *)
Lemma no_such_device_is_19 :
  @failure_status _ (Cases.env healthy)
    (JSONRPCException no_such_device_text) = inr (Z.abs (-19)).
Proof.
  apply (@failure_status_structured _ (Cases.env healthy)
           no_such_device_text
           [ ("code", JNum (-19)); ("message", JStr "No such device") ]%string
           (-19) (JStr "No such device")).
  - reflexivity.
  - reflexivity.
  - reflexivity.
Defined.

(** The engine times out on the removal of the subsystem: the operation
    ends in [UnboundLocalError] and the entry of the subsystem is gone. *)
Lemma timed_out_subsystem_removal_drops_the_entry :
  let run :=
    @delete_subsystem_safe _ (env subsystem_removal_times_out)
      force_delete_subsystem true (Bench.locked record) in
  dict_get (GatewayState.build_subsystem_key nqn) record
  = Some (Bench.json_dumps subsystem_doc)
  /\ fst run = Raised (UnboundLocalError "resp")
  /\ dict_get (GatewayState.build_subsystem_key nqn) (omap (snd run))
     = None.
Proof.
  intros run. split; [reflexivity|]. split; [reflexivity|].
  apply (@delete_subsystem_safe_cleans_record _
           (env subsystem_removal_times_out) force_delete_subsystem
           (Bench.locked record) (fst run) (snd run)).
  - reflexivity.
  - apply surjective_pairing.
Defined.

(** The engine creates the device and returns [false] for the
    attachment: the device is deleted again and the reply is EINVAL. *)
Lemma refused_attachment_is_rolled_back :
  exists w',
    @namespace_add_safe _ (env attach_returns_false) add_namespace true
      (Bench.locked record) = (Ok (nsid_status EINVAL 0), w')
    /\ omap w' = record
    /\ engine_calls (trace w')
       = [ bdev_rbd_register_cluster "cluster_context_0" None None;
           bdev_rbd_create "bdev_u2" "cluster_context_0" "pool1" "img2" 512
             "u2";
           nvmf_subsystem_add_ns nqn (JStr "bdev_u2") (JNum 0) 1
             (JStr "u2");
           bdev_rbd_delete (JStr "bdev_u2") ]%string.
Proof.
  destruct (@namespace_add_safe_rolls_back _ (env attach_returns_false)
              add_namespace true (Bench.locked record)
              (snd (@create_bdev _ (env attach_returns_false)
                      "bdev_u2" "u2" "pool1" "img2" 512
                      (Bench.locked record)))
              (snd (@create_namespace _ (env attach_returns_false) nqn
                      (JStr "bdev_u2") (JNum 0) 1 (JStr "u2") true
                      (snd (@create_bdev _ (env attach_returns_false)
                              "bdev_u2" "u2" "pool1" "img2" 512
                              (Bench.locked record)))))
              (bdev_status 0 "bdev_u2") (nsid_status EINVAL 0)
              eq_refl eq_refl eq_refl eq_refl eq_refl
              ltac:(vm_compute; discriminate))
    as (w' & Hrun & Homap & t & Ht).
  exists w'. split; [exact Hrun|]. split; [exact Homap|].
  injection Hrun as <-. reflexivity.
Defined.

(** An unforced delete of the subsystem of [Scenario], which has a
    namespace in the record. *)
Lemma unforced_delete_is_EBUSY :
  exists w',
    @delete_subsystem _ (env healthy) delete_subsystem_unforced true
      (Bench.start record) = (Ok (req_status EBUSY), w')
    /\ untouched (Bench.start record) w'.
Proof.
  apply (@subsystem_with_a_recorded_namespace_is_busy _ (env healthy)
           delete_subsystem_unforced (Bench.start record)).
  - reflexivity.
  - reflexivity.
  - exists (GatewayState.build_namespace_key nqn "1"),
      (Bench.json_dumps namespace_doc), namespace_doc, (JNum 1).
    split; [right; left; reflexivity|]. repeat split; reflexivity.
Defined.


(** The subsystem of [Scenario] is created in an empty record. *)
Lemma first_create_is_recorded :
  exists w',
    @create_subsystem _ (env healthy) create_first true (Bench.start [])
    = (Ok (req_status 0), w')
    /\ dict_get (GatewayState.build_subsystem_key nqn) (omap w')
       = Some (Bench.json_dumps subsystem_doc)
    /\ (forall k, k <> GatewayState.build_subsystem_key nqn ->
          dict_get k (omap w') = None)
    /\ engine w' = 1%nat
    /\ engine_calls (trace w')
       = [] ++ [nvmf_create_subsystem nqn "SPDK1" 32 1 65519 true].
Proof.
  apply (@created_subsystem_is_recorded _ (env healthy) create_first
           (Bench.start []) (JBool true) 1%nat).
  - repeat split; try reflexivity. vm_compute. discriminate.
  - reflexivity.
  - reflexivity.
  - reflexivity.
  - reflexivity.
  - reflexivity.
Defined.

(** ... and a second request for it, with another serial number, is
    answered EEXIST. *)
Lemma create_after_create_is_EEXIST :
  exists w1 w2,
    @create_subsystem _ (env healthy) create_first true (Bench.start [])
    = (Ok (req_status 0), w1)
    /\ @create_subsystem _ (env healthy) (create_again true true) true w1
       = (Ok (req_status EEXIST), w2)
    /\ untouched w1 w2.
Proof.
  apply (@created_subsystem_is_not_created_again _ (env healthy)
           create_first (create_again true true) (Bench.start [])
           (JBool true) 1%nat subsystem_doc).
  - repeat split; try reflexivity. vm_compute. discriminate.
  - reflexivity.
  - reflexivity.
  - reflexivity.
  - reflexivity.
  - reflexivity.
  - reflexivity.
  - reflexivity.
  - repeat split; try reflexivity. vm_compute. discriminate.
  - reflexivity.
Defined.

(** Namespace 1 of [Scenario] is deleted. *)
Lemma namespace_1_is_deleted :
  exists w',
    @namespace_delete _ (env healthy) delete_namespace_1 true
      (Bench.start record) = (Ok (req_status 0), w')
    /\ dict_get (GatewayState.build_namespace_key nqn "1") (omap w') = None
    /\ dict_get (GatewayState.build_namespace_qos_key nqn "1") (omap w')
       = None
    /\ (forall k,
          k <> GatewayState.build_namespace_key nqn "1" ->
          k <> GatewayState.build_namespace_qos_key nqn "1" ->
          dict_get k (omap w') = dict_get k record)
    /\ engine w' = 3%nat
    /\ engine_calls (trace w')
       = [] ++ [ nvmf_get_subsystems nqn;
                 nvmf_subsystem_remove_ns nqn (JNum 1);
                 bdev_rbd_delete (JStr "bdev_u1") ].
Proof.
  apply (@namespace_delete_removes_both_entries _ (env healthy)
           delete_namespace_1 (Bench.start record) listing
           (JObj [ ("nsid", JNum 1); ("uuid", JStr "u1");
                   ("bdev_name", JStr "bdev_u1") ]%string)
           (JStr "bdev_u1") (JNum 1) (JBool true) (JBool true)
           [ JObj [ ("nqn", JStr nqn);
                    ("namespaces",
                     JArr [ JObj [ ("nsid", JNum 1); ("uuid", JStr "u1");
                                   ("bdev_name", JStr "bdev_u1") ] ]) ]%string ]
           1%nat 2%nat 3%nat).
  - reflexivity.
  - reflexivity.
  - reflexivity.
  - reflexivity.
  - reflexivity.
  - reflexivity.
  - reflexivity.
  - reflexivity.
  - reflexivity.
  - reflexivity.
  - reflexivity.
  - reflexivity.
  - reflexivity.
  - reflexivity.
  - reflexivity.
Defined.

(** A namespace is added with NSID 0, for the engine to choose: the
    engine answers 1 and the request is recorded under 1. *)
Lemma added_namespace_is_recorded_under_1 :
  exists w',
    @namespace_add_safe _ (env healthy) add_namespace true
      (Bench.locked []) = (Ok (nsid_status 0 1), w')
    /\ omap w'
       = [ (GatewayState.build_namespace_key nqn "1",
            @MessageToJson _ (env healthy) (MsgNamespace add_namespace)) ]
    /\ engine w' = 3%nat
    /\ trace w'
       = [ Call (bdev_rbd_register_cluster "cluster_context_0" None None);
           Call (bdev_rbd_create "bdev_u2" "cluster_context_0" "pool1"
                   "img2" 512 "u2");
           Call (nvmf_subsystem_add_ns nqn (JStr "bdev_u2") (JNum 0) 1
                   (JStr "u2")) ]%string.
Proof.
  apply (@added_namespace_is_recorded_under_its_nsid _ (env healthy)
           add_namespace (Bench.locked [])
           (snd (@create_bdev _ (env healthy) "bdev_u2" "u2" "pool1" "img2"
                   512 (Bench.locked [])))
           (snd (@create_namespace _ (env healthy) nqn (JStr "bdev_u2")
                   (JNum 0) 1 (JStr "u2") true
                   (snd (@create_bdev _ (env healthy) "bdev_u2" "u2"
                           "pool1" "img2" 512 (Bench.locked [])))))
           (bdev_status 0 "bdev_u2") (nsid_status 0 1)).
  - reflexivity.
  - reflexivity.
  - reflexivity.
  - reflexivity.
  - reflexivity.
  - reflexivity.
  - reflexivity.
Defined.

(** Listeners asked of gateway gw1 for gateway gw2. *)
Lemma listener_of_gw2_is_not_created :
  exists w',
    @create_listener _ (env healthy) listen_elsewhere true
      (Bench.start full_record) = (Ok (req_status ENOENT), w')
    /\ untouched (Bench.start full_record) w'.
Proof.
  apply (@listener_of_another_gateway_is_not_created _ (env healthy)
           listen_elsewhere "TCP"%string "ipv4"%string
           "AUTO_HA_UNSET"%string true (Bench.start full_record)).
  - reflexivity.
  - reflexivity.
  - reflexivity.
  - reflexivity.
  - discriminate.
Defined.

Lemma listener_of_gw2_is_not_deleted :
  exists w',
    @delete_listener _ (env healthy) unlisten_elsewhere true
      (Bench.start full_record) = (Ok (req_status ENOENT), w')
    /\ untouched (Bench.start full_record) w'.
Proof.
  apply (@listener_of_another_gateway_is_not_deleted _ (env healthy)
           unlisten_elsewhere "TCP"%string "ipv4"%string true
           (Bench.start full_record)).
  - reflexivity.
  - reflexivity.
  - reflexivity.
  - discriminate.
Defined.

(** The listener of [Cases.full_record] is asked for again. *)
Lemma second_listener_is_EEXIST :
  exists w',
    @create_listener _ (env healthy) listen true (Bench.start full_record)
    = (Ok (req_status EEXIST), w')
    /\ untouched (Bench.start full_record) w'.
Proof.
  apply (@recorded_listener_is_not_created_again _ (env healthy) listen
           "TCP"%string "ipv4"%string "AUTO_HA_UNSET"%string
           (Bench.json_dumps listener_doc) (Bench.start full_record)).
  - reflexivity.
  - reflexivity.
  - reflexivity.
  - reflexivity.
  - reflexivity.
  - reflexivity.
  - vm_compute. discriminate.
Defined.

(** The four groups of a listener, on an engine that returns [false]
    each time. *)
Lemma four_groups_are_set :
  exists w',
    @set_ana_states _ (env groups_return_false) nqn "TCP" "10.0.0.1" "4420"
      "ipv4" 0 4 (Bench.locked record) = (Ok None, w')
    /\ trace w'
       = [] ++ map (fun g =>
                     Call (nvmf_subsystem_listener_set_ana_state nqn
                             "inaccessible" "TCP" "10.0.0.1" "4420" "ipv4"
                             g))
                [1; 2; 3; 4].
Proof.
  apply (@ana_groups_are_set_in_order _ (env groups_return_false) nqn
           "TCP"%string "10.0.0.1"%string "4420"%string "ipv4"%string
           (Bench.locked record)).
  intros g e. eexists _, _. reflexivity.
Defined.

(** Requests on the discovery subsystem. *)
Lemma discovery_subsystem_is_not_created_nor_deleted :
  (exists w',
     @create_subsystem _ (env healthy)
       (create_subsystem_req.mk discovery "SPDK9" 32 true true) true
       (Bench.start record) = (Ok (req_status EINVAL), w')
     /\ untouched (Bench.start record) w')
  /\ (exists w',
     @delete_subsystem _ (env healthy)
       (delete_subsystem_req.mk discovery true) true (Bench.start record)
     = (Ok (req_status EINVAL), w')
     /\ untouched (Bench.start record) w').
Proof.
  destruct (@discovery_subsystem_is_out_of_reach _ (env healthy) discovery
              true (Bench.start record) eq_refl) as (H1 & H2 & _).
  split; [apply H1|apply H2].
Defined.

(** After three acquisitions with two volumes per context, the first
    context is not the current one: it is full. *)
Lemma context_0_is_full :
  dict_get "cluster_context_0" (clusters pool_3) = Some 2
  /\ current_cluster pool_3 = Some "cluster_context_1"%string
  /\ 2 = @bdevs_per_cluster _ (Scenario.env healthy).
Proof.
  split; [reflexivity|]. split; [reflexivity|].
  apply (@contexts_are_filled_in_turn _ (Scenario.env healthy) pool_3 _
           pool_3_run
           "cluster_context_0"%string 2).
  - reflexivity.
  - vm_compute. discriminate.
Defined.

(** The statistics of namespace 1 come without the list of devices. *)
Lemma statistics_without_devices_end_in_name_error :
  exists w',
    @namespace_get_io_stats _ (env statistics_without_devices) io_stats_1
      true (Bench.start record) = (Raised (NameError "s"), w')
    /\ held w' = []
    /\ omap w' = record
    /\ engine_calls (trace w')
       = [] ++ [nvmf_get_subsystems nqn; bdev_get_iostat (JStr "bdev_u1")].
Proof.
  apply (@unreadable_statistics_end_in_name_error _
           (env statistics_without_devices) io_stats_1 true
           (Bench.start record) listing
           (JObj [ ("nsid", JNum 1); ("uuid", JStr "u1");
                   ("bdev_name", JStr "bdev_u1") ]%string)
           (JStr "bdev_u1") (JObj [("tick_rate", JNum 1000)]%string)
           [ JObj [ ("nqn", JStr nqn);
                    ("namespaces",
                     JArr [ JObj [ ("nsid", JNum 1); ("uuid", JStr "u1");
                                   ("bdev_name", JStr "bdev_u1") ] ]) ]%string ]
           1%nat 2%nat (KeyError "bdevs")).
  - reflexivity.
  - reflexivity.
  - reflexivity.
  - reflexivity.
  - reflexivity.
  - reflexivity.
  - reflexivity.
  - reflexivity.
  - reflexivity.
  - reflexivity.
Defined.

End MoreOnTheBench.
